(** * Phone Number Global Inspector: a shallow embedding of [main.py]

    The program is a linear enrichment pipeline: parse and validate a phone
    number, merge the answers of several libraries into one insertion-ordered
    dictionary, print it, and write two artifacts (a QR contact card and an
    HTML map).  The third-party libraries and the Python builtins that the
    program only calls are gathered in the record [World]; everything the
    program itself does (dictionary construction, the three [try] blocks, the
    guards of the artifact generators, the presentation layer) is translated
    function by function.

    Conventions:
    - Python [str] values are Rocq strings holding the UTF-8 bytes;
    - a Python [dict] is an association list in insertion order;
    - exceptions are values of [exn]; a computation is a function from the
      state it may change to the new state and either a value or a raised
      exception ([Py]);
    - console output, sleeps and file writes are recorded in a trace of
      [event]s. *)

From Stdlib Require Import ZArith Ascii String List Bool Lia DecimalString DecimalPos.
From stdpp Require Import base strings list gmap.

#[local] Set Warnings "-register-all".

(** ** Strings *)

Module Str.

(** [sep.join(parts)] *)
Fixpoint join (sep : string) (parts : list string) : string :=
  match parts with
  | [] => EmptyString
  | [p] => p
  | p :: rest => p +:+ sep +:+ join sep rest
  end.

(** [s.replace(old, new)] for a one-character [old]: every occurrence is
    replaced, left to right. *)
Fixpoint replace (old : ascii) (new : string) (s : string) : string :=
  match s with
  | EmptyString => EmptyString
  | String c rest =>
      if Ascii.eqb c old then new +:+ replace old new rest
      else String c (replace old new rest)
  end.

(** [c * n] for a one-character string. *)
Fixpoint repeat (c : ascii) (n : nat) : string :=
  match n with
  | O => EmptyString
  | S n' => String c (repeat c n')
  end.

(** Truth value of a string: non-empty. *)
Definition truthy (s : string) : bool :=
  match s with EmptyString => false | String _ _ => true end.

(** [x or default] on strings. *)
Definition or_else (s default : string) : string :=
  if truthy s then s else default.

(** A UTF-8 continuation byte is 10xxxxxx. *)
Definition is_continuation (c : ascii) : bool :=
  match c with
  | Ascii _ _ _ _ _ _ b6 b7 => b7 && negb b6
  end.

(** The characters (code points) of a UTF-8 string, each as a string. *)
Fixpoint chars (s : string) : list string :=
  match s with
  | EmptyString => []
  | String c rest =>
      match rest with
      | String c' _ =>
          if is_continuation c' then
            match chars rest with
            | h :: t => String c h :: t
            | [] => [String c EmptyString]
            end
          else String c EmptyString :: chars rest
      | EmptyString => [String c EmptyString]
      end
  end.

Definition is_digit (c : ascii) : bool :=
  (48 <=? nat_of_ascii c)%nat && (nat_of_ascii c <=? 57)%nat.

Fixpoint all_digits (s : string) : bool :=
  match s with
  | EmptyString => true
  | String c rest => is_digit c && all_digits rest
  end.

Fixpoint mem (c : ascii) (s : string) : bool :=
  match s with
  | EmptyString => false
  | String c' rest => Ascii.eqb c' c || mem c rest
  end.

(** Decimal numeral of an integer, as [str(int)] prints it. *)
Definition of_Z (z : Z) : string := NilZero.string_of_int (Z.to_int z).

End Str.

(** ** Exceptions *)

Inductive exn_class :=
  | NumberParseException      (* phonenumbers *)
  | UnknownTimeZoneError      (* pytz; a subclass of KeyError *)
  | KeyError
  | IndexError
  | TypeError
  | AttributeError
  | ValueError
  | GeocoderTimedOut          (* geopy.exc *)
  | GeocoderUnavailable       (* geopy.exc *)
  | MarkupError               (* rich.errors *)
  | FileNotFoundError         (* an OSError *)
  | OtherException            (* any other subclass of Exception *)
  | Exception.                (* the base class, used in handlers *)

Global Instance exn_class_eq_dec : EqDecision exn_class.
Proof. solve_decision. Defined.

(** A raised exception: its class and [str(e)]. *)
Record exn := mk_exn { exn_cls : exn_class; exn_str : string }.

(** [isinstance(e, handler)] for the classes above.  pytz declares
    [class UnknownTimeZoneError(KeyError, Error)]. *)
Definition is_instance (e : exn) (handler : exn_class) : bool :=
  bool_decide (handler = Exception)
  || bool_decide (exn_cls e = handler)
  || (bool_decide (exn_cls e = UnknownTimeZoneError) && bool_decide (handler = KeyError)).

(** [except (c1, c2, ...)] *)
Definition caught_by (handlers : list exn_class) (e : exn) : bool :=
  existsb (is_instance e) handlers.

Inductive result (A : Type) :=
  | Ret (a : A)
  | Raise (e : exn).
Arguments Ret {A} a.
Arguments Raise {A} e.

(** ** Computations with state and exceptions *)

Definition Py (S A : Type) : Type := S -> S * result A.

Definition ret {S A} (a : A) : Py S A := fun s => (s, Ret a).

Definition raise {S A} (e : exn) : Py S A := fun s => (s, Raise e).

Definition bind {S A B} (m : Py S A) (k : A -> Py S B) : Py S B :=
  fun s =>
    match m s with
    | (s', Ret a) => k a s'
    | (s', Raise e) => (s', Raise e)
    end.

(** The answer of a library call or of a builtin. *)
Definition call {S A} (r : result A) : Py S A := fun s => (s, r).

Definition get {S} : Py S S := fun s => (s, Ret s).

Definition modify {S} (f : S -> S) : Py S unit := fun s => (f s, Ret tt).

(** The [except] clauses of a [try], in order: the first clause one of whose
    classes the exception is an instance of handles it; with none, the
    exception propagates. *)
Definition except_clause (S A : Type) : Type := list exn_class * (exn -> Py S A).

Fixpoint dispatch {S A} (clauses : list (except_clause S A)) (e : exn) : Py S A :=
  match clauses with
  | [] => raise e
  | (classes, handler) :: rest =>
      if caught_by classes e then handler e else dispatch rest e
  end.

(** [try: body  except ...].  The state changes made by [body] before it
    raised are kept. *)
Definition try_except {S A} (body : Py S A) (clauses : list (except_clause S A))
    : Py S A :=
  fun s =>
    match body s with
    | (s', Ret a) => (s', Ret a)
    | (s', Raise e) => dispatch clauses e s'
    end.

(** A block that owns a local variable of type [L]. *)
Definition with_local {L S A} (init : L) (m : Py (L * S) A) : Py S A :=
  fun s =>
    match m (init, s) with
    | ((_, s'), r) => (s', r)
    end.

(** A computation that does not touch the local variable. *)
Definition lift {L S A} (m : Py S A) : Py (L * S) A :=
  fun ls =>
    match m ls.2 with
    | (s', r) => ((ls.1, s'), r)
    end.

Definition local {L S} : Py (L * S) L := fun ls => (ls, Ret ls.1).

Definition update_local {L S} (f : L -> L) : Py (L * S) unit :=
  fun ls => ((f ls.1, ls.2), Ret tt).

Declare Scope py_scope.
Delimit Scope py_scope with py.
Notation "x <- m ;; k" := (bind m (fun x => k))
  (at level 100, m at next level, right associativity) : py_scope.
Notation "m ;; k" := (bind m (fun _ => k))
  (at level 100, right associativity) : py_scope.
Open Scope py_scope.

(** ** Floating-point coordinates

    geopy's [Point] refuses coordinates that are not finite, so the
    [latitude] and [longitude] of a [Location] are finite binary64 values.
    Every such value is exactly [(-1)^neg * mant * 2^exp]; the sign is kept
    apart because Python prints it also for a zero. *)

Record pyfloat := mk_float { f_neg : bool; f_mant : N; f_exp : Z }.

Module Float.

Definition is_zero (x : pyfloat) : bool := N.eqb (f_mant x) 0.

(** Nearest integer to [num / den], ties to even ([0 <= num], [0 < den]). *)
Definition round_half_even (num den : Z) : Z :=
  let q := (num / den)%Z in
  let r := (num mod den)%Z in
  if (2 * r <? den)%Z then q
  else if (den <? 2 * r)%Z then (q + 1)%Z
  else if Z.even q then q else (q + 1)%Z.

(** [|x| * 10^4], correctly rounded to an integer. *)
Definition scaled4 (x : pyfloat) : Z :=
  let m := Z.of_N (f_mant x) in
  if (0 <=? f_exp x)%Z then (m * 2 ^ f_exp x * 10000)%Z
  else round_half_even (m * 10000) (2 ^ (- f_exp x)).

Definition digit (d : Z) : ascii := ascii_of_nat (48 + Z.to_nat d).

(** The four fraction digits of [n / 10^4]. *)
Definition fraction4 (n : Z) : string :=
  let r := (n mod 10000)%Z in
  String (digit (r / 1000))
    (String (digit (r / 100 mod 10))
       (String (digit (r / 10 mod 10))
          (String (digit (r mod 10)) EmptyString))).

(** [f"{x:.4f}"]: the conversion is correctly rounded (ties to even on
    the exact binary value) and keeps the sign of a negative zero. *)
Definition format_4f (x : pyfloat) : string :=
  let n := scaled4 x in
  (if f_neg x then "-" else EmptyString) +:+ Str.of_Z (n / 10000) +:+ "." +:+ fraction4 n.

End Float.

(** ** Python values

    The values that reach the dictionary: strings built by the program and
    whatever the country-facts service stores under a key (JSON data). *)

Inductive pyval :=
  | PyNone
  | PyBool (b : bool)
  | PyInt (z : Z)
  | PyFloat (x : pyfloat)
  | PyStr (s : string)
  | PyList (items : list pyval)
  | PyDict (entries : list (string * pyval)).

(** ** Dictionaries in insertion order *)

Definition dict : Type := list (string * pyval).

Module Dict.

(** [d.get(k)] as an option. *)
Fixpoint lookup (d : dict) (k : string) : option pyval :=
  match d with
  | [] => None
  | (k', v) :: rest => if String.eqb k' k then Some v else lookup rest k
  end.

(** [d.get(k)]: the value, or [None]. *)
Definition get (d : dict) (k : string) : pyval :=
  match lookup d k with
  | Some v => v
  | None => PyNone
  end.

(** [k in d] *)
Definition contains (d : dict) (k : string) : bool :=
  match lookup d k with
  | Some _ => true
  | None => false
  end.

(** [d[k]] *)
Definition getitem (d : dict) (k : string) : result pyval :=
  match lookup d k with
  | Some v => Ret v
  | None => Raise (mk_exn KeyError ("'" +:+ k +:+ "'"))
  end.

(** [d[k] = v]: an existing key keeps its position, a new key goes last. *)
Fixpoint set (d : dict) (k : string) (v : pyval) : dict :=
  match d with
  | [] => [(k, v)]
  | (k', v') :: rest =>
      if String.eqb k' k then (k, v) :: rest else (k', v') :: set rest k v
  end.

Definition keys (d : dict) : list string := map fst d.

(** The entries whose key is not among [ks]. *)
Fixpoint without (ks : list string) (d : dict) : dict :=
  match d with
  | [] => []
  | (k, v) :: rest =>
      if decide (k ∈ ks) then without ks rest else (k, v) :: without ks rest
  end.

End Dict.

Module Value.

(** [type(v).__name__] *)
Definition type_name (v : pyval) : string :=
  match v with
  | PyNone => "NoneType"
  | PyBool _ => "bool"
  | PyInt _ => "int"
  | PyFloat _ => "float"
  | PyStr _ => "str"
  | PyList _ => "list"
  | PyDict _ => "dict"
  end.

(** [bool(v)] *)
Definition truthy (v : pyval) : bool :=
  match v with
  | PyNone => false
  | PyBool b => b
  | PyInt z => negb (Z.eqb z 0)
  | PyFloat x => negb (Float.is_zero x)
  | PyStr s => Str.truthy s
  | PyList [] => false
  | PyList (_ :: _) => true
  | PyDict [] => false
  | PyDict (_ :: _) => true
  end.

(** [v.get(k)] *)
Definition get (v : pyval) (k : string) : result pyval :=
  match v with
  | PyDict entries => Ret (Dict.get entries k)
  | _ => Raise (mk_exn AttributeError
                  ("'" +:+ type_name v +:+ "' object has no attribute 'get'"))
  end.

(** [v[0]].  The keys of a JSON object are strings, so [0] is never one. *)
Definition getitem0 (v : pyval) : result pyval :=
  match v with
  | PyList (x :: _) => Ret x
  | PyList [] => Raise (mk_exn IndexError "list index out of range")
  | PyStr s =>
      match Str.chars s with
      | c :: _ => Ret (PyStr c)
      | [] => Raise (mk_exn IndexError "string index out of range")
      end
  | PyDict _ => Raise (mk_exn KeyError "0")
  | _ => Raise (mk_exn TypeError
                  ("'" +:+ type_name v +:+ "' object is not subscriptable"))
  end.

(** The items of [sep.join(...)] must all be strings. *)
Fixpoint join_items (i : nat) (items : list pyval) : result (list string) :=
  match items with
  | [] => Ret []
  | PyStr s :: rest =>
      match join_items (S i) rest with
      | Ret l => Ret (s :: l)
      | Raise e => Raise e
      end
  | v :: _ =>
      Raise (mk_exn TypeError
               ("sequence item " +:+ Str.of_Z (Z.of_nat i)
                +:+ ": expected str instance, " +:+ type_name v +:+ " found"))
  end.

(** [sep.join(v)]: a list is joined item by item, a string character by
    character, a dictionary key by key. *)
Definition join (sep : string) (v : pyval) : result string :=
  match v with
  | PyList items =>
      match join_items 0 items with
      | Ret l => Ret (Str.join sep l)
      | Raise e => Raise e
      end
  | PyStr s => Ret (Str.join sep (Str.chars s))
  | PyDict entries => Ret (Str.join sep (Dict.keys entries))
  | _ => Raise (mk_exn TypeError "can only join an iterable")
  end.

End Value.

(** ** What the program writes and prints *)

(** [qrcode.QRCode(version, box_size, border)] after [add_data],
    [make(fit)] and [make_image(fill_color, back_color)]. *)
Record qr_image := {
  qr_version : Z;
  qr_box_size : Z;
  qr_border : Z;
  qr_data : string;
  qr_fit : bool;
  qr_fill_color : string;
  qr_back_color : string
}.

(** What is added to a [folium.Map]. *)
Inductive map_child :=
  | TileLayer (tiles : string) (attr name : option string)
  | Marker (location : pyfloat * pyfloat) (popup : string)
  | LayerControl.

Record folium_map := {
  map_location : pyfloat * pyfloat;
  map_zoom_start : Z;
  map_children : list map_child
}.

Record rich_table := {
  table_title : string;
  table_border_style : string;
  table_header_style : string;
  table_columns : list string;
  table_rows : list (string * string)
}.

Inductive generator := create_qr_code_fn | create_location_map_fn.

Inductive event :=
  | Sleep (seconds : Z)                                  (* time.sleep *)
  | System (command : string)                            (* os.system *)
  | Print (markup : string)                              (* console.print of a string *)
  | Prompt (markup : string)                             (* console.input *)
  | PrintPanel (body title : string) (subtitle border_style : option string)
  | PrintTable (t : rich_table)
  | SaveImage (filename : string) (img : qr_image)       (* img.save *)
  | SaveMap (filename : string) (m : folium_map)         (* location_map.save *)
  | Enter (g : generator).                               (* an artifact generator is entered *)

Definition trace : Type := list event.

Definition emit (ev : event) : Py trace unit := modify (fun t => t ++ [ev]).

(** The names of the files a run has written, in order. *)
Definition files_written (t : trace) : list string :=
  omap (fun ev => match ev with
                  | SaveImage f _ => Some f
                  | SaveMap f _ => Some f
                  | _ => None
                  end) t.

(** The artifact generators a run has entered, in order. *)
Definition generators_invoked (t : trace) : list generator :=
  omap (fun ev => match ev with Enter g => Some g | _ => None end) t.

(** ** The collaborators

    The libraries the program calls and the builtins it relies on, one field
    per call; each call either answers or raises. *)

Inductive PhoneNumberFormat := E164 | INTERNATIONAL | NATIONAL | RFC3966.

(** A geopy [Location], as far as the program reads it. *)
Record Location := { latitude : pyfloat; longitude : pyfloat }.

Record World := {
  phone : Type;                                            (* phonenumbers.PhoneNumber *)
  tzinfo : Type;                                           (* a pytz time zone *)
  datetime : Type;                                         (* datetime.datetime *)
  parse : string -> result phone;                          (* phonenumbers.parse *)
  is_valid_number : phone -> result bool;
  format_number : phone -> PhoneNumberFormat -> result string;
  description_for_number : phone -> string -> result string;   (* geocoder *)
  number_type : phone -> result Z;                         (* phonenumberutil.number_type *)
  name_for_number : phone -> string -> result string;      (* carrier *)
  time_zones_for_number : phone -> result (list string);   (* timezone *)
  pytz_timezone : string -> result tzinfo;                 (* pytz.timezone *)
  datetime_now : tzinfo -> result datetime;                (* datetime.now(tz) *)
  strftime : datetime -> string -> string;
  region_code_for_number : phone -> result (option string);
  country_info : string -> result pyval;                   (* CountryInfo(code).info() *)
  geocode : string -> string -> result (option Location);  (* geolocator.geocode(name, language) *)
  float_repr : pyfloat -> string;                          (* repr(float) *)
  str_repr : string -> string;                             (* repr(str) *)
  float_of : pyval -> result pyfloat;                      (* float(v) *)
  os_name : string;                                        (* os.name *)
  render_markup : string -> result unit;                   (* rich parses the markup of a text it prints *)
  save_image : string -> result unit                       (* img.save(filename) *)
}.

(** ** The program *)

(** [phonenumberutil.PhoneNumberType]: the library's integer constants. *)
Module PhoneNumberType.
Definition FIXED_LINE : Z := 0.
Definition MOBILE : Z := 1.
Definition FIXED_LINE_OR_MOBILE : Z := 2.
Definition TOLL_FREE : Z := 3.
Definition PREMIUM_RATE : Z := 4.
Definition SHARED_COST : Z := 5.
Definition VOIP : Z := 6.
Definition PERSONAL_NUMBER : Z := 7.
Definition PAGER : Z := 8.
Definition UAN : Z := 9.
Definition VOICEMAIL : Z := 10.
Definition UNKNOWN : Z := 99.
End PhoneNumberType.

(** Human-readable mappings for phone number types. *)
Definition NUMBER_TYPE_MAP : gmap Z string :=
  <[PhoneNumberType.FIXED_LINE := "Fixed Line"]>
  (<[PhoneNumberType.MOBILE := "Mobile"]>
  (<[PhoneNumberType.TOLL_FREE := "Toll-Free"]>
  (<[PhoneNumberType.PREMIUM_RATE := "Premium Rate"]>
  (<[PhoneNumberType.UNKNOWN := "Unknown"]> ∅)))).

Definition newline : string := String (ascii_of_nat 10) EmptyString.

Section Program.

Context (W : World).

(** [repr(v)] *)
Fixpoint py_repr (v : pyval) : string :=
  match v with
  | PyNone => "None"
  | PyBool true => "True"
  | PyBool false => "False"
  | PyInt z => Str.of_Z z
  | PyFloat x => float_repr W x
  | PyStr s => str_repr W s
  | PyList items => "[" +:+ Str.join ", " (map py_repr items) +:+ "]"
  | PyDict entries =>
      "{" +:+ Str.join ", "
                (map (fun kv => match kv with
                                | (k, x) => str_repr W k +:+ ": " +:+ py_repr x
                                end) entries) +:+ "}"
  end.

(** [str(v)], also what an f-string field prints. *)
Definition py_str (v : pyval) : string :=
  match v with
  | PyStr s => s
  | _ => py_repr v
  end.

(** [info[k] = v] on the local dictionary. *)
Definition setitem {S} (k : string) (v : pyval) : Py (dict * S) unit :=
  update_local (fun info => Dict.set info k v).

(** [t[0]] on a tuple. *)
Definition first_of (t : list string) : result string :=
  match t with
  | x :: _ => Ret x
  | [] => Raise (mk_exn IndexError "tuple index out of range")
  end.

(** Fetches geographic coordinates (lat, lon) for a given location name. *)
Definition get_coordinates (location_name : string)
    : Py trace (option (pyfloat * pyfloat)) :=
  try_except
    (emit (Sleep 1) ;;
     location <- call (geocode W location_name "en") ;;
     ret (match location with
          | Some place => Some (latitude place, longitude place)
          | None => None
          end))
    [([GeocoderTimedOut; GeocoderUnavailable],
      fun _ =>
        emit (Print "[bold red]Geocoding service is unavailable or timed out.[/bold red]") ;;
        ret None)].

(** Timezone & Local Time Enrichment *)
Definition timezone_enrichment (phone_number_obj : phone W)
    : Py (dict * trace) unit :=
  timezone_list <- call (time_zones_for_number W phone_number_obj) ;;
  match timezone_list with
  | _ :: _ =>
      try_except
        (first_timezone <- call (first_of timezone_list) ;;
         tz <- call (pytz_timezone W first_timezone) ;;
         local_time <- call (datetime_now W tz) ;;
         setitem "Current Local Time"
           (PyStr (strftime W local_time "%A, %Y-%m-%d, %H:%M:%S %Z%z")))
        [([UnknownTimeZoneError],
          fun _ => setitem "Current Local Time" (PyStr "Invalid timezone data."))]
  | [] => ret tt
  end.

(** The [try] block of the country information enrichment. *)
Definition country_lookup (country_code : string) : Py (dict * trace) unit :=
  country_data <- call (country_info W country_code) ;;
  name <- call (Value.get country_data "name") ;;
  setitem "Country" (PyStr (py_str name +:+ " (" +:+ country_code +:+ ")")) ;;
  capital <- call (Value.get country_data "capital") ;;
  setitem "Capital City" capital ;;
  currencies <- call (Value.get country_data "currencies") ;;
  currency <- call (Value.getitem0 currencies) ;;
  setitem "Currency" (PyStr (py_str currency)) ;;
  region <- call (Value.get country_data "region") ;;
  setitem "Continent / Region" region ;;
  borders <- call (Value.get country_data "borders") ;;
  if Value.truthy borders then
    borders' <- call (Value.get country_data "borders") ;;
    joined <- call (Value.join ", " borders') ;;
    setitem "Bordering Countries" (PyStr joined)
  else
    setitem "Bordering Countries" (PyStr "None").

(** Country Information Enrichment *)
Definition country_enrichment (phone_number_obj : phone W)
    : Py (dict * trace) unit :=
  country_code <- call (region_code_for_number W phone_number_obj) ;;
  match country_code with
  | Some code =>
      if Str.truthy code then
        try_except
          (country_lookup code)
          [([KeyError; IndexError],
            fun _ => setitem "Country Info" (PyStr "Could not retrieve."))]
      else ret tt
  | None => ret tt
  end.

(** Geolocation Enrichment *)
Definition geolocation_enrichment (location_str : string)
    : Py (dict * trace) unit :=
  if Str.truthy location_str then
    coords <- lift (get_coordinates location_str) ;;
    match coords with
    | Some (lat, lon) =>
        setitem "Latitude" (PyStr (Float.format_4f lat)) ;;
        setitem "Longitude" (PyStr (Float.format_4f lon)) ;;
        setitem "Google Maps Link"
          (PyStr ("https://maps.google.com/maps?q="
                  +:+ float_repr W lat +:+ "," +:+ float_repr W lon))
    | None => ret tt
    end
  else ret tt.

(** Basic Information Gathering: the dictionary literal. *)
Definition basic_information (e164_format international national : string)
    (category : Z) (location_str carrier : string) : dict :=
  [("E.164 Format", PyStr e164_format);
   ("International Format", PyStr international);
   ("National Format", PyStr (Str.or_else national "N/A"));
   ("Number Type", PyStr (default "Other" (NUMBER_TYPE_MAP !! category)));
   ("Area Code Location", PyStr (Str.or_else location_str "N/A"));
   ("Mobile Carrier", PyStr (Str.or_else carrier "N/A"))].

(** The [try] block of [get_phone_info]. *)
Definition analyse (phone_number_str : string) : Py trace pyval :=
  phone_number_obj <- call (parse W phone_number_str) ;;
  valid <- call (is_valid_number W phone_number_obj) ;;
  if negb valid then ret (PyStr "❌ Error: Invalid phone number format.")
  else
    e164_format <- call (format_number W phone_number_obj E164) ;;
    location_str <- call (description_for_number W phone_number_obj "en") ;;
    international <- call (format_number W phone_number_obj INTERNATIONAL) ;;
    national <- call (format_number W phone_number_obj NATIONAL) ;;
    category <- call (number_type W phone_number_obj) ;;
    carrier <- call (name_for_number W phone_number_obj "en") ;;
    with_local
      (basic_information e164_format international national category
         location_str carrier)
      (timezone_enrichment phone_number_obj ;;
       country_enrichment phone_number_obj ;;
       geolocation_enrichment location_str ;;
       setitem "WhatsApp Link"
         (PyStr ("https://wa.me/" +:+ Str.replace "+" EmptyString e164_format)) ;;
       info <- local ;;
       ret (PyDict info)).

(** The [except] clauses of [get_phone_info]. *)
Definition error_handlers (phone_number_str : string)
    : list (except_clause trace pyval) :=
  [([NumberParseException],
    fun _ => ret (PyStr ("❌ Error: Failed to parse '" +:+ phone_number_str
                         +:+ "'. Please check the format.")));
   ([Exception],
    fun e => ret (PyStr ("❌ An unexpected error occurred: " +:+ exn_str e)))].

(** Analyzes a phone number and returns a dictionary of enriched
    information, or an error string. *)
Definition get_phone_info (phone_number_str : string) : Py trace pyval :=
  try_except (analyse phone_number_str) (error_handlers phone_number_str).

(** Creates a vCard QR code and saves it as a PNG file.  [img.save] opens
    the file first: when that raises, no file is written and the exception
    leaves the function. *)
Definition create_qr_code (info : dict) : Py trace unit :=
  emit (Enter create_qr_code_fn) ;;
  let e164_format := Dict.get info "E.164 Format" in
  if negb (Value.truthy e164_format) then ret tt
  else
    let vcard_str :=
      "BEGIN:VCARD" +:+ newline +:+ "VERSION:3.0" +:+ newline
      +:+ "FN:" +:+ py_str e164_format +:+ newline
      +:+ "TEL;TYPE=CELL:" +:+ py_str e164_format +:+ newline +:+ "END:VCARD" in
    let img :=
      {| qr_version := 1; qr_box_size := 10; qr_border := 2;
         qr_data := vcard_str; qr_fit := true;
         qr_fill_color := "black"; qr_back_color := "white" |} in
    let img_filename := "contact_" +:+ py_str e164_format +:+ ".png" in
    call (save_image W img_filename) ;;
    emit (SaveImage img_filename img) ;;
    emit (Print ("✅ [bold green]Contact QR Code saved as '" +:+ img_filename
                 +:+ "'[/bold green]")).

(** Creates an interactive map with satellite view and saves it as an HTML
    file. *)
Definition create_location_map (info : dict) : Py trace unit :=
  emit (Enter create_location_map_fn) ;;
  if negb (Dict.contains info "Latitude") || negb (Dict.contains info "Longitude")
  then ret tt
  else
    latitude <- call (Dict.getitem info "Latitude") ;;
    lat <- call (float_of W latitude) ;;
    longitude <- call (Dict.getitem info "Longitude") ;;
    lon <- call (float_of W longitude) ;;
    let popup_html :=
      "<b>" +:+ py_str (Dict.get info "Area Code Location")
      +:+ "</b><br><i>Estimated location for "
      +:+ py_str (Dict.get info "International Format") +:+ "</i>" in
    let location_map :=
      {| map_location := (lat, lon);
         map_zoom_start := 11;
         map_children :=
           [TileLayer "OpenStreetMap" None None;
            TileLayer "https://server.arcgisonline.com/ArcGIS/rest/services/World_Imagery/MapServer/tile/{z}/{y}/{x}"
              (Some "Esri") (Some "Satellite View");
            Marker (lat, lon) popup_html;
            LayerControl] |} in
    let html_filename := "map_" +:+ py_str (Dict.get info "E.164 Format") +:+ ".html" in
    emit (SaveMap html_filename location_map) ;;
    emit (Print ("✅ [bold blue]Interactive Map saved as '" +:+ html_filename
                 +:+ "'[/bold blue]")).

(** [console.print] renders before it writes: rich parses each text of
    what it is given as markup, and nothing is written when one of them
    raises.  The texts of a table are those of its cells, column by
    column. *)
Fixpoint render_all (texts : list string) : Py trace unit :=
  match texts with
  | [] => ret tt
  | text :: rest => call (render_markup W text) ;; render_all rest
  end.

(** Displays the analysis results in a formatted table or shows an error
    panel. *)
Definition display_results (result : pyval) : Py trace unit :=
  match result with
  | PyStr message =>
      render_all [message] ;;
      emit (PrintPanel message "[bold red]Error[/bold red]" None (Some "red"))
  | PyDict info =>
      let rows := map (fun kv => (kv.1, py_str kv.2)) info in
      render_all (map fst rows ++ map snd rows) ;;
      emit (PrintTable
              {| table_title := "✨ Phone Number Analysis Results";
                 table_border_style := "cyan";
                 table_header_style := "bold magenta";
                 table_columns := ["Attribute"; "Information"];
                 table_rows := rows |}) ;;
      emit (Print ("--- [bold]Generated Outputs[/bold] " +:+ Str.repeat "-" 50)) ;;
      create_location_map info ;;
      create_qr_code info ;;
      emit (Print "[dim i]Disclaimer: The map shows the geographical center of the AREA CODE, not a real-time GPS location.[/dim i]")
  | _ => ret tt
  end.

(** The script: [argv_number] is the optional command-line argument,
    [typed] what the user enters at the prompt when it is asked. *)
Definition main (argv_number : option string) (typed : string) : Py trace unit :=
  emit (System (if String.eqb (os_name W) "nt" then "cls" else "clear")) ;;
  emit (PrintPanel "Ultimate Edition v8.1"
          "[bold blue]Phone Number Global Inspector[/bold blue]"
          (Some "[dim]By M Mishbahul M[/dim]") None) ;;
  number_to_analyze <-
    (if Str.truthy (default EmptyString argv_number) then
       ret (default EmptyString argv_number)
     else
       emit (Prompt "[bold yellow]➡️ Enter a phone number (e.g., +14155552671): [/bold yellow]") ;;
       ret typed) ;;
  if negb (Str.truthy number_to_analyze) then
    emit (Print "[bold red]No number was provided. Exiting program.[/bold red]")
  else
    analysis_result <- get_phone_info number_to_analyze ;;
    display_results analysis_result.

End Program.

(** ** A concrete world

    One number, [+14155552671], as the libraries answer for it; the time
    zones, the country facts and the geocoder are left open so that the
    degraded runs can be replayed as well. *)

Module Demo.

Definition san_francisco : Location :=
  {| latitude := mk_float false 5316925259898131 (-47);
     longitude := mk_float true 4307267523783837 (-45) |}.

Definition united_states : pyval :=
  PyDict [("name", PyStr "United States");
          ("capital", PyStr "Washington D.C.");
          ("currencies", PyList [PyStr "USD"; PyStr "USN"; PyStr "USS"]);
          ("region", PyStr "Americas");
          ("borders", PyList [PyStr "CAN"; PyStr "MEX"])].

(** The same facts without the [currencies] key. *)
Definition united_states_no_currencies : pyval :=
  PyDict [("name", PyStr "United States");
          ("capital", PyStr "Washington D.C.");
          ("region", PyStr "Americas");
          ("borders", PyList [PyStr "CAN"; PyStr "MEX"])].

(** The same facts with an empty [currencies] list. *)
Definition united_states_empty_currencies : pyval :=
  PyDict [("name", PyStr "United States");
          ("capital", PyStr "Washington D.C.");
          ("currencies", PyList []);
          ("region", PyStr "Americas");
          ("borders", PyList [PyStr "CAN"; PyStr "MEX"])].

Definition known_country (facts : pyval) (code : string) : result pyval :=
  if String.eqb code "US" then Ret facts
  else Raise (mk_exn KeyError ("'" +:+ code +:+ "'")).

Definition unknown_country (code : string) : result pyval :=
  Raise (mk_exn KeyError ("'" +:+ code +:+ "'")).

Definition found (name language : string) : result (option Location) :=
  Ret (Some san_francisco).

Definition no_match (name language : string) : result (option Location) :=
  Ret None.

(** A parsed number: the digits after the plus sign. *)
Definition parse_plus_digits (s : string) : result string :=
  match s with
  | String "+" digits =>
      if Str.truthy digits && Str.all_digits digits then Ret digits
      else Raise (mk_exn NumberParseException
                    "(1) The string supplied did not seem to be a phone number.")
  | _ => Raise (mk_exn NumberParseException
                  "(0) Missing or invalid default region.")
  end.

Definition zone (name : string) : result string :=
  if String.eqb name "America/Los_Angeles" then Ret name
  else Raise (mk_exn UnknownTimeZoneError ("'" +:+ name +:+ "'")).

Definition parse_float (v : pyval) : result pyfloat :=
  match v with
  | PyFloat x => Ret x
  | PyStr s =>
      if String.eqb s "37.7790" then Ret (mk_float false 5316921572575937 (-47))
      else if String.eqb s "-122.4199" then Ret (mk_float true 8614534625355209 (-46))
      else Raise (mk_exn ValueError ("could not convert string to float: '" +:+ s +:+ "'"))
  | _ => Raise (mk_exn TypeError
                  "float() argument must be a string or a real number")
  end.

(** What rich does with the tags of a text it prints: an opening tag
    [[name]] is remembered, a closing tag [[/name]] must close a remembered
    tag of that name and [[/]] the last one, or [MarkupError] is raised with
    the position of the tag; a bracket after a backslash is text.  Names are
    compared as they are written. *)
Record tags := {
  open_tags : list string;          (* innermost first *)
  tag_start : option (Z * string);  (* inside a tag: where it began, its text so far *)
  position : Z;                     (* characters read so far *)
  escaped : bool                    (* an odd number of backslashes precedes *)
}.

Fixpoint close_tag (name : string) (opened : list string) : option (list string) :=
  match opened with
  | [] => None
  | tag :: rest =>
      if String.eqb tag name then Some rest
      else option_map (cons tag) (close_tag name rest)
  end.

Definition backslash : ascii := ascii_of_nat 92.

Definition starts_tag (c : ascii) : bool :=
  let n := nat_of_ascii c in
  (Nat.leb 97 n && Nat.leb n 122) || Str.mem c "#/@".

Definition end_of_tag (st : tags) (start : Z) (text : string) : result tags :=
  let next opened :=
    Ret {| open_tags := opened; tag_start := None;
           position := (position st + 1)%Z; escaped := false |} in
  match text with
  | String "/" EmptyString =>
      match open_tags st with
      | _ :: rest => next rest
      | [] => Raise (mk_exn MarkupError
                       ("closing tag '[/]' at position " +:+ Str.of_Z start
                        +:+ " has nothing to close"))
      end
  | String "/" name =>
      match close_tag name (open_tags st) with
      | Some rest => next rest
      | None => Raise (mk_exn MarkupError
                         ("closing tag '[" +:+ text +:+ "]' at position "
                          +:+ Str.of_Z start +:+ " doesn't match any open tag"))
      end
  | _ => next (text :: open_tags st)
  end.

Definition read_char (st : tags) (c : ascii) : result tags :=
  let moved := if Str.is_continuation c then position st else (position st + 1)%Z in
  let odd := Ascii.eqb c backslash && negb (escaped st) in
  let plain :=
    Ret {| open_tags := open_tags st; tag_start := None; position := moved;
           escaped := odd |} in
  let inside start text :=
    Ret {| open_tags := open_tags st; tag_start := Some (start, text);
           position := moved; escaped := odd |} in
  if Ascii.eqb c "[" then
    if escaped st then plain else inside (position st) EmptyString
  else
    match tag_start st with
    | None => plain
    | Some (start, EmptyString) =>
        if starts_tag c then inside start (String c EmptyString) else plain
    | Some (start, text) =>
        if Ascii.eqb c "]" then end_of_tag st start text
        else inside start (text +:+ String c EmptyString)
    end.

Fixpoint read_markup (st : tags) (text : string) : result unit :=
  match text with
  | EmptyString => Ret tt
  | String c rest =>
      match read_char st c with
      | Ret st' => read_markup st' rest
      | Raise e => Raise e
      end
  end.

Definition render (text : string) : result unit :=
  read_markup {| open_tags := []; tag_start := None; position := 0;
                 escaped := false |} text.

(** A directory without sub-directories: a file name that goes through
    one cannot be opened. *)
Definition save (filename : string) : result unit :=
  if Str.mem "/" filename
  then Raise (mk_exn FileNotFoundError
                ("[Errno 2] No such file or directory: '" +:+ filename +:+ "'"))
  else Ret tt.

Definition world (zones : list string) (facts : string -> result pyval)
    (geo : string -> string -> result (option Location)) : World :=
  {| phone := string;
     tzinfo := string;
     datetime := string;
     parse := parse_plus_digits;
     is_valid_number := fun n => Ret (String.eqb n "14155552671");
     format_number := fun n fmt =>
       Ret (match fmt with
            | E164 => "+" +:+ n
            | INTERNATIONAL => "+1 415-555-2671"
            | NATIONAL => "(415) 555-2671"
            | RFC3966 => "tel:+1-415-555-2671"
            end);
     description_for_number := fun _ _ => Ret "San Francisco, CA";
     number_type := fun _ => Ret PhoneNumberType.FIXED_LINE_OR_MOBILE;
     name_for_number := fun _ _ => Ret EmptyString;
     time_zones_for_number := fun _ => Ret zones;
     pytz_timezone := zone;
     datetime_now := fun tz => Ret tz;
     strftime := fun _ _ => "Tuesday, 2024-01-02, 03:04:05 PST-0800";
     region_code_for_number := fun _ => Ret (Some "US");
     country_info := facts;
     geocode := geo;
     float_repr := fun x =>
       if N.eqb (f_mant x) 5316925259898131 then "37.7790262" else "-122.419906";
     str_repr := fun s => "'" +:+ s +:+ "'";
     float_of := parse_float;
     os_name := "posix";
     render_markup := render;
     save_image := save |}.

Definition usual : World :=
  world ["America/Los_Angeles"] (known_country united_states) found.

(** The record of [+14155552671] in the usual world. *)
Definition usual_record : dict :=
  [("E.164 Format", PyStr "+14155552671");
   ("International Format", PyStr "+1 415-555-2671");
   ("National Format", PyStr "(415) 555-2671");
   ("Number Type", PyStr "Other");
   ("Area Code Location", PyStr "San Francisco, CA");
   ("Mobile Carrier", PyStr "N/A");
   ("Current Local Time", PyStr "Tuesday, 2024-01-02, 03:04:05 PST-0800");
   ("Country", PyStr "United States (US)");
   ("Capital City", PyStr "Washington D.C.");
   ("Currency", PyStr "USD");
   ("Continent / Region", PyStr "Americas");
   ("Bordering Countries", PyStr "CAN, MEX");
   ("Latitude", PyStr "37.7790");
   ("Longitude", PyStr "-122.4199");
   ("Google Maps Link",
    PyStr "https://maps.google.com/maps?q=37.7790262,-122.419906");
   ("WhatsApp Link", PyStr "https://wa.me/14155552671")].

End Demo.

(** ** Vocabulary of the properties *)

(** The keys each enrichment step may write. *)
Definition timezone_keys : list string := ["Current Local Time"].

Definition country_keys : list string :=
  ["Country"; "Capital City"; "Currency"; "Continent / Region";
   "Bordering Countries"; "Country Info"].

Definition geolocation_keys : list string :=
  ["Latitude"; "Longitude"; "Google Maps Link"].

Definition basic_keys : list string :=
  ["E.164 Format"; "International Format"; "National Format"; "Number Type";
   "Area Code Location"; "Mobile Carrier"].

(** [updated ks d d']: [d'] is [d] after some assignments [d[k] = v] with
    [k] among [ks]. *)
Inductive updated (ks : list string) : dict -> dict -> Prop :=
  | updated_refl d : updated ks d d
  | updated_set d d' k v :
      updated ks d d' -> k ∈ ks -> updated ks d (Dict.set d' k v).

(** [m] relates the state it starts in to the state it ends in by [R],
    whether it returns or raises. *)
Definition preserves {S A} (R : S -> S -> Prop) (m : Py S A) : Prop :=
  forall s s' r, m s = (s', r) -> R s s'.

(** The local dictionary only receives keys of [ks]. *)
Definition writes {A} (ks : list string) (m : Py (dict * trace) A) : Prop :=
  preserves (fun s s' => updated ks s.1 s'.1) m.

(** Nothing is printed, slept or saved. *)
Definition silent {L A} (m : Py (L * trace) A) : Prop :=
  preserves (fun s s' => s'.2 = s.2) m.

(** The claim's words: [e] stripped of its leading plus sign. *)
Definition strip_leading_plus (e : string) : string :=
  match e with
  | String "+" rest => rest
  | _ => e
  end.

(** An E.164 number: a plus sign and then digits only. *)
Definition E164_form (e : string) : bool :=
  match e with
  | String "+" rest => Str.all_digits rest
  | _ => false
  end.

Module Fixed4.

(** The text before the first dot, and the text after it. *)
Fixpoint split_at_dot (s : string) : option (string * string) :=
  match s with
  | EmptyString => None
  | String c rest =>
      if Ascii.eqb c "." then Some (EmptyString, rest)
      else match split_at_dot rest with
           | Some (a, b) => Some (String c a, b)
           | None => None
           end
  end.

Definition unsigned (s : string) : bool :=
  match split_at_dot s with
  | Some (int_part, fraction) =>
      Str.truthy int_part && Str.all_digits int_part
      && Nat.eqb (String.length fraction) 4 && Str.all_digits fraction
  | None => false
  end.

(** A decimal numeral with exactly four fraction digits: an optional
    minus sign, at least one digit, a dot, four digits. *)
Definition well_formed (s : string) : bool :=
  match s with
  | String "-" rest => unsigned rest
  | _ => unsigned s
  end.

(** The numeral carries a minus sign. *)
Definition negative (s : string) : bool :=
  match s with
  | String "-" _ => true
  | _ => false
  end.

(** The number a string of digits denotes. *)
Fixpoint digits_value (acc : Z) (s : string) : Z :=
  match s with
  | EmptyString => acc
  | String c rest =>
      digits_value (10 * acc + (Z.of_nat (nat_of_ascii c) - 48))%Z rest
  end.

(** The absolute value of the numeral, in units of [10^-4]. *)
Definition magnitude (s : string) : option Z :=
  let body := match s with String "-" rest => rest | _ => s end in
  match split_at_dot body with
  | Some (int_part, fraction) =>
      Some (digits_value 0 int_part * 10000 + digits_value 0 fraction)%Z
  | None => None
  end.

(** [n] is a nearest integer to [|x| * 10^4]: at most half a unit away. *)
Definition nearest (x : pyfloat) (n : Z) : Prop :=
  let m := Z.of_N (f_mant x) in
  if (0 <=? f_exp x)%Z then n = (m * 2 ^ f_exp x * 10000)%Z
  else (2 * Z.abs (n * 2 ^ (- f_exp x) - m * 10000) <= 2 ^ (- f_exp x))%Z.

End Fixed4.

(** What the geolocation enrichment does to the dictionary, given the
    answer of [get_coordinates]. *)
Definition geolocation_update (W : World) (coords : option (pyfloat * pyfloat))
    (info : dict) : dict :=
  match coords with
  | Some (lat, lon) =>
      Dict.set
        (Dict.set (Dict.set info "Latitude" (PyStr (Float.format_4f lat)))
           "Longitude" (PyStr (Float.format_4f lon)))
        "Google Maps Link"
        (PyStr ("https://maps.google.com/maps?q="
                +:+ float_repr W lat +:+ "," +:+ float_repr W lon))
  | None => info
  end.

(** The same world with another geocoding service. *)
Definition with_geocode (W : World)
    (g : string -> string -> result (option Location)) : World :=
  {| phone := phone W; tzinfo := tzinfo W; datetime := datetime W;
     parse := parse W; is_valid_number := is_valid_number W;
     format_number := format_number W;
     description_for_number := description_for_number W;
     number_type := number_type W; name_for_number := name_for_number W;
     time_zones_for_number := time_zones_for_number W;
     pytz_timezone := pytz_timezone W; datetime_now := datetime_now W;
     strftime := strftime W;
     region_code_for_number := region_code_for_number W;
     country_info := country_info W; geocode := g;
     float_repr := float_repr W; str_repr := str_repr W;
     float_of := float_of W; os_name := os_name W;
     render_markup := render_markup W; save_image := save_image W |}.

(** The same world with another country-facts service. *)
Definition with_country_info (W : World) (facts : string -> result pyval) : World :=
  {| phone := phone W; tzinfo := tzinfo W; datetime := datetime W;
     parse := parse W; is_valid_number := is_valid_number W;
     format_number := format_number W;
     description_for_number := description_for_number W;
     number_type := number_type W; name_for_number := name_for_number W;
     time_zones_for_number := time_zones_for_number W;
     pytz_timezone := pytz_timezone W; datetime_now := datetime_now W;
     strftime := strftime W;
     region_code_for_number := region_code_for_number W;
     country_info := facts; geocode := geocode W;
     float_repr := float_repr W; str_repr := str_repr W;
     float_of := float_of W; os_name := os_name W;
     render_markup := render_markup W; save_image := save_image W |}.

(** The same world where the time-zone service answers [zones] for every
    number. *)
Definition with_time_zones (W : World) (zones : phone W -> result (list string))
    : World :=
  {| phone := phone W; tzinfo := tzinfo W; datetime := datetime W;
     parse := parse W; is_valid_number := is_valid_number W;
     format_number := format_number W;
     description_for_number := description_for_number W;
     number_type := number_type W; name_for_number := name_for_number W;
     time_zones_for_number := zones;
     pytz_timezone := pytz_timezone W; datetime_now := datetime_now W;
     strftime := strftime W;
     region_code_for_number := region_code_for_number W;
     country_info := country_info W; geocode := geocode W;
     float_repr := float_repr W; str_repr := str_repr W;
     float_of := float_of W; os_name := os_name W;
     render_markup := render_markup W; save_image := save_image W |}.

(** What a successful analysis went through: the answers of the libraries
    and the dictionary after each enrichment step. *)
Inductive analysed (W : World) (phone_number_str : string) (t t' : trace)
    (info : dict) : Prop :=
  | Analysed (obj : phone W) (e164 international national : string)
      (category : Z) (location carrier : string) (info1 info2 info3 : dict) :
      parse W phone_number_str = Ret obj ->
      is_valid_number W obj = Ret true ->
      format_number W obj E164 = Ret e164 ->
      description_for_number W obj "en" = Ret location ->
      format_number W obj INTERNATIONAL = Ret international ->
      format_number W obj NATIONAL = Ret national ->
      number_type W obj = Ret category ->
      name_for_number W obj "en" = Ret carrier ->
      timezone_enrichment W obj
        (basic_information e164 international national category location carrier, t)
        = ((info1, t), Ret tt) ->
      country_enrichment W obj (info1, t) = ((info2, t), Ret tt) ->
      geolocation_enrichment W location (info2, t) = ((info3, t'), Ret tt) ->
      info = Dict.set info3 "WhatsApp Link"
               (PyStr ("https://wa.me/" +:+ Str.replace "+" EmptyString e164)) ->
      analysed W phone_number_str t t' info.


(** A run of assignments [info[k] = v], in order. *)
Definition apply_updates (info : dict) (updates : list (string * pyval)) : dict :=
  foldl (fun d kv => Dict.set d kv.1 kv.2) info updates.

(** Every key a record can hold, in the order the analysis writes them. *)
Definition canonical_keys : list string :=
  basic_keys ++ timezone_keys ++ country_keys ++ geolocation_keys
  ++ ["WhatsApp Link"].

(** [isinstance(v, str)] *)
Definition is_str (v : pyval) : bool :=
  match v with
  | PyStr _ => true
  | _ => false
  end.

(** The two entries that hold what the country facts hold, as it is. *)
Definition raw_keys : list string := ["Capital City"; "Continent / Region"].

(** An entry is a string, or one of the two raw entries. *)
Definition entry_ok (kv : string * pyval) : Prop :=
  is_str kv.2 = true \/ kv.1 ∈ raw_keys.

(** The three error strings of [get_phone_info]. *)
Definition invalid_message : string := "❌ Error: Invalid phone number format.".

Definition parse_failure_message (phone_number_str : string) : string :=
  "❌ Error: Failed to parse '" +:+ phone_number_str +:+ "'. Please check the format.".

Definition unexpected_message (e : exn) : string :=
  "❌ An unexpected error occurred: " +:+ exn_str e.

(** The warning of [get_coordinates]. *)
Definition geocoding_warning : event :=
  Print "[bold red]Geocoding service is unavailable or timed out.[/bold red]".

(** The name of the map file for a record. *)
Definition map_filename (W : World) (info : dict) : string :=
  "map_" +:+ py_str W (Dict.get info "E.164 Format") +:+ ".html".

(** The name of the contact file for a record. *)
Definition contact_filename (W : World) (info : dict) : string :=
  "contact_" +:+ py_str W (Dict.get info "E.164 Format") +:+ ".png".

(** The same world with another region-code answer. *)
Definition with_region_code (W : World)
    (region : phone W -> result (option string)) : World :=
  {| phone := phone W; tzinfo := tzinfo W; datetime := datetime W;
     parse := parse W; is_valid_number := is_valid_number W;
     format_number := format_number W;
     description_for_number := description_for_number W;
     number_type := number_type W; name_for_number := name_for_number W;
     time_zones_for_number := time_zones_for_number W;
     pytz_timezone := pytz_timezone W; datetime_now := datetime_now W;
     strftime := strftime W;
     region_code_for_number := region;
     country_info := country_info W; geocode := geocode W;
     float_repr := float_repr W; str_repr := str_repr W;
     float_of := float_of W; os_name := os_name W;
     render_markup := render_markup W; save_image := save_image W |}.

(** The same world with another area description. *)
Definition with_description (W : World)
    (description : phone W -> string -> result string) : World :=
  {| phone := phone W; tzinfo := tzinfo W; datetime := datetime W;
     parse := parse W; is_valid_number := is_valid_number W;
     format_number := format_number W;
     description_for_number := description;
     number_type := number_type W; name_for_number := name_for_number W;
     time_zones_for_number := time_zones_for_number W;
     pytz_timezone := pytz_timezone W; datetime_now := datetime_now W;
     strftime := strftime W;
     region_code_for_number := region_code_for_number W;
     country_info := country_info W; geocode := geocode W;
     float_repr := float_repr W; str_repr := str_repr W;
     float_of := float_of W; os_name := os_name W;
     render_markup := render_markup W; save_image := save_image W |}.

(** The same world with another category of the number. *)
Definition with_number_type (W : World) (category : phone W -> result Z) : World :=
  {| phone := phone W; tzinfo := tzinfo W; datetime := datetime W;
     parse := parse W; is_valid_number := is_valid_number W;
     format_number := format_number W;
     description_for_number := description_for_number W;
     number_type := category; name_for_number := name_for_number W;
     time_zones_for_number := time_zones_for_number W;
     pytz_timezone := pytz_timezone W; datetime_now := datetime_now W;
     strftime := strftime W;
     region_code_for_number := region_code_for_number W;
     country_info := country_info W; geocode := geocode W;
     float_repr := float_repr W; str_repr := str_repr W;
     float_of := float_of W; os_name := os_name W;
     render_markup := render_markup W; save_image := save_image W |}.

(** The same world with another pytz. *)
Definition with_pytz_timezone (W : World) (zone : string -> result (tzinfo W))
    : World :=
  {| phone := phone W; tzinfo := tzinfo W; datetime := datetime W;
     parse := parse W; is_valid_number := is_valid_number W;
     format_number := format_number W;
     description_for_number := description_for_number W;
     number_type := number_type W; name_for_number := name_for_number W;
     time_zones_for_number := time_zones_for_number W;
     pytz_timezone := zone; datetime_now := datetime_now W;
     strftime := strftime W;
     region_code_for_number := region_code_for_number W;
     country_info := country_info W; geocode := geocode W;
     float_repr := float_repr W; str_repr := str_repr W;
     float_of := float_of W; os_name := os_name W;
     render_markup := render_markup W; save_image := save_image W |}.

(** More answers of the collaborators for the number of [Demo]. *)
Module Cases.

(** The geocoding service times out. *)
Definition timed_out (name language : string) : result (option Location) :=
  Raise (mk_exn GeocoderTimedOut "Service timed out").

(** The geocoding service refuses the request: geopy raises an exception
    that is neither [GeocoderTimedOut] nor [GeocoderUnavailable]. *)
Definition quota_exceeded (name language : string) : result (option Location) :=
  Raise (mk_exn OtherException "Non-successful status code 429").

(** pytz cannot read its zone files. *)
Definition unreadable_zone (name : string) : result string :=
  Raise (mk_exn OtherException "[Errno 13] Permission denied").

(** Country facts without capital and borders. *)
Definition sparse_country : pyval :=
  PyDict [("name", PyStr "United States");
          ("currencies", PyList [PyStr "USD"]);
          ("region", PyStr "Americas")].

(** A record whose latitude is not a number. *)
Definition bad_latitude : dict :=
  [("E.164 Format", PyStr "+14155552671");
   ("Latitude", PyStr "north");
   ("Longitude", PyStr "-122.4199")].

(** A record with coordinates and nothing else. *)
Definition coordinates_only : dict :=
  [("Latitude", PyStr "37.7790"); ("Longitude", PyStr "-122.4199")].

End Cases.

(** What [display_results] prints around the artifacts of a record. *)
Definition results_table (W : World) (info : dict) : event :=
  PrintTable
    {| table_title := "✨ Phone Number Analysis Results";
       table_border_style := "cyan";
       table_header_style := "bold magenta";
       table_columns := ["Attribute"; "Information"];
       table_rows := map (fun kv => (kv.1, py_str W kv.2)) info |}.

Definition outputs_rule : event :=
  Print ("--- [bold]Generated Outputs[/bold] " +:+ Str.repeat "-" 50).

Definition disclaimer : event :=
  Print "[dim i]Disclaimer: The map shows the geographical center of the AREA CODE, not a real-time GPS location.[/dim i]".

(** What the script prints before it looks at the number. *)
Definition script_header (W : World) : list event :=
  [System (if String.eqb (os_name W) "nt" then "cls" else "clear");
   PrintPanel "Ultimate Edition v8.1"
     "[bold blue]Phone Number Global Inspector[/bold blue]"
     (Some "[dim]By M Mishbahul M[/dim]") None].

Definition number_prompt : event :=
  Prompt "[bold yellow]➡️ Enter a phone number (e.g., +14155552671): [/bold yellow]".

Definition no_number_notice : event :=
  Print "[bold red]No number was provided. Exiting program.[/bold red]".

(** The number the script analyses: the argument, or what is typed when
    there is none. *)
Definition number_to_analyze (argv_number : option string) (typed : string)
    : string :=
  if Str.truthy (default EmptyString argv_number)
  then default EmptyString argv_number else typed.

(** How often a run has asked at the prompt, with which text. *)
Definition prompts (t : trace) : list string :=
  omap (fun ev => match ev with Prompt m => Some m | _ => None end) t.

(** The call answers, it does not raise. *)
Definition answers {A} (r : result A) : bool :=
  match r with Ret _ => true | Raise _ => false end.

(** [float] reads the two coordinates of the record, where it has both. *)
Definition coordinates_readable (W : World) (info : dict) : bool :=
  match Dict.lookup info "Latitude", Dict.lookup info "Longitude" with
  | Some latitude, Some longitude =>
      answers (float_of W latitude) && answers (float_of W longitude)
  | _, _ => true
  end.

(** The texts rich parses when it prints the table of a record: the keys,
    then the values. *)
Definition table_texts (W : World) (info : dict) : list string :=
  map fst info ++ map (fun kv => py_str W kv.2) info.

(** rich reads every text of the list. *)
Definition renders (W : World) (texts : list string) : bool :=
  forallb (fun text => answers (render_markup W text)) texts.

(** The entries the artifact generators read. *)
Definition artifact_keys : list string :=
  ["Latitude"; "Longitude"; "Area Code Location"; "International Format";
   "E.164 Format"].

(** A decidable fact about literal keys (membership, inclusion, ...). *)
Ltac literal_key := apply (bool_decide_unpack _); vm_compute; exact I.

(** * Theory *)

(** ** Strings *)

Lemma replace_absent c new s :
  Str.mem c s = false -> Str.replace c new s = s.
Proof.
  induction s as [|c' s IH]; simpl; [done|].
  intros H. apply orb_false_iff in H as [Hc Hs].
  rewrite Hc. f_equal. auto.
Qed.

Lemma all_digits_no_plus s : Str.all_digits s = true -> Str.mem "+" s = false.
Proof.
  induction s as [|c s IH]; simpl; [done|].
  intros H. apply andb_true_iff in H as [Hc Hs].
  rewrite (IH Hs), orb_false_r.
  destruct (Ascii.eqb_spec c "+") as [->|]; [discriminate Hc | done].
Qed.

Lemma replace_plus_E164 e :
  E164_form e = true -> Str.replace "+" EmptyString e = strip_leading_plus e.
Proof.
  destruct e as [|c rest]; [done|].
  unfold E164_form, strip_leading_plus.
  destruct (Ascii.eqb_spec c "+") as [->|Hne].
  - intros H. simpl. by rewrite replace_absent by by apply all_digits_no_plus.
  - intros H. exfalso.
    destruct c as [[] [] [] [] [] [] [] []]; try discriminate H. by apply Hne.
Qed.

(** ** Dictionaries *)

Section DictTheory.

Implicit Types (d : dict) (k : string) (v : pyval) (ks : list string).

Lemma lookup_set d k v k' :
  Dict.lookup (Dict.set d k v) k' =
    if String.eqb k k' then Some v else Dict.lookup d k'.
Proof.
  induction d as [|[k0 v0] d IH]; simpl.
  - done.
  - destruct (String.eqb_spec k0 k) as [->|Hne]; simpl.
    + by destruct (String.eqb_spec k k').
    + rewrite IH.
      destruct (String.eqb_spec k0 k') as [->|]; [|done].
      by destruct (String.eqb_spec k k') as [->|].
Qed.

Lemma lookup_set_eq d k v : Dict.lookup (Dict.set d k v) k = Some v.
Proof. by rewrite lookup_set, String.eqb_refl. Qed.

Lemma lookup_set_ne d k v k' :
  k ≠ k' -> Dict.lookup (Dict.set d k v) k' = Dict.lookup d k'.
Proof. intros H. rewrite lookup_set. by destruct (String.eqb_spec k k'). Qed.

Lemma lookup_None_keys d k : Dict.lookup d k = None <-> k ∉ Dict.keys d.
Proof.
  induction d as [|[k0 v0] d IH]; simpl.
  - split; [intros _; apply not_elem_of_nil | done].
  - rewrite not_elem_of_cons.
    destruct (String.eqb_spec k0 k) as [->|Hne].
    + split; [done | intros [? _]; done].
    + rewrite IH. split; [by split|by intros [_ ?]].
Qed.

Lemma contains_keys d k : Dict.contains d k = true <-> k ∈ Dict.keys d.
Proof.
  unfold Dict.contains. destruct (Dict.lookup d k) eqn:E.
  - split; [intros _|done].
    destruct (decide (k ∈ Dict.keys d)) as [|Hn]; [done|].
    apply lookup_None_keys in Hn. congruence.
  - split; [done|]. intros Hin. by apply lookup_None_keys in E.
Qed.

Lemma keys_set_new d k v :
  Dict.lookup d k = None -> Dict.keys (Dict.set d k v) = Dict.keys d ++ [k].
Proof.
  induction d as [|[k0 v0] d IH]; simpl; [done|].
  destruct (String.eqb_spec k0 k) as [->|Hne]; [done|].
  intros H. simpl. by rewrite IH.
Qed.

Lemma keys_set_old d k v :
  Dict.lookup d k ≠ None -> Dict.keys (Dict.set d k v) = Dict.keys d.
Proof.
  induction d as [|[k0 v0] d IH]; simpl; [done|].
  destruct (String.eqb_spec k0 k) as [->|Hne]; [done|].
  intros H. simpl. by rewrite IH.
Qed.

Lemma elem_of_keys_set d k v k' :
  k' ∈ Dict.keys (Dict.set d k v) <-> k' = k ∨ k' ∈ Dict.keys d.
Proof.
  destruct (Dict.lookup d k) eqn:E.
  - rewrite keys_set_old by congruence.
    split; [auto|]. intros [->|]; [|done].
    apply contains_keys. unfold Dict.contains. by rewrite E.
  - rewrite keys_set_new by done. rewrite elem_of_app, list_elem_of_singleton.
    tauto.
Qed.

Lemma without_set ks d k v :
  k ∈ ks -> Dict.without ks (Dict.set d k v) = Dict.without ks d.
Proof.
  intros Hk. induction d as [|[k0 v0] d IH]; simpl.
  - by rewrite decide_True.
  - destruct (String.eqb_spec k0 k) as [->|Hne]; simpl.
    + by rewrite !decide_True.
    + by rewrite IH.
Qed.

Lemma without_absent ks d :
  (forall k, k ∈ ks -> Dict.lookup d k = None) -> Dict.without ks d = d.
Proof.
  induction d as [|[k0 v0] d IH]; intros H; simpl; [done|].
  assert (k0 ∉ ks) as Hk0.
  { intros Hin. specialize (H _ Hin). simpl in H. by rewrite String.eqb_refl in H. }
  rewrite decide_False by done. f_equal. apply IH.
  intros k Hk. specialize (H _ Hk). simpl in H.
  by destruct (String.eqb_spec k0 k).
Qed.

Lemma lookup_without ks d k :
  Dict.lookup (Dict.without ks d) k =
    if decide (k ∈ ks) then None else Dict.lookup d k.
Proof.
  induction d as [|[k0 v0] d IH]; simpl.
  - by destruct (decide (k ∈ ks)).
  - destruct (decide (k0 ∈ ks)) as [Hin|Hout]; simpl; rewrite IH.
    + destruct (decide (k ∈ ks)); [done|].
      by destruct (String.eqb_spec k0 k) as [->|].
    + destruct (String.eqb_spec k0 k) as [->|]; [|done].
      by rewrite decide_False.
Qed.

(** *** Dictionaries that only received keys of a group *)

Lemma updated_trans ks d1 d2 d3 :
  updated ks d1 d2 -> updated ks d2 d3 -> updated ks d1 d3.
Proof. induction 2; [done|]. apply updated_set; auto. Qed.

Lemma updated_mono ks ks' d d' :
  ks ⊆ ks' -> updated ks d d' -> updated ks' d d'.
Proof.
  intros Hs. induction 1; [apply updated_refl | apply updated_set; auto].
Qed.

Lemma updated_one ks d k v : k ∈ ks -> updated ks d (Dict.set d k v).
Proof. intros. apply updated_set; [apply updated_refl | done]. Qed.

Lemma updated_lookup ks d d' k :
  updated ks d d' -> k ∉ ks -> Dict.lookup d' k = Dict.lookup d k.
Proof.
  induction 1 as [|d d' k0 v Hu IH Hk0]; [done|].
  intros Hk. rewrite lookup_set_ne; [auto|]. intros ->. done.
Qed.

Lemma updated_without ks d d' :
  updated ks d d' -> Dict.without ks d' = Dict.without ks d.
Proof. induction 1; [done|]. by rewrite without_set. Qed.

Lemma updated_keys ks d d' k :
  updated ks d d' -> k ∈ Dict.keys d' -> k ∈ Dict.keys d ∨ k ∈ ks.
Proof.
  induction 1 as [|d d' k0 v Hu IH Hk0]; [auto|].
  rewrite elem_of_keys_set. intros [->|]; auto.
Qed.

Lemma updated_keeps ks d d' k :
  updated ks d d' -> k ∈ Dict.keys d -> k ∈ Dict.keys d'.
Proof.
  induction 1; [done|]. intros. apply elem_of_keys_set. auto.
Qed.

Lemma updated_prefix ks d d' :
  updated ks d d' ->
  exists new, Dict.keys d' = Dict.keys d ++ new /\ Forall (fun k => k ∈ ks) new.
Proof.
  induction 1 as [|d d' k0 v Hu (new & IH & Hnew) Hk0].
  - exists []. by rewrite app_nil_r.
  - destruct (Dict.lookup d' k0) eqn:E.
    + exists new. by rewrite keys_set_old by congruence.
    + exists (new ++ [k0]). rewrite keys_set_new, IH, app_assoc by done.
      split; [done|]. apply Forall_app. by repeat constructor.
Qed.

End DictTheory.

(** ** Computations *)

Section PreservesRules.

Context {S : Type} (R : S -> S -> Prop).
Hypothesis R_refl : forall s, R s s.
Hypothesis R_trans : forall s1 s2 s3, R s1 s2 -> R s2 s3 -> R s1 s3.

Lemma preserves_ret {A} (a : A) : preserves R (ret a).
Proof using R_refl. intros s s' r [= <- _]. apply R_refl. Qed.

Lemma preserves_raise {A} e : preserves R (@raise S A e).
Proof using R_refl. intros s s' r [= <- _]. apply R_refl. Qed.

Lemma preserves_call {A} (x : result A) : preserves R (call x).
Proof using R_refl. intros s s' r [= <- _]. apply R_refl. Qed.

Lemma preserves_bind {A B} (m : Py S A) (k : A -> Py S B) :
  preserves R m -> (forall a, preserves R (k a)) -> preserves R (bind m k).
Proof using R_trans.
  intros Hm Hk s s' r. unfold bind.
  destruct (m s) as [s1 [a|e]] eqn:E; intros H.
  - eapply R_trans; [by eapply Hm | by eapply Hk].
  - injection H as <- _. by eapply Hm.
Qed.

Lemma preserves_dispatch {A} (clauses : list (except_clause S A)) e :
  Forall (fun c => forall e', preserves R (c.2 e')) clauses ->
  preserves R (dispatch clauses e).
Proof using R_refl.
  induction 1 as [|[classes handler] clauses Hc _ IH]; simpl.
  - apply preserves_raise.
  - destruct (caught_by classes e); [apply Hc | apply IH].
Qed.

Lemma preserves_try_except {A} (body : Py S A) clauses :
  preserves R body ->
  Forall (fun c => forall e', preserves R (c.2 e')) clauses ->
  preserves R (try_except body clauses).
Proof using R_refl R_trans.
  intros Hb Hc s s' r. unfold try_except.
  destruct (body s) as [s1 [a|e]] eqn:E; intros H.
  - injection H as <- _. by eapply Hb.
  - eapply R_trans; [by eapply Hb | by eapply preserves_dispatch].
Qed.

End PreservesRules.

Lemma writes_setitem ks k v : k ∈ ks -> writes ks (setitem k v).
Proof. intros Hk [d t] s' r [= <- _]. simpl. by apply updated_one. Qed.

Lemma writes_lift {A} ks (m : Py trace A) : writes ks (lift m).
Proof.
  intros [d t] s' r. unfold lift. simpl.
  destruct (m t) as [t1 x]. intros [= <- _]. apply updated_refl.
Qed.

Lemma silent_setitem k v : silent (setitem (S := trace) k v).
Proof. by intros [d t] s' r [= <- _]. Qed.

Create HintDb py discriminated.

#[local] Hint Resolve updated_refl updated_trans : py.
#[local] Hint Extern 1 (Forall _ _) => (repeat constructor; simpl; intros) : py.

Ltac preserves_rules :=
  repeat first
    [ match goal with
      | |- preserves (fun s s' => updated ?ks s.1 s'.1) (setitem ?k ?v) =>
          apply (writes_setitem ks k v); literal_key
      | |- preserves (fun s s' => updated ?ks s.1 s'.1) (lift ?m) =>
          apply (writes_lift ks m)
      | |- preserves (fun s s' => s'.2 = s.2) (setitem ?k ?v) =>
          apply (silent_setitem k v)
      end
    | apply preserves_ret; solve [simpl; eauto with py]
    | apply preserves_raise; solve [simpl; eauto with py]
    | apply preserves_call; solve [simpl; eauto with py]
    | apply preserves_bind;
        [ solve [simpl; eauto using eq_trans with py] | | intros ? ]
    | apply preserves_try_except;
        [ solve [simpl; eauto with py]
        | solve [simpl; eauto using eq_trans with py] | | ]
    | progress (repeat constructor; simpl; intros)
    | match goal with
      | |- preserves _ (match ?x with _ => _ end) => destruct x
      | |- writes _ (match ?x with _ => _ end) => destruct x
      | |- silent (match ?x with _ => _ end) => destruct x
      end ].

Section EnrichmentFrames.

Context (W : World).

Lemma timezone_enrichment_writes obj :
  writes timezone_keys (timezone_enrichment W obj).
Proof. unfold timezone_enrichment, writes. preserves_rules. Qed.

Lemma timezone_enrichment_silent obj : silent (timezone_enrichment W obj).
Proof. unfold timezone_enrichment, silent. preserves_rules. Qed.

Lemma country_lookup_writes code : writes country_keys (country_lookup W code).
Proof. unfold country_lookup, writes. preserves_rules. Qed.

Lemma country_lookup_silent code : silent (country_lookup W code).
Proof. unfold country_lookup, silent. preserves_rules. Qed.

Lemma country_enrichment_writes obj :
  writes country_keys (country_enrichment W obj).
Proof. unfold country_enrichment, writes. preserves_rules. Qed.

Lemma country_enrichment_silent obj : silent (country_enrichment W obj).
Proof. unfold country_enrichment, silent. preserves_rules. Qed.

Lemma geolocation_enrichment_writes location :
  writes geolocation_keys (geolocation_enrichment W location).
Proof. unfold geolocation_enrichment, writes. preserves_rules. Qed.

End EnrichmentFrames.
Section AnalysisTheory.

Context (W : World).

(** The handlers of [get_phone_info] answer every exception with an
    error string. *)
Lemma error_handlers_message phone_number_str e t :
  exists message,
    dispatch (error_handlers phone_number_str) e t = (t, Ret (PyStr message)).
Proof.
  simpl. destruct (is_instance e NumberParseException); by eexists.
Qed.

Lemma get_phone_info_analysed phone_number_str t t' info :
  get_phone_info W phone_number_str t = (t', Ret (PyDict info)) ->
  analysed W phone_number_str t t' info.
Proof.
  unfold get_phone_info, try_except.
  destruct (analyse W phone_number_str t) as [t1 [v|e]] eqn:Hbody.
  2:{ destruct (error_handlers_message phone_number_str e t1) as [m Hm].
      rewrite Hm. discriminate. }
  intros [= -> ->].
  unfold analyse, bind, call, with_local in Hbody.
  repeat (case_match; simplify_eq/=).
  repeat match goal with
         | p : (dict * trace)%type |- _ => destruct p as [? ?]
         | u : unit |- _ => destruct u
         | H : negb ?b = false |- _ => apply negb_false_iff in H; subst b
         end.
  match goal with H : ret _ _ = _ |- _ => injection H as <- <- <- end.
  match goal with
  | H : timezone_enrichment _ _ _ = _ |- _ =>
      pose proof (timezone_enrichment_silent _ _ _ _ _ H) as Ht
  end.
  simpl in Ht. subst.
  match goal with
  | H : country_enrichment _ _ _ = _ |- _ =>
      pose proof (country_enrichment_silent _ _ _ _ _ H) as Ht
  end.
  simpl in Ht. subst.
  by econstructor.
Qed.

Lemma analysed_get_phone_info phone_number_str t t' info :
  analysed W phone_number_str t t' info ->
  get_phone_info W phone_number_str t = (t', Ret (PyDict info)).
Proof.
  intros [obj e164 intl natl cat loc car d1 d2 d3 H1 H2 H3 H4 H5 H6 H7 H8 H9 H10 H11 ->].
  unfold get_phone_info, try_except, analyse, bind, call, with_local.
  rewrite H1, H2. cbn [negb]. by rewrite H3, H4, H5, H6, H7, H8, H9, H10, H11.
Qed.

(** [get_phone_info] never raises: it answers a dictionary or an error
    string. *)
Lemma get_phone_info_total phone_number_str t :
  exists t' v,
    get_phone_info W phone_number_str t = (t', Ret v)
    /\ ((exists info, v = PyDict info) \/ (exists message, v = PyStr message)).
Proof.
  unfold get_phone_info, try_except.
  destruct (analyse W phone_number_str t) as [t1 [v|e]] eqn:Hbody.
  - exists t1, v. split; [done|].
    unfold analyse, bind, call, with_local in Hbody.
    repeat (case_match; simplify_eq/=);
      match goal with H : ret _ _ = _ |- _ => injection H as <- <- end; eauto.
  - destruct (error_handlers_message phone_number_str e t1) as [m Hm].
    rewrite Hm. eauto 6.
Qed.

End AnalysisTheory.
Section StepTheory.

Context (W : World).

Lemma without_set_ne ks d k v :
  k ∉ ks -> Dict.without ks (Dict.set d k v) = Dict.set (Dict.without ks d) k v.
Proof.
  intros Hk. induction d as [|[k0 v0] d IH]; simpl.
  - by rewrite decide_False.
  - destruct (String.eqb_spec k0 k) as [->|Hne]; simpl.
    + rewrite !decide_False by done. simpl. by rewrite String.eqb_refl.
    + destruct (decide (k0 ∈ ks)); simpl; rewrite IH; [done|].
      by destruct (String.eqb_spec k0 k).
Qed.

(** *** Geocoding *)

Lemma get_coordinates_eq location_name t :
  get_coordinates W location_name t =
    match geocode W location_name "en" with
    | Ret None => (t ++ [Sleep 1], Ret None)
    | Ret (Some place) =>
        (t ++ [Sleep 1], Ret (Some (latitude place, longitude place)))
    | Raise e =>
        if caught_by [GeocoderTimedOut; GeocoderUnavailable] e then
          (t ++ [Sleep 1;
                 Print "[bold red]Geocoding service is unavailable or timed out.[/bold red]"],
           Ret None)
        else (t ++ [Sleep 1], Raise e)
    end.
Proof.
  unfold get_coordinates, try_except, bind, call, emit, modify, ret. simpl.
  destruct (geocode W location_name "en") as [[place|]|e]; [done|done|]. simpl.
  destruct (is_instance e GeocoderTimedOut || _); [|done].
  by rewrite <- app_assoc.
Qed.

Lemma get_coordinates_found location_name t t' lat lon :
  get_coordinates W location_name t = (t', Ret (Some (lat, lon))) ->
  geocode W location_name "en"
  = Ret (Some {| latitude := lat; longitude := lon |}).
Proof.
  rewrite get_coordinates_eq.
  destruct (geocode W location_name "en") as [[[lat0 lon0]|]|e].
  - cbn [latitude longitude]. congruence.
  - congruence.
  - by destruct (caught_by _ e).
Qed.

Lemma geolocation_enrichment_eq location_str info t :
  geolocation_enrichment W location_str (info, t) =
    if Str.truthy location_str then
      match get_coordinates W location_str t with
      | (t', Ret coords) => ((geolocation_update W coords info, t'), Ret tt)
      | (t', Raise e) => ((info, t'), Raise e)
      end
    else ((info, t), Ret tt).
Proof.
  unfold geolocation_enrichment. destruct (Str.truthy location_str); [|done].
  unfold bind, lift. simpl.
  destruct (get_coordinates W location_str t) as [t' [[[lat lon]|]|e]]; done.
Qed.

(** *** The artifact generators *)

Lemma create_location_map_skips info t :
  Dict.contains info "Latitude" = false \/ Dict.contains info "Longitude" = false ->
  create_location_map W info t = (t ++ [Enter create_location_map_fn], Ret tt).
Proof.
  intros H. unfold create_location_map, bind, emit, modify. simpl.
  by destruct H as [-> | ->]; rewrite ?orb_true_r.
Qed.

Lemma create_location_map_saves info t latitude longitude lat lon :
  Dict.lookup info "Latitude" = Some latitude ->
  Dict.lookup info "Longitude" = Some longitude ->
  float_of W latitude = Ret lat ->
  float_of W longitude = Ret lon ->
  exists m,
    create_location_map W info t =
      (t ++ [Enter create_location_map_fn;
             SaveMap ("map_" +:+ py_str W (Dict.get info "E.164 Format") +:+ ".html") m;
             Print ("✅ [bold blue]Interactive Map saved as '"
                    +:+ ("map_" +:+ py_str W (Dict.get info "E.164 Format") +:+ ".html")
                    +:+ "'[/bold blue]")],
       Ret tt)
    /\ map_location m = (lat, lon)
    /\ map_zoom_start m = 11%Z.
Proof.
  intros Hlat Hlon Hflat Hflon.
  unfold create_location_map, bind, emit, modify, call, Dict.contains, Dict.getitem.
  simpl. rewrite Hlat, Hlon. simpl. rewrite Hflat, Hflon.
  eexists. split; [by rewrite <- !app_assoc | done].
Qed.

Lemma create_qr_code_skips info t :
  Value.truthy (Dict.get info "E.164 Format") = false ->
  create_qr_code W info t = (t ++ [Enter create_qr_code_fn], Ret tt).
Proof.
  intros H. unfold create_qr_code, bind, emit, modify. simpl. by rewrite H.
Qed.

Lemma create_qr_code_saves info t :
  Value.truthy (Dict.get info "E.164 Format") = true ->
  save_image W ("contact_" +:+ py_str W (Dict.get info "E.164 Format") +:+ ".png")
  = Ret tt ->
  exists img,
    create_qr_code W info t =
      (t ++ [Enter create_qr_code_fn;
             SaveImage ("contact_" +:+ py_str W (Dict.get info "E.164 Format") +:+ ".png") img;
             Print ("✅ [bold green]Contact QR Code saved as '"
                    +:+ ("contact_" +:+ py_str W (Dict.get info "E.164 Format") +:+ ".png")
                    +:+ "'[/bold green]")],
       Ret tt).
Proof.
  intros H Hsave. unfold create_qr_code, bind, emit, modify, call. simpl.
  rewrite H. simpl. rewrite Hsave. eexists. by rewrite <- !app_assoc.
Qed.

Lemma create_qr_code_fails info t e :
  Value.truthy (Dict.get info "E.164 Format") = true ->
  save_image W ("contact_" +:+ py_str W (Dict.get info "E.164 Format") +:+ ".png")
  = Raise e ->
  create_qr_code W info t = (t ++ [Enter create_qr_code_fn], Raise e).
Proof.
  intros H Hsave. unfold create_qr_code, bind, emit, modify, call. simpl.
  rewrite H. simpl. by rewrite Hsave.
Qed.

(** The error panel is printed when rich reads the message. *)
Lemma display_results_message message t :
  display_results W (PyStr message) t
  = match render_markup W message with
    | Ret _ =>
        (t ++ [PrintPanel message "[bold red]Error[/bold red]" None (Some "red")],
         Ret tt)
    | Raise e => (t, Raise e)
    end.
Proof.
  unfold display_results, render_all, bind, call, emit, modify, ret.
  by destruct (render_markup W message).
Qed.

Lemma files_written_app t1 t2 :
  files_written (t1 ++ t2) = files_written t1 ++ files_written t2.
Proof. unfold files_written. by rewrite omap_app. Qed.

Lemma generators_invoked_app t1 t2 :
  generators_invoked (t1 ++ t2) = generators_invoked t1 ++ generators_invoked t2.
Proof. unfold generators_invoked. by rewrite omap_app. Qed.

End StepTheory.

(** What a trace with a literal tail has written and entered. *)
Ltac solve_trace :=
  cbn [fst];
  rewrite ?generators_invoked_app, ?files_written_app;
  cbn; rewrite ?app_nil_r; done.

(** ** Decimal numerals *)

Section DecimalTheory.

Import Decimal.

Lemma all_digits_string_of_uint d :
  Str.all_digits (NilEmpty.string_of_uint d) = true.
Proof. induction d; simpl; auto. Qed.

Lemma string_of_uint_nonempty d :
  d ≠ Nil -> Str.truthy (NilEmpty.string_of_uint d) = true.
Proof. by destruct d. Qed.

Lemma digits_value_acc d acc :
  Fixed4.digits_value (Zpos acc) (NilEmpty.string_of_uint d)
  = Zpos (Pos.of_uint_acc d acc).
Proof.
  revert acc. induction d; intros acc; simpl; [done|..];
    rewrite <- IHd; f_equal;
    match goal with
    | |- context [Z.of_nat (nat_of_ascii ?c)] =>
        let n := eval vm_compute in (Z.of_nat (nat_of_ascii c)) in
        change (Z.of_nat (nat_of_ascii c)) with n
    end; lia.
Qed.

Lemma digits_value_string_of_uint d :
  Fixed4.digits_value 0 (NilEmpty.string_of_uint d) = Z.of_N (Pos.of_uint d).
Proof.
  induction d; simpl; [done | done | ..];
    match goal with
    | |- _ = Z.pos (Pos.of_uint_acc d ?a) => exact (digits_value_acc d a)
    end.
Qed.

(** The numeral of a natural number: digits only, at least one, and it
    denotes the number. *)
Lemma of_Z_digits n :
  (0 <= n)%Z ->
  Str.all_digits (Str.of_Z n) = true
  /\ Str.truthy (Str.of_Z n) = true
  /\ Fixed4.digits_value 0 (Str.of_Z n) = n.
Proof.
  intros Hn. destruct n as [|p|p]; [done| |lia].
  unfold Str.of_Z. simpl.
  pose proof (Unsigned.to_uint_nonnil p) as Hnil.
  assert (NilZero.string_of_uint (Pos.to_uint p)
          = NilEmpty.string_of_uint (Pos.to_uint p)) as ->.
  { by destruct (Pos.to_uint p). }
  split; [apply all_digits_string_of_uint|].
  split; [by apply string_of_uint_nonempty|].
  by rewrite digits_value_string_of_uint, Unsigned.of_to.
Qed.

Lemma digit_spec d :
  (0 <= d <= 9)%Z ->
  Str.is_digit (Float.digit d) = true
  /\ (Z.of_nat (nat_of_ascii (Float.digit d)) - 48 = d)%Z.
Proof.
  intros H.
  assert (d = 0 \/ d = 1 \/ d = 2 \/ d = 3 \/ d = 4 \/ d = 5 \/ d = 6
          \/ d = 7 \/ d = 8 \/ d = 9)%Z as Hd by lia.
  by repeat destruct Hd as [->|Hd]; try subst d.
Qed.

Lemma fraction4_spec n :
  Str.all_digits (Float.fraction4 n) = true
  /\ String.length (Float.fraction4 n) = 4%nat
  /\ Fixed4.digits_value 0 (Float.fraction4 n) = (n mod 10000)%Z.
Proof.
  unfold Float.fraction4. set (r := (n mod 10000)%Z).
  assert (0 <= r < 10000)%Z as Hr by (apply Z.mod_pos_bound; lia).
  destruct (digit_spec (r / 1000)) as [D1 V1].
  { split; [apply Z.div_pos; lia | apply Z.lt_succ_r, Z.div_lt_upper_bound; lia]. }
  destruct (digit_spec (r / 100 mod 10)) as [D2 V2].
  { pose proof (Z.mod_pos_bound (r / 100) 10); lia. }
  destruct (digit_spec (r / 10 mod 10)) as [D3 V3].
  { pose proof (Z.mod_pos_bound (r / 10) 10); lia. }
  destruct (digit_spec (r mod 10)) as [D4 V4].
  { pose proof (Z.mod_pos_bound r 10); lia. }
  cbn [Str.all_digits String.length Fixed4.digits_value].
  rewrite D1, D2, D3, D4, V1, V2, V3, V4.
  split; [done|]. split; [done|].
  clearbody r. clear -Hr. Z.div_mod_to_equations. lia.
Qed.

Lemma split_at_dot_digits a b :
  Str.all_digits a = true ->
  Fixed4.split_at_dot (a +:+ "." +:+ b) = Some (a, b).
Proof.
  induction a as [|c a IH]; simpl; [done|].
  intros H. apply andb_true_iff in H as [Hc Ha].
  rewrite (IH Ha). destruct (Ascii.eqb_spec c "."); [by subst c|done].
Qed.

Lemma digits_not_minus a b :
  Str.all_digits a = true -> Str.truthy a = true ->
  exists c rest, a +:+ b = String c rest /\ c ≠ "-"%char.
Proof.
  destruct a as [|c a]; [done|]. simpl. intros H _.
  apply andb_true_iff in H as [Hc _].
  exists c, (a +:+ b). split; [done|]. by intros ->.
Qed.

End DecimalTheory.

(** ** Four-digit formatting *)

Section FormatTheory.

Lemma round_half_even_nearest num den :
  (0 < den)%Z ->
  (2 * Z.abs (Float.round_half_even num den * den - num) <= den)%Z.
Proof.
  intros Hden. unfold Float.round_half_even.
  pose proof (Z.div_mod num den ltac:(lia)) as Hdm.
  pose proof (Z.mod_pos_bound num den Hden) as Hr.
  set (q := (num / den)%Z) in *. set (r := (num mod den)%Z) in *.
  clearbody q r.
  destruct (Z.ltb_spec (2 * r) den); [nia|].
  destruct (Z.ltb_spec den (2 * r)); [nia|].
  destruct (Z.even q); nia.
Qed.

Lemma round_half_even_nonneg num den :
  (0 <= num)%Z -> (0 < den)%Z -> (0 <= Float.round_half_even num den)%Z.
Proof.
  intros Hnum Hden. unfold Float.round_half_even.
  pose proof (Z.div_pos num den Hnum Hden).
  repeat case_match; lia.
Qed.

Lemma scaled4_nonneg x : (0 <= Float.scaled4 x)%Z.
Proof.
  unfold Float.scaled4. destruct (Z.leb_spec 0 (f_exp x)).
  - pose proof (Z.pow_nonneg 2 (f_exp x)). nia.
  - apply round_half_even_nonneg; [lia|]. apply Z.pow_pos_nonneg; lia.
Qed.

(** The integer printed is a nearest one to [|x| * 10^4]. *)
Lemma scaled4_nearest x : Fixed4.nearest x (Float.scaled4 x).
Proof.
  unfold Fixed4.nearest, Float.scaled4.
  destruct (Z.leb_spec 0 (f_exp x)); [done|].
  apply round_half_even_nearest. apply Z.pow_pos_nonneg; lia.
Qed.

(** [f"{x:.4f}"] has exactly four fraction digits and denotes
    [scaled4 x / 10^4]. *)
Lemma format_4f_spec x :
  Fixed4.well_formed (Float.format_4f x) = true
  /\ Fixed4.magnitude (Float.format_4f x) = Some (Float.scaled4 x).
Proof.
  unfold Float.format_4f.
  pose proof (scaled4_nonneg x) as Hn. set (n := Float.scaled4 x) in *.
  assert (0 <= n / 10000)%Z as Hq by (apply Z.div_pos; lia).
  destruct (of_Z_digits _ Hq) as (Hd & Hne & Hv).
  destruct (fraction4_spec n) as (Fd & Fl & Fv).
  assert (Fixed4.unsigned (Str.of_Z (n / 10000) +:+ "." +:+ Float.fraction4 n) = true
          /\ Fixed4.magnitude (Str.of_Z (n / 10000) +:+ "." +:+ Float.fraction4 n)
             = Some n) as [Hu Hm].
  { destruct (digits_not_minus _ ("." +:+ Float.fraction4 n) Hd Hne)
      as (c & rest & Heq & Hc).
    unfold Fixed4.unsigned, Fixed4.magnitude.
    rewrite Heq.
    assert (match String c rest with
            | String "-" rest0 => rest0
            | _ => String c rest
            end = String c rest) as ->.
    { destruct c as [[] [] [] [] [] [] [] []]; try done. }
    rewrite <- Heq, split_at_dot_digits by done.
    rewrite Hd, Hne, Fd, Fl, Hv, Fv. split; [done|].
    f_equal. clear. Z.div_mod_to_equations. lia. }
  destruct (f_neg x); simpl.
  - split; [done|]. unfold Fixed4.magnitude in *. simpl.
    destruct (digits_not_minus _ ("." +:+ Float.fraction4 n) Hd Hne)
      as (c & rest & Heq & Hc).
    rewrite Heq in Hm.
    destruct c as [[] [] [] [] [] [] [] []]; try (by rewrite Heq); done.
  - split; [|done]. unfold Fixed4.well_formed.
    destruct (digits_not_minus _ ("." +:+ Float.fraction4 n) Hd Hne)
      as (c & rest & Heq & Hc).
    rewrite Heq in *.
    destruct c as [[] [] [] [] [] [] [] []]; done.
Qed.

Lemma format_4f_sign x : Fixed4.negative (Float.format_4f x) = f_neg x.
Proof.
  unfold Float.format_4f. destruct (f_neg x); [done|].
  assert (0 <= Float.scaled4 x / 10000)%Z as Hq
    by (apply Z.div_pos; [apply scaled4_nonneg | lia]).
  destruct (of_Z_digits _ Hq) as (Hd & Hne & _).
  destruct (digits_not_minus _ ("." +:+ Float.fraction4 (Float.scaled4 x)) Hd Hne)
    as (c & rest & Heq & Hc).
  change (EmptyString +:+ ?a) with a. rewrite Heq. unfold Fixed4.negative.
  destruct c as [[] [] [] [] [] [] [] []]; done.
Qed.

End FormatTheory.

(** ** The enrichment steps together *)

Section Enrichment.

Context (W : World).

Lemma basic_information_lookup e164 international national category location
    carrier k :
  k ∉ basic_keys ->
  Dict.lookup
    (basic_information e164 international national category location carrier) k
  = None.
Proof.
  intros Hk. apply lookup_None_keys. intros Hin. apply Hk. exact Hin.
Qed.

(** After the three enrichment steps the dictionary is the literal one
    with keys of the three groups added. *)
Lemma enrichment_frame obj location basic d1 d2 d3 t t' :
  timezone_enrichment W obj (basic, t) = ((d1, t), Ret tt) ->
  country_enrichment W obj (d1, t) = ((d2, t), Ret tt) ->
  geolocation_enrichment W location (d2, t) = ((d3, t'), Ret tt) ->
  updated (timezone_keys ++ country_keys) basic d2
  /\ updated (timezone_keys ++ country_keys ++ geolocation_keys) basic d3.
Proof.
  intros H1 H2 H3.
  apply timezone_enrichment_writes in H1.
  apply country_enrichment_writes in H2.
  apply geolocation_enrichment_writes in H3.
  cbn [fst] in H1, H2, H3.
  assert (updated (timezone_keys ++ country_keys) basic d2) as H12.
  { apply (updated_trans _ _ d1).
    - apply (updated_mono timezone_keys); [literal_key | done].
    - apply (updated_mono country_keys); [literal_key | done]. }
  split; [done|].
  apply (updated_trans _ _ d2).
  - apply (updated_mono (timezone_keys ++ country_keys)); [literal_key | done].
  - apply (updated_mono geolocation_keys); [literal_key | done].
Qed.

(** The keys of a finished record: the six basic keys first, then keys of
    the enrichment groups, and the WhatsApp link last. *)
Lemma analysed_keys phone_number_str t t' info :
  analysed W phone_number_str t t' info ->
  exists middle,
    Dict.keys info = basic_keys ++ middle ++ ["WhatsApp Link"]
    /\ Forall (fun k => k ∈ timezone_keys ++ country_keys ++ geolocation_keys) middle.
Proof.
  intros [obj e164 intl natl cat loc car d1 d2 d3 _ _ _ _ _ _ _ _ H1 H2 H3 ->].
  destruct (enrichment_frame _ _ _ _ _ _ _ _ H1 H2 H3) as [_ Hu].
  destruct (updated_prefix _ _ _ Hu) as (middle & Hk & Hm).
  exists middle. split; [|done].
  rewrite keys_set_new, Hk, <- app_assoc; [done|].
  rewrite (updated_lookup _ _ _ _ Hu) by literal_key.
  apply basic_information_lookup. literal_key.
Qed.

(** An entry of the literal dictionary is still there at the end. *)
Lemma analysed_basic_entry phone_number_str t t' info k :
  k ∈ basic_keys ->
  analysed W phone_number_str t t' info ->
  exists obj e164 international national category location carrier,
    parse W phone_number_str = Ret obj
    /\ format_number W obj E164 = Ret e164
    /\ description_for_number W obj "en" = Ret location
    /\ format_number W obj INTERNATIONAL = Ret international
    /\ format_number W obj NATIONAL = Ret national
    /\ number_type W obj = Ret category
    /\ name_for_number W obj "en" = Ret carrier
    /\ Dict.lookup info k =
         Dict.lookup
           (basic_information e164 international national category location carrier) k.
Proof.
  intros Hk [obj e164 intl natl cat loc car d1 d2 d3 P1 _ P3 P4 P5 P6 P7 P8 H1 H2 H3 ->].
  destruct (enrichment_frame _ _ _ _ _ _ _ _ H1 H2 H3) as [_ Hu].
  exists obj, e164, intl, natl, cat, loc, car. repeat (split; [done|]).
  assert (k ≠ "WhatsApp Link") as Hne.
  { intros ->. revert Hk. literal_key. }
  rewrite lookup_set_ne by done.
  apply (updated_lookup _ _ _ _ Hu).
  intros Hin. revert Hk Hin. unfold basic_keys, timezone_keys, country_keys,
    geolocation_keys. rewrite !elem_of_app, !elem_of_cons, !elem_of_nil.
  intros [->|[->|[->|[->|[->|[->|[]]]]]]]; intros Hin;
    repeat destruct Hin as [Hin|Hin]; done.
Qed.

End Enrichment.
(** ** The script *)

Lemma main_given (W : World) (s typed : string) (t : trace) :
  Str.truthy s = true ->
  main W (Some s) typed t =
    (result <- get_phone_info W s ;; display_results W result)
      (t ++ [System (if String.eqb (os_name W) "nt" then "cls" else "clear");
             PrintPanel "Ultimate Edition v8.1"
               "[bold blue]Phone Number Global Inspector[/bold blue]"
               (Some "[dim]By M Mishbahul M[/dim]") None]).
Proof.
  intros Hs. unfold main, bind, emit, modify, ret.
  change (default EmptyString (Some s)) with s.
  rewrite Hs. cbv beta iota. rewrite Hs. cbn [negb].
  by rewrite <- app_assoc.
Qed.

(** The usual run. *)
Lemma usual_run :
  get_phone_info Demo.usual "+14155552671" [] =
    ([Sleep 1], Ret (PyDict Demo.usual_record)).
Proof. vm_compute. reflexivity. Qed.

(** * The claims *)

(** C2.  An input that fails to parse, or that parses but fails the
    library's validity check, ends in an error string; no artifact generator
    is entered and no file is written, also when the run is started from the
    script with that input on the command line.  The error panel, however,
    is printed only when rich can read the error string as markup: the
    parse-failure string quotes the input as it was typed, and when rich
    raises on it the presentation raises that exception and prints nothing,
    and the script ends in the exception after its title. *)
Theorem rejected_input_panel_needs_markup (W : World) (s : string) (t : trace) :
  ((exists e, parse W s = Raise e)
   \/ (exists obj, parse W s = Ret obj /\ is_valid_number W obj = Ret false)) ->
  exists message,
    get_phone_info W s t = (t, Ret (PyStr message))
    /\ (forall e, parse W s = Raise e -> is_instance e NumberParseException = true ->
        message = parse_failure_message s)
    /\ (render_markup W message = Ret tt ->
        (result <- get_phone_info W s ;; display_results W result) t
        = (t ++ [PrintPanel message "[bold red]Error[/bold red]" None (Some "red")],
           Ret tt))
    /\ (forall e,
          render_markup W message = Raise e ->
          (result <- get_phone_info W s ;; display_results W result) t
          = (t, Raise e)
          /\ (Str.truthy s = true ->
              forall typed,
                main W (Some s) typed t = (t ++ script_header W, Raise e)))
    /\ generators_invoked
         ((result <- get_phone_info W s ;; display_results W result) t).1
       = generators_invoked t
    /\ files_written
         ((result <- get_phone_info W s ;; display_results W result) t).1
       = files_written t
    /\ (Str.truthy s = true ->
        forall typed,
          generators_invoked (main W (Some s) typed t).1 = generators_invoked t
          /\ files_written (main W (Some s) typed t).1 = files_written t).
Proof.
  intros Hrejected.
  assert (exists message,
            (forall t0, get_phone_info W s t0 = (t0, Ret (PyStr message)))
            /\ (forall e, parse W s = Raise e ->
                          is_instance e NumberParseException = true ->
                          message = parse_failure_message s))
    as (message & Hmsg & Hquote).
  { unfold get_phone_info, try_except, analyse, bind, call.
    destruct Hrejected as [[e He] | (obj & Hobj & Hvalid)].
    - rewrite He. simpl.
      destruct (is_instance e NumberParseException) eqn:Hcls; eexists;
        (split; [done|]); intros e' [= <-] Hc; first [reflexivity | congruence].
    - rewrite Hobj, Hvalid. eexists. split; [done|]. congruence. }
  exists message. split; [apply Hmsg|]. split; [done|].
  assert (forall t0,
            (result <- get_phone_info W s ;; display_results W result) t0
            = display_results W (PyStr message) t0) as Hrun.
  { intros t0. unfold bind at 1. by rewrite Hmsg. }
  assert (forall t0 typed, Str.truthy s = true ->
            main W (Some s) typed t0
            = display_results W (PyStr message) (t0 ++ script_header W)) as Hmain.
  { intros t0 typed Hs. by rewrite (main_given W s typed t0 Hs), Hrun. }
  pose proof (display_results_message W message) as Hshow.
  destruct (render_markup W message) as [[]|e0] eqn:Hrender.
  - split; [intros _; by rewrite Hrun, Hshow|]. split; [done|].
    split; [rewrite Hrun, Hshow; solve_trace|].
    split; [rewrite Hrun, Hshow; solve_trace|].
    intros Hs typed. rewrite (Hmain t typed Hs), Hshow. split; solve_trace.
  - split; [done|]. split.
    { intros e [= <-]. split; [by rewrite Hrun, Hshow|].
      intros Hs typed. by rewrite (Hmain t typed Hs), Hshow. }
    split; [rewrite Hrun, Hshow; solve_trace|].
    split; [rewrite Hrun, Hshow; solve_trace|].
    intros Hs typed. rewrite (Hmain t typed Hs), Hshow. split; solve_trace.
Qed.

(** The run of C2 on an input that holds a closing tag. *)
Lemma rejected_input_panel_needs_markup_witness :
  exists message,
    get_phone_info Demo.usual "[/x]" [] = ([], Ret (PyStr message))
    /\ (forall e, parse Demo.usual "[/x]" = Raise e ->
        is_instance e NumberParseException = true ->
        message = parse_failure_message "[/x]")
    /\ (render_markup Demo.usual message = Ret tt ->
        (result <- get_phone_info Demo.usual "[/x]" ;;
         display_results Demo.usual result) []
        = ([] ++ [PrintPanel message "[bold red]Error[/bold red]" None (Some "red")],
           Ret tt))
    /\ (forall e,
          render_markup Demo.usual message = Raise e ->
          (result <- get_phone_info Demo.usual "[/x]" ;;
           display_results Demo.usual result) []
          = ([], Raise e)
          /\ (Str.truthy "[/x]" = true ->
              forall typed,
                main Demo.usual (Some "[/x]") typed []
                = ([] ++ script_header Demo.usual, Raise e)))
    /\ generators_invoked
         ((result <- get_phone_info Demo.usual "[/x]" ;;
           display_results Demo.usual result) []).1
       = generators_invoked []
    /\ files_written
         ((result <- get_phone_info Demo.usual "[/x]" ;;
           display_results Demo.usual result) []).1
       = files_written []
    /\ (Str.truthy "[/x]" = true ->
        forall typed,
          generators_invoked (main Demo.usual (Some "[/x]") typed []).1
          = generators_invoked []
          /\ files_written (main Demo.usual (Some "[/x]") typed []).1
             = files_written []).
Proof.
  apply (rejected_input_panel_needs_markup Demo.usual "[/x]" []).
  left. eexists. reflexivity.
Defined.

(** The script started with [[/x]] as its argument: the title, then rich's
    exception instead of the error panel. *)
Lemma closing_tag_run :
  get_phone_info Demo.usual "[/x]" []
  = ([], Ret (PyStr "❌ Error: Failed to parse '[/x]'. Please check the format."))
  /\ main Demo.usual (Some "[/x]") EmptyString []
     = (script_header Demo.usual,
        Raise (mk_exn MarkupError
                 "closing tag '[/x]' at position 26 doesn't match any open tag")).
Proof. split; vm_compute; reflexivity. Qed.

(** The same script with an input rich can read: the error panel. *)
Lemma refused_input_run :
  main Demo.usual (Some "not-a-number") EmptyString []
  = (script_header Demo.usual
       ++ [PrintPanel "❌ Error: Failed to parse 'not-a-number'. Please check the format."
             "[bold red]Error[/bold red]" None (Some "red")],
     Ret tt).
Proof. vm_compute. reflexivity. Qed.

(** The static table: five categories, no other. *)
Lemma NUMBER_TYPE_MAP_lookup (category : Z) (text : string) :
  NUMBER_TYPE_MAP !! category = Some text <->
    (category = PhoneNumberType.FIXED_LINE /\ text = "Fixed Line")
    \/ (category = PhoneNumberType.MOBILE /\ text = "Mobile")
    \/ (category = PhoneNumberType.TOLL_FREE /\ text = "Toll-Free")
    \/ (category = PhoneNumberType.PREMIUM_RATE /\ text = "Premium Rate")
    \/ (category = PhoneNumberType.UNKNOWN /\ text = "Unknown").
Proof.
  unfold NUMBER_TYPE_MAP, PhoneNumberType.FIXED_LINE, PhoneNumberType.MOBILE,
    PhoneNumberType.TOLL_FREE, PhoneNumberType.PREMIUM_RATE,
    PhoneNumberType.UNKNOWN.
  rewrite !lookup_insert, lookup_empty.
  repeat case_decide; subst; (split; [intros [= <-]; tauto|]);
    intros [[? ->]|[[? ->]|[[? ->]|[[? ->]|[? ->]]]]]; congruence.
Qed.

(** C6.  The "Number Type" entry of a record is the display string of the
    library's category of the number: "Fixed Line" for fixed-line, "Mobile"
    for mobile, "Toll-Free" for toll-free, "Premium Rate" for premium-rate,
    "Unknown" for unknown, as the static table gives them, and exactly
    "Other" for every other category. *)
Theorem number_type_from_table (W : World) (s : string) (t t' : trace) (info : dict) :
  get_phone_info W s t = (t', Ret (PyDict info)) ->
  exists obj category,
    parse W s = Ret obj
    /\ number_type W obj = Ret category
    /\ Dict.lookup info "Number Type"
       = Some (PyStr (default "Other" (NUMBER_TYPE_MAP !! category)))
    /\ (category = PhoneNumberType.FIXED_LINE ->
        Dict.lookup info "Number Type" = Some (PyStr "Fixed Line"))
    /\ (category = PhoneNumberType.MOBILE ->
        Dict.lookup info "Number Type" = Some (PyStr "Mobile"))
    /\ (category = PhoneNumberType.TOLL_FREE ->
        Dict.lookup info "Number Type" = Some (PyStr "Toll-Free"))
    /\ (category = PhoneNumberType.PREMIUM_RATE ->
        Dict.lookup info "Number Type" = Some (PyStr "Premium Rate"))
    /\ (category = PhoneNumberType.UNKNOWN ->
        Dict.lookup info "Number Type" = Some (PyStr "Unknown"))
    /\ (category ∉ [PhoneNumberType.FIXED_LINE; PhoneNumberType.MOBILE;
                    PhoneNumberType.TOLL_FREE; PhoneNumberType.PREMIUM_RATE;
                    PhoneNumberType.UNKNOWN] ->
        Dict.lookup info "Number Type" = Some (PyStr "Other"))
    /\ (forall text, NUMBER_TYPE_MAP !! category = Some text ->
        Dict.lookup info "Number Type" = Some (PyStr text)
        /\ ((category = PhoneNumberType.FIXED_LINE /\ text = "Fixed Line")
            \/ (category = PhoneNumberType.MOBILE /\ text = "Mobile")
            \/ (category = PhoneNumberType.TOLL_FREE /\ text = "Toll-Free")
            \/ (category = PhoneNumberType.PREMIUM_RATE /\ text = "Premium Rate")
            \/ (category = PhoneNumberType.UNKNOWN /\ text = "Unknown"))).
Proof.
  intros H. apply get_phone_info_analysed in H.
  destruct (analysed_basic_entry W s t t' info "Number Type" ltac:(literal_key) H)
    as (obj & e164 & intl & natl & cat & loc & car & P1 & _ & _ & _ & _ & P7 & _ & Hl).
  exists obj, cat. split; [done|]. split; [done|].
  change (Dict.lookup info "Number Type"
          = Some (PyStr (default "Other" (NUMBER_TYPE_MAP !! cat)))) in Hl.
  split; [done|].
  repeat (split; [by intros ->|]). split.
  - intros Hout. rewrite Hl.
    destruct (NUMBER_TYPE_MAP !! cat) as [text|] eqn:E; [|done].
    exfalso. apply Hout. apply NUMBER_TYPE_MAP_lookup in E.
    rewrite !elem_of_cons. tauto.
  - intros text Htext. rewrite Hl, Htext. split; [done|].
    by apply NUMBER_TYPE_MAP_lookup.
Qed.

(** The run of C6 on the usual number when the library finds it mobile. *)
Lemma number_type_from_table_witness :
  exists obj category,
    parse Demo.usual "+14155552671" = Ret obj
    /\ number_type
         (with_number_type Demo.usual (fun _ => Ret PhoneNumberType.MOBILE)) obj
       = Ret category
    /\ category = PhoneNumberType.MOBILE
    /\ Dict.lookup (Dict.set Demo.usual_record "Number Type" (PyStr "Mobile"))
         "Number Type"
       = Some (PyStr "Mobile").
Proof.
  destruct (number_type_from_table
              (with_number_type Demo.usual (fun _ => Ret PhoneNumberType.MOBILE))
              "+14155552671" [] [Sleep 1]
              (Dict.set Demo.usual_record "Number Type" (PyStr "Mobile"))
              ltac:(vm_compute; reflexivity))
    as (obj & category & H1 & H2 & _ & _ & Hmobile & _).
  assert (category = PhoneNumberType.MOBILE) as Hc by by injection H2 as <-.
  exists obj, category. split; [exact H1|]. split; [exact H2|].
  split; [exact Hc|exact (Hmobile Hc)].
Defined.

(** The usual number, which the library finds fixed-line or mobile: a
    category the table does not hold. *)
Lemma usual_number_type :
  number_type Demo.usual "14155552671" = Ret PhoneNumberType.FIXED_LINE_OR_MOBILE
  /\ Dict.lookup Demo.usual_record "Number Type" = Some (PyStr "Other").
Proof. by split. Qed.

(** C7.  The "WhatsApp Link" entry of a record is the fixed template
    followed by the E.164 format with its plus signs removed; for an E.164
    format proper (a plus sign, then digits) that is the format stripped of
    its leading plus sign, and for [+14155552671] the link is
    [https://wa.me/14155552671]. *)
Theorem whatsapp_link_from_e164 (W : World) (s : string) (t t' : trace) (info : dict) :
  get_phone_info W s t = (t', Ret (PyDict info)) ->
  exists obj e,
    parse W s = Ret obj
    /\ format_number W obj E164 = Ret e
    /\ Dict.lookup info "E.164 Format" = Some (PyStr e)
    /\ Dict.lookup info "WhatsApp Link"
       = Some (PyStr ("https://wa.me/" +:+ Str.replace "+" EmptyString e))
    /\ (E164_form e = true ->
        Dict.lookup info "WhatsApp Link"
        = Some (PyStr ("https://wa.me/" +:+ strip_leading_plus e)))
    /\ (e = "+14155552671" ->
        Dict.lookup info "WhatsApp Link" = Some (PyStr "https://wa.me/14155552671")).
Proof.
  intros H. apply get_phone_info_analysed in H.
  destruct (analysed_basic_entry W s t t' info "E.164 Format" ltac:(literal_key) H)
    as (obj & e164 & intl & natl & cat & loc & car & P1 & P2 & _ & _ & _ & _ & _ & Hl).
  exists obj, e164. split; [done|]. split; [done|]. split; [done|].
  destruct H as [obj' e164' ? ? ? ? ? d1 d2 d3 Q1 _ Q3 _ _ _ _ _ _ _ _ ->].
  assert (e164' = e164) as -> by congruence.
  rewrite lookup_set_eq. split; [done|]. split.
  - intros He. by rewrite replace_plus_E164.
  - by intros ->.
Qed.

(** The run of C7 on [+14155552671]. *)
Lemma whatsapp_link_from_e164_witness :
  exists obj e,
    parse Demo.usual "+14155552671" = Ret obj
    /\ format_number Demo.usual obj E164 = Ret e
    /\ Dict.lookup Demo.usual_record "E.164 Format" = Some (PyStr e)
    /\ Dict.lookup Demo.usual_record "WhatsApp Link"
       = Some (PyStr ("https://wa.me/" +:+ Str.replace "+" EmptyString e))
    /\ (E164_form e = true ->
        Dict.lookup Demo.usual_record "WhatsApp Link"
        = Some (PyStr ("https://wa.me/" +:+ strip_leading_plus e)))
    /\ (e = "+14155552671" ->
        Dict.lookup Demo.usual_record "WhatsApp Link"
        = Some (PyStr "https://wa.me/14155552671")).
Proof.
  apply (whatsapp_link_from_e164 Demo.usual "+14155552671" [] [Sleep 1]
           Demo.usual_record).
  vm_compute. reflexivity.
Defined.


(** C8.  A record holds the seven keys "E.164 Format", "International
    Format", "National Format", "Number Type", "Area Code Location", "Mobile
    Carrier" and "WhatsApp Link", whatever the time-zone, country and
    geocoding steps did, and "WhatsApp Link" is its last key. *)
Theorem record_has_basic_keys_whatsapp_last (W : World) (s : string) (t t' : trace)
    (info : dict) :
  get_phone_info W s t = (t', Ret (PyDict info)) ->
  Forall (fun k => Dict.contains info k = true)
    ["E.164 Format"; "International Format"; "National Format"; "Number Type";
     "Area Code Location"; "Mobile Carrier"; "WhatsApp Link"]
  /\ last (Dict.keys info) = Some "WhatsApp Link".
Proof.
  intros H. apply get_phone_info_analysed in H.
  destruct (analysed_keys W s t t' info H) as (middle & Hk & _).
  split.
  - apply Forall_forall. intros k Hin. apply contains_keys. rewrite Hk.
    rewrite !elem_of_app. rewrite !elem_of_cons in Hin.
    destruct Hin as [->|[->|[->|[->|[->|[->|[->|Hin]]]]]]];
      [left; literal_key .. | right; right; literal_key | by apply elem_of_nil in Hin].
  - by rewrite Hk, !app_assoc, last_snoc.
Qed.

(** The run of C8 on the usual number. *)
Lemma record_has_basic_keys_whatsapp_last_witness :
  Forall (fun k => Dict.contains Demo.usual_record k = true)
    ["E.164 Format"; "International Format"; "National Format"; "Number Type";
     "Area Code Location"; "Mobile Carrier"; "WhatsApp Link"]
  /\ last (Dict.keys Demo.usual_record) = Some "WhatsApp Link".
Proof.
  apply (record_has_basic_keys_whatsapp_last Demo.usual "+14155552671" [] [Sleep 1]
           Demo.usual_record).
  vm_compute. reflexivity.
Defined.

(** What the geolocation step contributed to a record. *)
Lemma analysed_geolocation (W : World) (s : string) (t t' : trace) (info : dict) :
  analysed W s t t' info ->
  exists obj location coords info2 link,
    parse W s = Ret obj
    /\ description_for_number W obj "en" = Ret location
    /\ (forall k, k ∈ geolocation_keys -> Dict.lookup info2 k = None)
    /\ (if Str.truthy location
        then get_coordinates W location t = (t', Ret coords)
        else coords = None /\ t' = t)
    /\ info = Dict.set (geolocation_update W coords info2) "WhatsApp Link" link.
Proof.
  intros [obj e164 intl natl cat loc car d1 d2 d3 P1 _ _ P4 _ _ _ _ H1 H2 H3 ->].
  destruct (enrichment_frame _ _ _ _ _ _ _ _ _ H1 H2 H3) as [Hu _].
  rewrite geolocation_enrichment_eq in H3.
  assert (forall k, k ∈ geolocation_keys -> Dict.lookup d2 k = None) as Hnone.
  { intros k Hk. rewrite (updated_lookup _ _ _ _ Hu).
    - apply basic_information_lookup. revert Hk.
      unfold geolocation_keys. rewrite !elem_of_cons, elem_of_nil.
      intros [->|[->|[->|[]]]]; literal_key.
    - revert Hk. unfold geolocation_keys. rewrite !elem_of_cons, elem_of_nil.
      intros [->|[->|[->|[]]]]; literal_key. }
  destruct (Str.truthy loc) eqn:Hloc.
  - destruct (get_coordinates W loc t) as [t1 [c|e]] eqn:Hc; [|discriminate].
    injection H3 as <- <-.
    exists obj, loc, c, d2. eexists. rewrite Hloc, Hc. done.
  - injection H3 as <- <-.
    exists obj, loc, None, d2. eexists. rewrite Hloc. done.
Qed.

(** C9.  In a record the keys "Latitude", "Longitude" and "Google Maps
    Link" are all present or all absent; they are present exactly when the
    area description is non-empty and [get_coordinates] answered a pair. *)
Theorem coordinate_keys_together (W : World) (s : string) (t t' : trace)
    (info : dict) :
  get_phone_info W s t = (t', Ret (PyDict info)) ->
  exists obj location,
    parse W s = Ret obj
    /\ description_for_number W obj "en" = Ret location
    /\ ((Dict.contains info "Latitude" = true
         /\ Dict.contains info "Longitude" = true
         /\ Dict.contains info "Google Maps Link" = true
         /\ Str.truthy location = true
         /\ exists pair, get_coordinates W location t = (t', Ret (Some pair)))
        \/ (Dict.contains info "Latitude" = false
            /\ Dict.contains info "Longitude" = false
            /\ Dict.contains info "Google Maps Link" = false
            /\ (Str.truthy location = false
                \/ get_coordinates W location t = (t', Ret None)))).
Proof.
  intros H. apply get_phone_info_analysed in H.
  destruct (analysed_geolocation W s t t' info H)
    as (obj & loc & c & d2 & link & P1 & P2 & Hnone & Hc & ->).
  exists obj, loc. split; [done|]. split; [done|].
  unfold Dict.contains. rewrite !lookup_set_ne by done.
  destruct c as [[lat lon]|]; simpl.
  - left. rewrite !lookup_set. simpl.
    destruct (Str.truthy loc); [eauto 6 | by destruct Hc].
  - right. rewrite !Hnone by literal_key.
    destruct (Str.truthy loc); auto.
Qed.

(** The run of C9 on the usual number. *)
Lemma coordinate_keys_together_witness :
  exists obj location,
    parse Demo.usual "+14155552671" = Ret obj
    /\ description_for_number Demo.usual obj "en" = Ret location
    /\ ((Dict.contains Demo.usual_record "Latitude" = true
         /\ Dict.contains Demo.usual_record "Longitude" = true
         /\ Dict.contains Demo.usual_record "Google Maps Link" = true
         /\ Str.truthy location = true
         /\ exists pair,
              get_coordinates Demo.usual location [] = ([Sleep 1], Ret (Some pair)))
        \/ (Dict.contains Demo.usual_record "Latitude" = false
            /\ Dict.contains Demo.usual_record "Longitude" = false
            /\ Dict.contains Demo.usual_record "Google Maps Link" = false
            /\ (Str.truthy location = false
                \/ get_coordinates Demo.usual location [] = ([Sleep 1], Ret None)))).
Proof.
  apply (coordinate_keys_together Demo.usual "+14155552671" [] [Sleep 1]
           Demo.usual_record).
  vm_compute. reflexivity.
Defined.



(** On the usual number the map is centred on the pair read back from
    ["37.7790"] and ["-122.4199"], which is not the pair the geocoder
    answered. *)
Lemma usual_map_centre :
  exists m,
    files_written (create_location_map Demo.usual Demo.usual_record []).1
    = ["map_+14155552671.html"]
    /\ SaveMap "map_+14155552671.html" m
       ∈ (create_location_map Demo.usual Demo.usual_record []).1
    /\ map_location m
       = (mk_float false 5316921572575937 (-47), mk_float true 8614534625355209 (-46))
    /\ map_location m
       <> (latitude Demo.san_francisco, longitude Demo.san_francisco).
Proof.
  eexists. split; [vm_compute; reflexivity|]. split.
  - vm_compute. apply list_elem_of_further, list_elem_of_here.
  - split; [reflexivity | discriminate].
Qed.

(** The enrichment steps before geocoding do not consult the geocoder. *)
Lemma timezone_enrichment_with_geocode (W : World) g obj :
  timezone_enrichment (with_geocode W g) obj = timezone_enrichment W obj.
Proof. reflexivity. Qed.

Lemma country_enrichment_with_geocode (W : World) g obj :
  country_enrichment (with_geocode W g) obj = country_enrichment W obj.
Proof. reflexivity. Qed.



(** The time-zone step, case by case. *)
Lemma timezone_enrichment_eq (W : World) (obj : phone W) (info : dict) (t : trace) :
  timezone_enrichment W obj (info, t) =
    match time_zones_for_number W obj with
    | Raise e => ((info, t), Raise e)
    | Ret [] => ((info, t), Ret tt)
    | Ret (first_timezone :: _) =>
        let invalid e :=
          if caught_by [UnknownTimeZoneError] e
          then ((Dict.set info "Current Local Time" (PyStr "Invalid timezone data."), t),
                Ret tt)
          else ((info, t), Raise e) in
        match pytz_timezone W first_timezone with
        | Raise e => invalid e
        | Ret tz =>
            match datetime_now W tz with
            | Raise e => invalid e
            | Ret local_time =>
                ((Dict.set info "Current Local Time"
                    (PyStr (strftime W local_time "%A, %Y-%m-%d, %H:%M:%S %Z%z")), t),
                 Ret tt)
            end
        end
    end.
Proof.
  unfold timezone_enrichment, bind, call.
  destruct (time_zones_for_number W obj) as [[|first rest]|e]; [done| |done].
  unfold try_except, bind, call. simpl.
  destruct (pytz_timezone W first) as [tz|e]; simpl.
  - destruct (datetime_now W tz) as [now|e]; [done|]. simpl.
    by destruct (is_instance e UnknownTimeZoneError).
  - by destruct (is_instance e UnknownTimeZoneError).
Qed.

(** The entry the time-zone step leaves in a dictionary that had none. *)
Lemma timezone_entry (W : World) (obj : phone W) (d d1 : dict) (t : trace) :
  timezone_enrichment W obj (d, t) = ((d1, t), Ret tt) ->
  Dict.lookup d "Current Local Time" = None ->
  exists zones,
    time_zones_for_number W obj = Ret zones
    /\ (Dict.lookup d1 "Current Local Time" <> None <-> zones <> [])
    /\ (forall first rest,
          zones = first :: rest ->
          (forall e,
             pytz_timezone W first = Raise e ->
             is_instance e UnknownTimeZoneError = true ->
             Dict.lookup d1 "Current Local Time"
             = Some (PyStr "Invalid timezone data."))
          /\ (forall tz local_time,
                pytz_timezone W first = Ret tz ->
                datetime_now W tz = Ret local_time ->
                Dict.lookup d1 "Current Local Time"
                = Some (PyStr (strftime W local_time "%A, %Y-%m-%d, %H:%M:%S %Z%z")))).
Proof.
  intros E1 Hd. rewrite timezone_enrichment_eq in E1.
  destruct (time_zones_for_number W obj) as [zones|e] eqn:Hz; [|discriminate].
  exists zones. split; [done|].
  destruct zones as [|first rest].
  { injection E1 as <-. rewrite Hd. split; [by split|]. by intros ? ? ?. }
  cbv zeta in E1. split.
  { split; [done|]. intros _.
    destruct (pytz_timezone W first) as [tz|e].
    - destruct (datetime_now W tz) as [now|e].
      + injection E1 as <-. by rewrite lookup_set_eq.
      + destruct (caught_by _ e); [|discriminate].
        injection E1 as <-. by rewrite lookup_set_eq.
    - destruct (caught_by _ e); [|discriminate].
      injection E1 as <-. by rewrite lookup_set_eq. }
  intros first' rest' [= <- <-]. split.
  - intros e He Hinst. rewrite He in E1.
    unfold caught_by in E1. simpl in E1. rewrite Hinst in E1.
    injection E1 as <-. by rewrite lookup_set_eq.
  - intros tz now Htz Hnow. rewrite Htz, Hnow in E1.
    injection E1 as <-. by rewrite lookup_set_eq.
Qed.



(** C5.  For a record whose "E.164 Format" is an E.164 number [e] -- a
    plus sign and then digits, as the analysis writes it -- and that has
    neither "Latitude" nor "Longitude", and with a file system that takes the
    contact file: running both artifact generators, in either order, writes
    exactly one file, [contact_<e>.png], written by the Contact QR
    Generator; the Location Map Generator writes none. *)
Theorem minimal_record_writes_contact_only (W : World) (info : dict) (e : string) :
  Dict.lookup info "E.164 Format" = Some (PyStr e) ->
  E164_form e = true ->
  Dict.contains info "Latitude" = false ->
  Dict.contains info "Longitude" = false ->
  save_image W ("contact_" +:+ e +:+ ".png") = Ret tt ->
  files_written ((create_location_map W info ;; create_qr_code W info) []).1
  = ["contact_" +:+ e +:+ ".png"]
  /\ files_written ((create_qr_code W info ;; create_location_map W info) []).1
     = ["contact_" +:+ e +:+ ".png"]
  /\ files_written (create_qr_code W info []).1 = ["contact_" +:+ e +:+ ".png"]
  /\ files_written (create_location_map W info []).1 = []
  /\ (create_location_map W info ;; create_qr_code W info) [] =
       ([Enter create_location_map_fn;
         Enter create_qr_code_fn;
         SaveImage ("contact_" +:+ e +:+ ".png")
           {| qr_version := 1; qr_box_size := 10; qr_border := 2;
              qr_data := "BEGIN:VCARD" +:+ newline +:+ "VERSION:3.0" +:+ newline
                         +:+ "FN:" +:+ e +:+ newline
                         +:+ "TEL;TYPE=CELL:" +:+ e +:+ newline
                         +:+ "END:VCARD";
              qr_fit := true; qr_fill_color := "black"; qr_back_color := "white" |};
         Print ("✅ [bold green]Contact QR Code saved as '"
                +:+ ("contact_" +:+ e +:+ ".png") +:+ "'[/bold green]")],
        Ret tt).
Proof.
  intros He Hform Hlat Hlon Hsave.
  assert (Dict.get info "E.164 Format" = PyStr e) as Hget
    by (unfold Dict.get; by rewrite He).
  assert (Str.truthy e = true) as Htruthy.
  { revert Hform. unfold E164_form. by destruct e. }
  assert (forall t0, create_location_map W info t0
                     = (t0 ++ [Enter create_location_map_fn], Ret tt)) as Hmap
    by (intros t0; apply create_location_map_skips; auto).
  assert (forall t0, create_qr_code W info t0 =
            (t0 ++ [Enter create_qr_code_fn;
                    SaveImage ("contact_" +:+ e +:+ ".png")
                      {| qr_version := 1; qr_box_size := 10; qr_border := 2;
                         qr_data := "BEGIN:VCARD" +:+ newline +:+ "VERSION:3.0" +:+ newline
                                    +:+ "FN:" +:+ e +:+ newline
                                    +:+ "TEL;TYPE=CELL:" +:+ e +:+ newline
                                    +:+ "END:VCARD";
                         qr_fit := true; qr_fill_color := "black";
                         qr_back_color := "white" |};
                    Print ("✅ [bold green]Contact QR Code saved as '"
                           +:+ ("contact_" +:+ e +:+ ".png")
                           +:+ "'[/bold green]")],
             Ret tt)) as Hqr.
  { intros t0. unfold create_qr_code, bind, emit, modify, call.
    rewrite Hget. cbn [Value.truthy py_str fst snd]. rewrite Htruthy. cbn [negb].
    rewrite Hsave. by rewrite <- !app_assoc. }
  unfold bind. rewrite !Hmap, !Hqr, !Hmap. done.
Qed.

(** The run of C5 on the record that holds the E.164 format only. *)
Lemma minimal_record_writes_contact_only_witness :
  let info := [("E.164 Format", PyStr "+14155552671")] in
  files_written
    ((create_location_map Demo.usual info ;; create_qr_code Demo.usual info) []).1
  = ["contact_+14155552671.png"]
  /\ files_written (create_location_map Demo.usual info []).1 = [].
Proof.
  intros info.
  destruct (minimal_record_writes_contact_only Demo.usual info "+14155552671"
              eq_refl eq_refl eq_refl eq_refl eq_refl) as (H1 & _ & _ & H4 & _).
  split; [exact H1 | exact H4].
Defined.

(** ** The country step: the failures it contains, and the one it does not *)

(** The steps around the country step do not consult the country facts. *)
Lemma timezone_enrichment_with_country_info (W : World) facts obj :
  timezone_enrichment (with_country_info W facts) obj = timezone_enrichment W obj.
Proof. reflexivity. Qed.

Lemma geolocation_enrichment_with_country_info (W : World) facts location :
  geolocation_enrichment (with_country_info W facts) location
  = geolocation_enrichment W location.
Proof. reflexivity. Qed.

Lemma without_geolocation_update (W : World) ks coords d :
  (forall k, k ∈ geolocation_keys -> k ∉ ks) ->
  Dict.without ks (geolocation_update W coords d)
  = geolocation_update W coords (Dict.without ks d).
Proof.
  intros Hks. destruct coords as [[lat lon]|]; [|done]. simpl.
  rewrite !without_set_ne; [done|apply Hks; literal_key ..].
Qed.

(** A [KeyError] or [IndexError] raised by the lookups becomes the fallback
    entry; the entries written before the failure stay. *)
Lemma country_failure_fallback (W : World) (obj : phone W) (code : string)
    (d d1 : dict) (t t1 : trace) (e : exn) :
  region_code_for_number W obj = Ret (Some code) ->
  Str.truthy code = true ->
  country_lookup W code (d, t) = ((d1, t1), Raise e) ->
  caught_by [KeyError; IndexError] e = true ->
  country_enrichment W obj (d, t)
  = ((Dict.set d1 "Country Info" (PyStr "Could not retrieve."), t1), Ret tt).
Proof.
  intros Hcode Htruthy Hlookup Hcaught.
  unfold country_enrichment, bind, call. rewrite Hcode, Htruthy.
  unfold try_except. rewrite Hlookup. unfold dispatch. by rewrite Hcaught.
Qed.

(** Two runs that differ in the country facts only, and both end in a
    record, agree on every entry outside the country group. *)
Lemma country_group_independent (W : World) facts (s : string) (t t' t'' : trace)
    (info info' : dict) :
  get_phone_info W s t = (t', Ret (PyDict info)) ->
  get_phone_info (with_country_info W facts) s t = (t'', Ret (PyDict info')) ->
  Dict.without country_keys info' = Dict.without country_keys info.
Proof.
  intros H H'. apply get_phone_info_analysed in H, H'.
  destruct H as [o e164 intl natl cat loc car d1 d2 d3 P1 P2 P3 P4 P5 P6 P7 P8
                   H1 H2 H3 ->].
  destruct H' as [o' e164' intl' natl' cat' loc' car' d1' d2' d3'
                    Q1 Q2 Q3 Q4 Q5 Q6 Q7 Q8 H1' H2' H3' ->].
  change (parse W s = Ret o') in Q1.
  assert (o' = o) as -> by congruence.
  change (format_number W o E164 = Ret e164') in Q3.
  change (description_for_number W o "en" = Ret loc') in Q4.
  change (format_number W o INTERNATIONAL = Ret intl') in Q5.
  change (format_number W o NATIONAL = Ret natl') in Q6.
  change (number_type W o = Ret cat') in Q7.
  change (name_for_number W o "en" = Ret car') in Q8.
  assert (e164' = e164) as -> by congruence.
  assert (loc' = loc) as -> by congruence.
  assert (intl' = intl) as -> by congruence.
  assert (natl' = natl) as -> by congruence.
  assert (cat' = cat) as -> by congruence.
  assert (car' = car) as -> by congruence.
  rewrite timezone_enrichment_with_country_info in H1'.
  assert (d1' = d1) as -> by congruence.
  apply country_enrichment_writes in H2, H2'. cbn [fst] in H2, H2'.
  rewrite geolocation_enrichment_with_country_info in H3'.
  rewrite geolocation_enrichment_eq in H3, H3'.
  rewrite !without_set_ne by literal_key. f_equal.
  destruct (Str.truthy loc).
  - destruct (get_coordinates W loc t) as [t1 [c|e]]; [|discriminate].
    injection H3 as <- _. injection H3' as <- _.
    change (geolocation_update (with_country_info W facts) c d2')
      with (geolocation_update W c d2').
    rewrite !without_geolocation_update
      by (unfold geolocation_keys; intros k; rewrite !elem_of_cons, elem_of_nil;
          intros [->|[->|[->|[]]]]; literal_key).
    by rewrite (updated_without _ _ _ H2), (updated_without _ _ _ H2').
  - injection H3 as <- _. injection H3' as <- _.
    by rewrite (updated_without _ _ _ H2), (updated_without _ _ _ H2').
Qed.

(** A contained failure of the country lookups does not abort the
    analysis: where a run with other country facts ends in a record, the
    run with the failing facts does too, the record holds the fallback
    entry, and outside the country group the two records are the same. *)
Lemma contained_country_failure (W : World) facts (s : string) (t t'' : trace)
    (info' : dict) (obj : phone W) (code : string) :
  get_phone_info (with_country_info W facts) s t = (t'', Ret (PyDict info')) ->
  parse W s = Ret obj ->
  region_code_for_number W obj = Ret (Some code) ->
  Str.truthy code = true ->
  (forall d, exists d1 e,
      country_lookup W code (d, t) = ((d1, t), Raise e)
      /\ caught_by [KeyError; IndexError] e = true) ->
  exists info,
    get_phone_info W s t = (t'', Ret (PyDict info))
    /\ Dict.lookup info "Country Info" = Some (PyStr "Could not retrieve.")
    /\ Dict.without country_keys info' = Dict.without country_keys info.
Proof.
  intros H' Hparse Hcode Htruthy Hfail.
  pose proof H' as A'. apply get_phone_info_analysed in A'.
  destruct A' as [o' e164 intl natl cat loc car d1 d2' d3'
                    Q1 Q2 Q3 Q4 Q5 Q6 Q7 Q8 H1' H2' H3' ->].
  change (parse W s = Ret o') in Q1.
  assert (o' = obj) as -> by congruence.
  rewrite timezone_enrichment_with_country_info in H1'.
  destruct (Hfail d1) as (dx & e & Hlookup & Hcaught).
  pose proof (country_failure_fallback W obj code d1 dx t t e Hcode Htruthy
                Hlookup Hcaught) as H2.
  rewrite geolocation_enrichment_with_country_info, geolocation_enrichment_eq in H3'.
  set (d2 := Dict.set dx "Country Info" (PyStr "Could not retrieve.")) in *.
  assert (exists c, geolocation_enrichment W loc (d2, t)
                    = ((geolocation_update W c d2, t''), Ret tt)) as [c H3].
  { rewrite geolocation_enrichment_eq. destruct (Str.truthy loc).
    - destruct (get_coordinates W loc t) as [t1 [c|e']]; [|discriminate].
      injection H3' as _ <-. by exists c.
    - injection H3' as _ <-. by exists None. }
  assert (analysed W s t t''
            (Dict.set (geolocation_update W c d2) "WhatsApp Link"
               (PyStr ("https://wa.me/" +:+ Str.replace "+" EmptyString e164)))) as A.
  { by eapply (Analysed W s t t'' _ obj e164 intl natl cat loc car d1 d2). }
  apply analysed_get_phone_info in A.
  eexists. split; [exact A|]. split.
  - rewrite lookup_set_ne by done.
    pose proof (geolocation_enrichment_writes W _ _ _ _ H3) as U3. cbn [fst] in U3.
    rewrite (updated_lookup _ _ _ _ U3) by literal_key.
    apply lookup_set_eq.
  - exact (country_group_independent W facts s t t'' t'' _ _ A H').
Qed.

(** C1: the failure that is not contained.  When the country facts of the
    number's region have no "currencies" key, the lookup of the currency
    raises a [TypeError]; the [except (KeyError, IndexError)] clause of the
    country step does not catch it, so the step raises -- after "Country" and
    "Capital City" were written and without a "Country Info" entry -- and the
    analysis ends in an error string, never in a record. *)
Theorem missing_currencies_key_aborts (W : World) (s : string) (t : trace)
    (obj : phone W) (code : string) (entries : dict) :
  parse W s = Ret obj ->
  region_code_for_number W obj = Ret (Some code) ->
  Str.truthy code = true ->
  country_info W code = Ret (PyDict entries) ->
  Dict.lookup entries "currencies" = None ->
  (forall d t0,
     country_enrichment W obj (d, t0)
     = ((Dict.set
           (Dict.set d "Country"
              (PyStr (py_str W (Dict.get entries "name") +:+ " (" +:+ code +:+ ")")))
           "Capital City" (Dict.get entries "capital"), t0),
        Raise (mk_exn TypeError "'NoneType' object is not subscriptable")))
  /\ exists t' message, get_phone_info W s t = (t', Ret (PyStr message)).
Proof.
  intros Hparse Hcode Htruthy Hfacts Hmissing.
  assert (forall d t0,
            country_enrichment W obj (d, t0)
            = ((Dict.set
                  (Dict.set d "Country"
                     (PyStr (py_str W (Dict.get entries "name") +:+ " (" +:+ code +:+ ")")))
                  "Capital City" (Dict.get entries "capital"), t0),
               Raise (mk_exn TypeError "'NoneType' object is not subscriptable")))
    as Hstep.
  { intros d t0.
    unfold country_enrichment, bind, call. rewrite Hcode, Htruthy.
    unfold try_except, country_lookup, bind, call. rewrite Hfacts.
    unfold Value.get, setitem, update_local. cbn [fst snd].
    assert (Dict.get entries "currencies" = PyNone) as ->
      by (unfold Dict.get; by rewrite Hmissing).
    done. }
  split; [exact Hstep|].
  destruct (get_phone_info_total W s t) as (t' & v & Hrun & [[info ->] | [message ->]]).
  - exfalso. apply get_phone_info_analysed in Hrun.
    destruct Hrun as [o ? ? ? ? ? ? d1 d2 d3 P1 _ _ _ _ _ _ _ _ H2 _ _].
    assert (o = obj) as -> by congruence.
    rewrite Hstep in H2. discriminate.
  - by exists t', message.
Qed.

(** The run of C1's defect: the usual number, country facts without the
    "currencies" key. *)
Lemma missing_currencies_key_aborts_witness :
  let W := Demo.world ["America/Los_Angeles"]
             (Demo.known_country Demo.united_states_no_currencies) Demo.found in
  (forall d t0,
     country_enrichment W "14155552671" (d, t0)
     = ((Dict.set
           (Dict.set d "Country" (PyStr "United States (US)"))
           "Capital City" (PyStr "Washington D.C."), t0),
        Raise (mk_exn TypeError "'NoneType' object is not subscriptable")))
  /\ exists t' message, get_phone_info W "+14155552671" [] = (t', Ret (PyStr message)).
Proof.
  intros W.
  exact (missing_currencies_key_aborts W "+14155552671" [] "14155552671" "US" _
           eq_refl eq_refl eq_refl eq_refl eq_refl).
Defined.

(** The error string of that run. *)
Lemma missing_currencies_run :
  get_phone_info
    (Demo.world ["America/Los_Angeles"]
       (Demo.known_country Demo.united_states_no_currencies) Demo.found)
    "+14155552671" []
  = ([],
     Ret (PyStr "❌ An unexpected error occurred: 'NoneType' object is not subscriptable")).
Proof. vm_compute. reflexivity. Qed.

(** The contained failures on the same number: an unknown country and an
    empty currency list both leave a record with the fallback entry. *)
Lemma unknown_country_run :
  exists info,
    get_phone_info
      (Demo.world ["America/Los_Angeles"] Demo.unknown_country Demo.found)
      "+14155552671" [] = ([Sleep 1], Ret (PyDict info))
    /\ Dict.lookup info "Country Info" = Some (PyStr "Could not retrieve.")
    /\ Dict.without country_keys info = Dict.without country_keys Demo.usual_record.
Proof. eexists. vm_compute. done. Qed.

Lemma empty_currencies_run :
  exists info,
    get_phone_info
      (Demo.world ["America/Los_Angeles"]
         (Demo.known_country Demo.united_states_empty_currencies) Demo.found)
      "+14155552671" [] = ([Sleep 1], Ret (PyDict info))
    /\ Dict.lookup info "Country Info" = Some (PyStr "Could not retrieve.")
    /\ Dict.lookup info "Country" = Some (PyStr "United States (US)")
    /\ Dict.without country_keys info = Dict.without country_keys Demo.usual_record.
Proof. eexists. vm_compute. done. Qed.

(** * More of the program *)

(** ** Runs of assignments *)

Section Updates.

Implicit Types (d : dict) (us : list (string * pyval)) (k : string) (v : pyval).

Lemma apply_updates_snoc d us k v :
  Dict.set (apply_updates d us) k v = apply_updates d (us ++ [(k, v)]).
Proof. unfold apply_updates. by rewrite foldl_app. Qed.

Lemma apply_updates_app d us1 us2 :
  apply_updates (apply_updates d us1) us2 = apply_updates d (us1 ++ us2).
Proof. unfold apply_updates. by rewrite foldl_app. Qed.

Lemma lookup_apply_updates_other d us k :
  k ∉ map fst us -> Dict.lookup (apply_updates d us) k = Dict.lookup d k.
Proof.
  revert d. induction us as [|[k0 v0] us IH]; intros d Hk; [done|].
  simpl in Hk. apply not_elem_of_cons in Hk as [Hne Hk].
  change (apply_updates d ((k0, v0) :: us))
    with (apply_updates (Dict.set d k0 v0) us).
  rewrite IH by done. by apply lookup_set_ne.
Qed.

Lemma keys_apply_updates_fresh d us :
  NoDup (map fst us) ->
  (forall k, k ∈ map fst us -> Dict.lookup d k = None) ->
  Dict.keys (apply_updates d us) = Dict.keys d ++ map fst us.
Proof.
  revert d. induction us as [|[k0 v0] us IH]; intros d Hnd Hfresh.
  - by rewrite app_nil_r.
  - simpl in Hnd. apply NoDup_cons in Hnd as [Hk0 Hnd].
    change (apply_updates d ((k0, v0) :: us))
      with (apply_updates (Dict.set d k0 v0) us).
    rewrite IH; [|done|].
    + rewrite keys_set_new by (apply Hfresh; simpl; left).
      by rewrite <- app_assoc.
    + intros k Hk. rewrite lookup_set_ne; [apply Hfresh; simpl; by right|].
      intros ->. done.
Qed.

Lemma lookup_apply_updates d us k v :
  Dict.lookup (apply_updates d us) k = Some v ->
  Dict.lookup d k = Some v \/ (k, v) ∈ us.
Proof.
  revert d. induction us as [|[k0 v0] us IH]; intros d; [auto|].
  change (apply_updates d ((k0, v0) :: us))
    with (apply_updates (Dict.set d k0 v0) us).
  intros H. apply IH in H as [H|H]; [|right; by right].
  rewrite lookup_set in H. destruct (String.eqb_spec k0 k) as [->|]; [|auto].
  injection H as ->. right. left.
Qed.

End Updates.

(** Inclusion, in order, between lists of literal keys. *)
Ltac literal_sublist :=
  repeat first [apply sublist_nil_l | apply sublist_skip | apply sublist_cons].

(** An entry whose value is a string, or whose key is a raw one. *)
Ltac literal_entries :=
  repeat first
    [ apply Forall_nil_2
    | apply Forall_cons_2; [first [by left | right; literal_key]|] ].

(** ** The shape of each enrichment step *)

Section Shapes.

Context (W : World).

(** Writes a nest of assignments as a run of assignments. *)
Ltac as_updates d :=
  lazymatch d with
  | Dict.set ?d' ?k ?v =>
      let r := as_updates d' in
      lazymatch r with
      | (?base, ?us) => constr:((base, us ++ [(k, v)]))
      end
  | _ => constr:((d, @nil (string * pyval)))
  end.

Ltac shape_of_leaf :=
  lazymatch goal with
  | |- exists us, ?d' = apply_updates ?d us /\ _ =>
      let r := as_updates d' in
      lazymatch r with
      | (_, ?us) =>
          let us' := eval cbn [app] in us in
          exists us'; split; [reflexivity|]; split;
          [cbn [map fst]; literal_sublist | literal_entries]
      end
  end.

Lemma timezone_enrichment_shape obj d t d1 t1 :
  timezone_enrichment W obj (d, t) = ((d1, t1), Ret tt) ->
  exists us,
    d1 = apply_updates d us
    /\ sublist (map fst us) timezone_keys
    /\ Forall entry_ok us.
Proof.
  rewrite timezone_enrichment_eq. unfold caught_by. simpl.
  intros H. repeat (case_match; simplify_eq/=); shape_of_leaf.
Qed.

Lemma country_enrichment_shape obj d t d2 t2 :
  country_enrichment W obj (d, t) = ((d2, t2), Ret tt) ->
  exists us,
    d2 = apply_updates d us
    /\ sublist (map fst us) country_keys
    /\ Forall entry_ok us.
Proof.
  unfold country_enrichment, try_except, country_lookup, bind, call, setitem,
    update_local, ret.
  intros H. repeat (case_match; simplify_eq/=); shape_of_leaf.
Qed.

Lemma geolocation_enrichment_shape location d t d3 t3 :
  geolocation_enrichment W location (d, t) = ((d3, t3), Ret tt) ->
  exists us,
    d3 = apply_updates d us
    /\ sublist (map fst us) geolocation_keys
    /\ Forall entry_ok us.
Proof.
  rewrite geolocation_enrichment_eq. unfold geolocation_update.
  intros H. repeat (case_match; simplify_eq/=); shape_of_leaf.
Qed.

End Shapes.

(** ** The record as a run of assignments *)

Lemma enrichment_keys_NoDup :
  NoDup (timezone_keys ++ country_keys ++ geolocation_keys ++ ["WhatsApp Link"]).
Proof. literal_key. Qed.

Lemma enrichment_keys_not_basic :
  Forall (fun k => k ∉ basic_keys)
    (timezone_keys ++ country_keys ++ geolocation_keys ++ ["WhatsApp Link"]).
Proof. literal_key. Qed.

(** A record is the literal dictionary followed by the assignments of the
    time-zone step, the country step, the geolocation step and the
    WhatsApp link. *)
Lemma analysed_updates (W : World) (s : string) (t t' : trace) (info : dict) :
  analysed W s t t' info ->
  exists obj e164 international national category location carrier tzs cs gs,
    parse W s = Ret obj
    /\ format_number W obj E164 = Ret e164
    /\ description_for_number W obj "en" = Ret location
    /\ format_number W obj INTERNATIONAL = Ret international
    /\ format_number W obj NATIONAL = Ret national
    /\ number_type W obj = Ret category
    /\ name_for_number W obj "en" = Ret carrier
    /\ info = apply_updates
               (basic_information e164 international national category location
                  carrier)
               (tzs ++ cs ++ gs
                ++ [("WhatsApp Link",
                     PyStr ("https://wa.me/" +:+ Str.replace "+" EmptyString e164))])
    /\ sublist (map fst tzs) timezone_keys
    /\ sublist (map fst cs) country_keys
    /\ sublist (map fst gs) geolocation_keys
    /\ Forall entry_ok (tzs ++ cs ++ gs).
Proof.
  intros [obj e164 intl natl cat loc car d1 d2 d3 P1 P2 P3 P4 P5 P6 P7 P8
            H1 H2 H3 ->].
  destruct (timezone_enrichment_shape W _ _ _ _ _ H1) as (tzs & -> & S1 & F1).
  destruct (country_enrichment_shape W _ _ _ _ _ H2) as (cs & -> & S2 & F2).
  destruct (geolocation_enrichment_shape W _ _ _ _ _ H3) as (gs & -> & S3 & F3).
  exists obj, e164, intl, natl, cat, loc, car, tzs, cs, gs.
  repeat (split; [done|]). split.
  - by rewrite apply_updates_snoc, !apply_updates_app, <- ?app_assoc.
  - repeat (split; [done|]). by rewrite !Forall_app.
Qed.

Lemma basic_information_strings e164 international national category location
    carrier k v :
  Dict.lookup
    (basic_information e164 international national category location carrier) k
  = Some v ->
  is_str v = true.
Proof.
  unfold basic_information. cbn [Dict.lookup].
  repeat (destruct (String.eqb _ k); [by intros [= <-]|]). done.
Qed.

(** The keys of the record, group by group. *)
Lemma analysed_key_groups (W : World) (s : string) (t t' : trace) (info : dict) :
  analysed W s t t' info ->
  exists tzk ck gk,
    Dict.keys info = basic_keys ++ tzk ++ ck ++ gk ++ ["WhatsApp Link"]
    /\ sublist tzk timezone_keys
    /\ sublist ck country_keys
    /\ sublist gk geolocation_keys.
Proof.
  intros H.
  destruct (analysed_updates W s t t' info H)
    as (obj & e164 & intl & natl & cat & loc & car & tzs & cs & gs
        & _ & _ & _ & _ & _ & _ & _ & -> & S1 & S2 & S3 & _).
  exists (map fst tzs), (map fst cs), (map fst gs).
  repeat (split; [|done]).
  assert (sublist
            (map fst (tzs ++ cs ++ gs
                      ++ [("WhatsApp Link",
                           PyStr ("https://wa.me/"
                                  +:+ Str.replace "+" EmptyString e164))]))
            (timezone_keys ++ country_keys ++ geolocation_keys ++ ["WhatsApp Link"]))
    as Hsub.
  { rewrite !map_app. by repeat apply sublist_app. }
  rewrite keys_apply_updates_fresh.
  - by rewrite !map_app.
  - exact (sublist_NoDup _ _ enrichment_keys_NoDup Hsub).
  - intros k Hk. apply basic_information_lookup.
    pose proof (elem_of_sublist _ _ _ Hk Hsub) as Hin.
    pose proof enrichment_keys_not_basic as Hnb.
    rewrite Forall_forall in Hnb. by apply Hnb.
Qed.

(** * Further properties of the program *)

(** X1.  The keys of a record come in one fixed order, without
    repetition: the six basic keys, then those of the time-zone, country and
    geolocation entries that were written, then "WhatsApp Link". *)
Theorem record_keys_in_canonical_order (W : World) (s : string) (t t' : trace)
    (info : dict) :
  get_phone_info W s t = (t', Ret (PyDict info)) ->
  sublist (Dict.keys info) canonical_keys
  /\ NoDup (Dict.keys info)
  /\ exists rest, Dict.keys info = basic_keys ++ rest.
Proof.
  intros H. apply get_phone_info_analysed in H.
  destruct (analysed_key_groups W s t t' info H) as (tzk & ck & gk & -> & S1 & S2 & S3).
  assert (sublist (basic_keys ++ tzk ++ ck ++ gk ++ ["WhatsApp Link"]) canonical_keys)
    as Hsub by (unfold canonical_keys; by repeat apply sublist_app).
  split; [done|]. split; [|by eexists].
  refine (sublist_NoDup _ _ _ Hsub). literal_key.
Qed.

(** The keys of the usual record. *)
Lemma record_keys_in_canonical_order_witness :
  sublist (Dict.keys Demo.usual_record) canonical_keys
  /\ NoDup (Dict.keys Demo.usual_record)
  /\ exists rest, Dict.keys Demo.usual_record = basic_keys ++ rest.
Proof.
  apply (record_keys_in_canonical_order Demo.usual "+14155552671" [] [Sleep 1]).
  vm_compute. reflexivity.
Defined.

(** X2.  Every value of a record is a string, except that "Capital City"
    and "Continent / Region" hold whatever the country facts hold. *)
Theorem record_values_are_strings (W : World) (s : string) (t t' : trace)
    (info : dict) (k : string) (v : pyval) :
  get_phone_info W s t = (t', Ret (PyDict info)) ->
  Dict.lookup info k = Some v ->
  is_str v = true \/ k = "Capital City" \/ k = "Continent / Region".
Proof.
  intros H Hk. apply get_phone_info_analysed in H.
  destruct (analysed_updates W s t t' info H)
    as (obj & e164 & intl & natl & cat & loc & car & tzs & cs & gs
        & _ & _ & _ & _ & _ & _ & _ & -> & _ & _ & _ & Hok).
  apply lookup_apply_updates in Hk as [Hk|Hk].
  - left. by eapply basic_information_strings.
  - rewrite !app_assoc in Hk. apply elem_of_app in Hk as [Hk|Hk].
    + rewrite <- !app_assoc in Hk. rewrite Forall_forall in Hok.
      destruct (Hok _ Hk) as [Hs|Hraw]; [by left|right].
      unfold raw_keys in Hraw. simpl in Hraw.
      by rewrite !elem_of_cons, elem_of_nil in Hraw; destruct Hraw as [?|[?|[]]]; auto.
    + apply list_elem_of_singleton in Hk. injection Hk as -> ->. by left.
Qed.

(** A value of the usual record. *)
Lemma record_values_are_strings_witness :
  is_str (PyStr "Washington D.C.") = true
  \/ "Capital City" = "Capital City" \/ "Capital City" = "Continent / Region".
Proof.
  apply (record_values_are_strings Demo.usual "+14155552671" [] [Sleep 1]
           Demo.usual_record "Capital City" (PyStr "Washington D.C."));
    vm_compute; reflexivity.
Defined.

(** X3.  In a record the national format, the area description and the
    carrier are never empty: each is what the library answered, or "N/A"
    when the library answered the empty string. *)
Theorem empty_answers_become_not_available (W : World) (s : string) (t t' : trace)
    (info : dict) :
  get_phone_info W s t = (t', Ret (PyDict info)) ->
  exists obj national location carrier,
    parse W s = Ret obj
    /\ format_number W obj NATIONAL = Ret national
    /\ description_for_number W obj "en" = Ret location
    /\ name_for_number W obj "en" = Ret carrier
    /\ Forall
         (fun entry =>
            exists text,
              Dict.lookup info entry.1 = Some (PyStr text)
              /\ text <> EmptyString
              /\ (entry.2 <> EmptyString -> text = entry.2)
              /\ (entry.2 = EmptyString -> text = "N/A"))
         [("National Format", national);
          ("Area Code Location", location);
          ("Mobile Carrier", carrier)].
Proof.
  intros H. apply get_phone_info_analysed in H.
  assert (forall x, Str.or_else x "N/A" <> EmptyString
                    /\ (x <> EmptyString -> Str.or_else x "N/A" = x)
                    /\ (x = EmptyString -> Str.or_else x "N/A" = "N/A")) as Hor.
  { intros [|c x]; by repeat split. }
  destruct (analysed_basic_entry W s t t' info "National Format" ltac:(literal_key) H)
    as (obj & e164 & intl & natl & cat & loc & car
        & P1 & P2 & P3 & P4 & P5 & P6 & P7 & L1).
  destruct (analysed_basic_entry W s t t' info "Area Code Location"
              ltac:(literal_key) H)
    as (obj2 & e2 & i2 & n2 & c2 & l2 & r2 & Q1 & Q2 & Q3 & Q4 & Q5 & Q6 & Q7 & L2).
  destruct (analysed_basic_entry W s t t' info "Mobile Carrier" ltac:(literal_key) H)
    as (obj3 & e3 & i3 & n3 & c3 & l3 & r3 & R1 & R2 & R3 & R4 & R5 & R6 & R7 & L3).
  assert (obj2 = obj) as -> by congruence.
  assert (obj3 = obj) as -> by congruence.
  assert (l2 = loc) as -> by congruence.
  assert (r3 = car) as -> by congruence.
  exists obj, natl, loc, car. repeat (split; [done|]).
  repeat apply Forall_cons_2; [..|apply Forall_nil_2]; cbn [fst snd].
  - exists (Str.or_else natl "N/A"). split; [exact L1 | apply Hor].
  - exists (Str.or_else loc "N/A"). split; [exact L2 | apply Hor].
  - exists (Str.or_else car "N/A"). split; [exact L3 | apply Hor].
Qed.

(** The usual record: the carrier is unknown, the other two are known. *)
Lemma empty_answers_become_not_available_witness :
  exists obj national location carrier,
    parse Demo.usual "+14155552671" = Ret obj
    /\ format_number Demo.usual obj NATIONAL = Ret national
    /\ description_for_number Demo.usual obj "en" = Ret location
    /\ name_for_number Demo.usual obj "en" = Ret carrier
    /\ Forall
         (fun entry =>
            exists text,
              Dict.lookup Demo.usual_record entry.1 = Some (PyStr text)
              /\ text <> EmptyString
              /\ (entry.2 <> EmptyString -> text = entry.2)
              /\ (entry.2 = EmptyString -> text = "N/A"))
         [("National Format", national);
          ("Area Code Location", location);
          ("Mobile Carrier", carrier)].
Proof.
  apply (empty_answers_become_not_available Demo.usual "+14155552671" []
           [Sleep 1]).
  vm_compute. reflexivity.
Defined.

(** X4.  The WhatsApp link of a record never holds a plus sign: it is the
    template followed by the E.164 format with every plus sign removed. *)
Theorem whatsapp_link_has_no_plus (W : World) (s : string) (t t' : trace)
    (info : dict) :
  get_phone_info W s t = (t', Ret (PyDict info)) ->
  exists number,
    Dict.lookup info "WhatsApp Link" = Some (PyStr ("https://wa.me/" +:+ number))
    /\ Str.mem "+" number = false
    /\ Str.mem "+" ("https://wa.me/" +:+ number) = false.
Proof.
  intros H. apply get_phone_info_analysed in H.
  destruct H as [obj e164 ? ? ? ? ? d1 d2 d3 _ _ _ _ _ _ _ _ _ _ _ ->].
  exists (Str.replace "+" EmptyString e164). rewrite lookup_set_eq.
  assert (Str.mem "+" (Str.replace "+" EmptyString e164) = false) as Hno.
  { induction e164 as [|c e IH]; [done|]. cbn [Str.replace].
    destruct (Ascii.eqb_spec c "+") as [->|Hne]; [exact IH|].
    cbn [Str.mem]. rewrite IH, orb_false_r. by apply Ascii.eqb_neq. }
  split; [done|]. split; [done|].
  assert (forall a b, Str.mem "+" (a +:+ b) = Str.mem "+" a || Str.mem "+" b) as Happ.
  { intros a b. induction a as [|c a IH]; [done|].
    change (String c a +:+ b) with (String c (a +:+ b)). cbn [Str.mem].
    by rewrite IH, orb_assoc. }
  by rewrite Happ, Hno.
Qed.

(** The link of the usual record. *)
Lemma whatsapp_link_has_no_plus_witness :
  exists number,
    Dict.lookup Demo.usual_record "WhatsApp Link"
    = Some (PyStr ("https://wa.me/" +:+ number))
    /\ Str.mem "+" number = false
    /\ Str.mem "+" ("https://wa.me/" +:+ number) = false.
Proof.
  apply (whatsapp_link_has_no_plus Demo.usual "+14155552671" [] [Sleep 1]).
  vm_compute. reflexivity.
Defined.

(** ** What the analysis prints, and how it ends *)

Lemma geolocation_enrichment_trace (W : World) location d t d' t' r :
  geolocation_enrichment W location (d, t) = ((d', t'), r) ->
  t' = t \/ t' = t ++ [Sleep 1] \/ t' = t ++ [Sleep 1; geocoding_warning].
Proof.
  rewrite geolocation_enrichment_eq, get_coordinates_eq.
  intros H. repeat (case_match; simplify_eq/=); auto.
Qed.

Lemma analyse_trace (W : World) (s : string) (t t' : trace) r :
  analyse W s t = (t', r) ->
  t' = t \/ t' = t ++ [Sleep 1] \/ t' = t ++ [Sleep 1; geocoding_warning].
Proof.
  unfold analyse, bind, call, with_local. intros H.
  repeat (case_match; simplify_eq/=); auto;
    repeat match goal with
           | p : (dict * trace)%type |- _ => destruct p as [? ?]
           end;
    repeat match goal with
           | H : timezone_enrichment _ _ _ = _ |- _ =>
               apply timezone_enrichment_silent in H; cbn [snd] in H; subst
           | H : country_enrichment _ _ _ = _ |- _ =>
               apply country_enrichment_silent in H; cbn [snd] in H; subst
           | H : geolocation_enrichment _ _ _ = _ |- _ =>
               apply geolocation_enrichment_trace in H
           end;
    unfold ret in *; simplify_eq/=; auto.
Qed.

Lemma dispatch_error_handlers (s : string) (e : exn) (t : trace) :
  dispatch (error_handlers s) e t =
    (t, Ret (PyStr (if is_instance e NumberParseException
                    then parse_failure_message s
                    else unexpected_message e))).
Proof.
  unfold error_handlers, dispatch, caught_by. simpl.
  by destruct (is_instance e NumberParseException).
Qed.

(** X5.  Whatever its answer, the analysis saves no file and enters no
    artifact generator; to the trace it adds nothing, or the one-second
    sleep of the geocoder, or that sleep and the geocoder's warning. *)
Theorem analysis_side_effects (W : World) (s : string) (t : trace) :
  ((get_phone_info W s t).1 = t
   \/ (get_phone_info W s t).1 = t ++ [Sleep 1]
   \/ (get_phone_info W s t).1 = t ++ [Sleep 1; geocoding_warning])
  /\ files_written (get_phone_info W s t).1 = files_written t
  /\ generators_invoked (get_phone_info W s t).1 = generators_invoked t.
Proof.
  assert ((get_phone_info W s t).1 = t
          \/ (get_phone_info W s t).1 = t ++ [Sleep 1]
          \/ (get_phone_info W s t).1 = t ++ [Sleep 1; geocoding_warning]) as H.
  { unfold get_phone_info, try_except.
    destruct (analyse W s t) as [t1 [v|e]] eqn:Ha.
    - exact (analyse_trace W s t t1 _ Ha).
    - rewrite dispatch_error_handlers. exact (analyse_trace W s t t1 _ Ha). }
  split; [exact H|].
  destruct H as [-> | [-> | ->]];
    by rewrite ?files_written_app, ?generators_invoked_app, ?app_nil_r.
Qed.

(** X6.  The analysis never raises: it answers a record or one of three
    error strings.  An exception of the parser gives the parse-failure
    message, which quotes the input, when it is a [NumberParseException] and
    the unexpected-error message otherwise; a number the library finds
    invalid gives the invalid-format message. *)
Theorem analysis_answers (W : World) (s : string) (t : trace) :
  exists t' v,
    get_phone_info W s t = (t', Ret v)
    /\ ((exists info, v = PyDict info)
        \/ v = PyStr invalid_message
        \/ v = PyStr (parse_failure_message s)
        \/ exists e, v = PyStr (unexpected_message e))
    /\ (forall e,
          parse W s = Raise e ->
          t' = t
          /\ v = PyStr (if is_instance e NumberParseException
                        then parse_failure_message s
                        else unexpected_message e))
    /\ (forall obj,
          parse W s = Ret obj ->
          is_valid_number W obj = Ret false ->
          t' = t /\ v = PyStr invalid_message).
Proof.
  unfold get_phone_info, try_except.
  destruct (analyse W s t) as [t1 [v|e]] eqn:Ha.
  - exists t1, v. split; [done|].
    unfold analyse, bind, call, with_local in Ha. split; [|split].
    + repeat (case_match; simplify_eq/=);
        match goal with H : ret _ _ = _ |- _ => injection H as <- <- end; eauto.
    + intros e He. by rewrite He in Ha.
    + intros obj Hobj Hvalid. rewrite Hobj, Hvalid in Ha. by injection Ha as <- <-.
  - rewrite dispatch_error_handlers. eexists _, _. split; [done|]. split; [|split].
    + destruct (is_instance e NumberParseException); eauto.
    + intros e' He'. unfold analyse, bind, call in Ha. rewrite He' in Ha.
      by injection Ha as <- <-.
    + intros obj Hobj Hvalid. unfold analyse, bind, call in Ha.
      rewrite Hobj, Hvalid in Ha. discriminate.
Qed.

(** The answer to an input the parser refuses. *)
Lemma analysis_answers_witness :
  get_phone_info Demo.usual "not-a-number" []
  = ([], Ret (PyStr (parse_failure_message "not-a-number"))).
Proof.
  destruct (analysis_answers Demo.usual "not-a-number" [])
    as (t' & v & Hrun & _ & Hparse & _).
  destruct (Hparse _ eq_refl) as [-> ->]. exact Hrun.
Defined.

(** ** The geocoder in the analysis *)

Lemma geolocation_enrichment_empty (W : World) (state : dict * trace) :
  geolocation_enrichment W EmptyString state = (state, Ret tt).
Proof. by destruct state. Qed.

(** X7.  When the area description is empty the geocoder is not
    consulted: the analysis answers the same with any other geocoder, adds
    nothing to the trace (it does not sleep), and a record it answers has no
    coordinate entry. *)
Theorem empty_description_skips_geocoding (W : World) (s : string) (t : trace)
    (obj : phone W) :
  parse W s = Ret obj ->
  description_for_number W obj "en" = Ret EmptyString ->
  (forall g, get_phone_info (with_geocode W g) s t = get_phone_info W s t)
  /\ (get_phone_info W s t).1 = t
  /\ (forall info,
        (get_phone_info W s t).2 = Ret (PyDict info) ->
        Dict.lookup info "Area Code Location" = Some (PyStr "N/A")
        /\ Forall (fun k => Dict.contains info k = false) geolocation_keys).
Proof.
  intros Hparse Hdesc.
  assert (forall g, analyse (with_geocode W g) s t = analyse W s t) as Hsame.
  { intros g. unfold analyse, bind, call.
    change (parse (with_geocode W g) s) with (parse W s). rewrite Hparse.
    change (is_valid_number (with_geocode W g) obj) with (is_valid_number W obj).
    destruct (is_valid_number W obj) as [[|]|]; try done. cbn [negb].
    change (format_number (with_geocode W g) obj) with (format_number W obj).
    destruct (format_number W obj E164); [|done].
    change (description_for_number (with_geocode W g) obj "en")
      with (description_for_number W obj "en").
    rewrite Hdesc.
    destruct (format_number W obj INTERNATIONAL); [|done].
    destruct (format_number W obj NATIONAL); [|done].
    change (number_type (with_geocode W g) obj) with (number_type W obj).
    destruct (number_type W obj); [|done].
    change (name_for_number (with_geocode W g) obj "en")
      with (name_for_number W obj "en").
    destruct (name_for_number W obj "en"); [|done].
    unfold with_local, bind.
    rewrite timezone_enrichment_with_geocode.
    destruct (timezone_enrichment W obj _) as [s1 [[]|]]; [|done].
    rewrite country_enrichment_with_geocode.
    destruct (country_enrichment W obj s1) as [s2 [[]|]]; [|done].
    by rewrite !geolocation_enrichment_empty. }
  split.
  { intros g. unfold get_phone_info, try_except. by rewrite Hsame. }
  assert ((get_phone_info W s t).1 = t) as Htrace.
  { destruct (get_phone_info W s t) as [t' r] eqn:Hrun.
    destruct (get_phone_info_total W s t) as (t1 & v & Hv & [[info ->]|[m ->]]).
    - rewrite Hv in Hrun. injection Hrun as <- <-.
      apply get_phone_info_analysed in Hv.
      destruct Hv as [o ? ? ? ? loc ? d1 d2 d3 P1 _ _ P4 _ _ _ _ _ _ H3 _].
      assert (o = obj) as -> by congruence.
      assert (loc = EmptyString) as -> by congruence.
      rewrite geolocation_enrichment_empty in H3. by injection H3.
    - rewrite Hv in Hrun. injection Hrun as <- <-.
      unfold get_phone_info, try_except in Hv.
      destruct (analyse W s t) as [t2 [v|e]] eqn:Ha.
      + injection Hv as <- ->.
        unfold analyse, bind, call, with_local in Ha.
        rewrite Hparse in Ha.
        repeat (case_match; simplify_eq/=); unfold ret in *; by simplify_eq/=.
      + rewrite dispatch_error_handlers in Hv. injection Hv as <- _.
        unfold analyse, bind, call, with_local in Ha.
        rewrite Hparse in Ha.
        repeat (case_match; simplify_eq/=);
          repeat match goal with
                 | p : (dict * trace)%type |- _ => destruct p as [? ?]
                 end;
          repeat match goal with
                 | H : timezone_enrichment _ _ _ = _ |- _ =>
                     apply timezone_enrichment_silent in H; cbn [snd] in H; subst
                 | H : country_enrichment _ _ _ = _ |- _ =>
                     apply country_enrichment_silent in H; cbn [snd] in H; subst
                 | H : geolocation_enrichment _ EmptyString _ = _ |- _ =>
                     rewrite geolocation_enrichment_empty in H
                 end;
          unfold ret in *; by simplify_eq/=. }
  split; [exact Htrace|].
  intros info Hinfo.
  destruct (get_phone_info W s t) as [t' r] eqn:Hrun. cbn [snd] in Hinfo. subst r.
  apply get_phone_info_analysed in Hrun.
  split.
  - destruct (analysed_basic_entry W s t t' info "Area Code Location"
                ltac:(literal_key) Hrun)
      as (o & ? & ? & ? & ? & loc & ? & P1 & _ & P3 & _ & _ & _ & _ & Hl).
    assert (o = obj) as -> by congruence.
    assert (loc = EmptyString) as -> by congruence.
    exact Hl.
  - destruct (analysed_geolocation W s t t' info Hrun)
      as (o & loc & c & d2 & link & P1 & P2 & Hnone & Hc & ->).
    assert (o = obj) as -> by congruence.
    assert (loc = EmptyString) as -> by congruence.
    cbn [Str.truthy] in Hc. destruct Hc as [-> _].
    apply Forall_forall. intros k Hk. unfold Dict.contains.
    rewrite lookup_set_ne.
    + cbn [geolocation_update]. by rewrite Hnone.
    + intros <-. revert Hk. literal_key.
Qed.

(** The usual number when the library has no area description for it. *)
Lemma empty_description_skips_geocoding_witness :
  let W := with_description Demo.usual (fun _ _ => Ret EmptyString) in
  (forall g, get_phone_info (with_geocode W g) "+14155552671" []
             = get_phone_info W "+14155552671" [])
  /\ (get_phone_info W "+14155552671" []).1 = []
  /\ (forall info,
        (get_phone_info W "+14155552671" []).2 = Ret (PyDict info) ->
        Dict.lookup info "Area Code Location" = Some (PyStr "N/A")
        /\ Forall (fun k => Dict.contains info k = false) geolocation_keys).
Proof.
  intros W.
  exact (empty_description_skips_geocoding W "+14155552671" [] "14155552671"
           eq_refl eq_refl).
Defined.

(** The run of the analysis in a world and in the same world with another
    geocoder go through the same steps up to the geolocation step. *)
Lemma analysed_with_geocode (W : World) g (s : string) (t t' : trace) (info : dict) :
  analysed (with_geocode W g) s t t' info ->
  exists obj e164 international national category location carrier info1 info2 info3,
    parse W s = Ret obj
    /\ is_valid_number W obj = Ret true
    /\ format_number W obj E164 = Ret e164
    /\ description_for_number W obj "en" = Ret location
    /\ format_number W obj INTERNATIONAL = Ret international
    /\ format_number W obj NATIONAL = Ret national
    /\ number_type W obj = Ret category
    /\ name_for_number W obj "en" = Ret carrier
    /\ timezone_enrichment W obj
         (basic_information e164 international national category location carrier, t)
       = ((info1, t), Ret tt)
    /\ country_enrichment W obj (info1, t) = ((info2, t), Ret tt)
    /\ geolocation_enrichment (with_geocode W g) location (info2, t)
       = ((info3, t'), Ret tt)
    /\ info = Dict.set info3 "WhatsApp Link"
               (PyStr ("https://wa.me/" +:+ Str.replace "+" EmptyString e164)).
Proof.
  intros [obj e164 intl natl cat loc car d1 d2 d3 P1 P2 P3 P4 P5 P6 P7 P8
            H1 H2 H3 ->].
  by exists obj, e164, intl, natl, cat, loc, car, d1, d2, d3.
Qed.

(** X8.  A geocoding service that times out or is unavailable does not
    abort the analysis: the analysis answers a record exactly when it does
    with a geocoder that finds no match, and the same record; only the trace
    differs, by the warning after the one-second sleep. *)
Theorem geocoder_outage_is_contained (W : World) (s : string) (t t' : trace)
    (info : dict) (obj : phone W) (location : string) (e : exn) :
  parse W s = Ret obj ->
  description_for_number W obj "en" = Ret location ->
  Str.truthy location = true ->
  geocode W location "en" = Raise e ->
  caught_by [GeocoderTimedOut; GeocoderUnavailable] e = true ->
  (get_phone_info W s t = (t', Ret (PyDict info)) <->
   t' = t ++ [Sleep 1; geocoding_warning]
   /\ get_phone_info (with_geocode W (fun _ _ => Ret None)) s t
      = (t ++ [Sleep 1], Ret (PyDict info)))
  /\ (get_phone_info W s t = (t', Ret (PyDict info)) ->
      Forall (fun k => Dict.contains info k = false) geolocation_keys).
Proof.
  intros Hparse Hdesc Hloc Hgeo Hcaught.
  set (W0 := with_geocode W (fun _ _ => Ret None)).
  assert (get_phone_info W s t = (t', Ret (PyDict info)) <->
          t' = t ++ [Sleep 1; geocoding_warning]
          /\ get_phone_info W0 s t = (t ++ [Sleep 1], Ret (PyDict info))) as Hiff.
  { split.
    - intros H. apply get_phone_info_analysed in H.
      destruct H as [o e164 intl natl cat loc car d1 d2 d3 P1 P2 P3 P4 P5 P6 P7 P8
                       H1 H2 H3 ->].
      assert (o = obj) as -> by congruence.
      assert (loc = location) as -> by congruence.
      rewrite geolocation_enrichment_eq, Hloc, get_coordinates_eq, Hgeo, Hcaught in H3.
      injection H3 as <- <-. split; [done|].
      apply analysed_get_phone_info.
      eapply (Analysed W0 s t _ _ obj e164 intl natl cat location car d1 d2 d2);
        try done.
      by rewrite geolocation_enrichment_eq, Hloc, get_coordinates_eq.
    - intros [-> H]. apply get_phone_info_analysed in H.
      destruct (analysed_with_geocode W _ s t _ info H)
        as (o & e164 & intl & natl & cat & loc & car & d1 & d2 & d3
            & P1 & P2 & P3 & P4 & P5 & P6 & P7 & P8 & H1 & H2 & H3 & ->).
      assert (o = obj) as -> by congruence.
      assert (loc = location) as -> by congruence.
      rewrite geolocation_enrichment_eq, Hloc, get_coordinates_eq in H3.
      cbn in H3. injection H3 as <-.
      apply analysed_get_phone_info.
      eapply (Analysed W s t _ _ obj e164 intl natl cat location car d1 d2 d2);
        try done.
      by rewrite geolocation_enrichment_eq, Hloc, get_coordinates_eq, Hgeo, Hcaught. }
  split; [exact Hiff|].
  intros H. apply get_phone_info_analysed in H.
  destruct (analysed_geolocation W s t t' info H)
    as (o & loc & c & d2 & link & P1 & P2 & Hnone & Hc & ->).
  assert (o = obj) as -> by congruence.
  assert (loc = location) as -> by congruence.
  rewrite Hloc, get_coordinates_eq, Hgeo, Hcaught in Hc. injection Hc as _ <-.
  apply Forall_forall. intros k Hk. unfold Dict.contains.
  rewrite lookup_set_ne.
  - cbn [geolocation_update]. by rewrite Hnone.
  - intros <-. revert Hk. literal_key.
Qed.

(** The usual number while the geocoding service times out. *)
Lemma geocoder_outage_is_contained_witness :
  let W := Demo.world ["America/Los_Angeles"] (Demo.known_country Demo.united_states)
             Cases.timed_out in
  let info := Dict.without geolocation_keys Demo.usual_record in
  (get_phone_info W "+14155552671" []
   = ([Sleep 1; geocoding_warning], Ret (PyDict info)) <->
   [Sleep 1; geocoding_warning] = [] ++ [Sleep 1; geocoding_warning]
   /\ get_phone_info (with_geocode W (fun _ _ => Ret None)) "+14155552671" []
      = ([] ++ [Sleep 1], Ret (PyDict info)))
  /\ (get_phone_info W "+14155552671" []
      = ([Sleep 1; geocoding_warning], Ret (PyDict info)) ->
      Forall (fun k => Dict.contains info k = false) geolocation_keys).
Proof.
  intros W info.
  exact (geocoder_outage_is_contained W "+14155552671" []
           [Sleep 1; geocoding_warning] info "14155552671" "San Francisco, CA"
           (mk_exn GeocoderTimedOut "Service timed out")
           eq_refl eq_refl eq_refl eq_refl eq_refl).
Defined.

(** X9.  Any other exception of the geocoding service is not contained:
    where the analysis would answer a record with a geocoder that finds no
    match, it answers the unexpected-error string made of the exception's
    text, after the one-second sleep and without the warning. *)
Theorem geocoder_error_aborts_analysis (W : World) (s : string) (t t0 : trace)
    (info0 : dict) (obj : phone W) (location : string) (e : exn) :
  get_phone_info (with_geocode W (fun _ _ => Ret None)) s t
  = (t0, Ret (PyDict info0)) ->
  parse W s = Ret obj ->
  description_for_number W obj "en" = Ret location ->
  Str.truthy location = true ->
  geocode W location "en" = Raise e ->
  caught_by [GeocoderTimedOut; GeocoderUnavailable] e = false ->
  is_instance e NumberParseException = false ->
  get_phone_info W s t = (t ++ [Sleep 1], Ret (PyStr (unexpected_message e))).
Proof.
  intros H0 Hparse Hdesc Hloc Hgeo Hcaught Hnpe.
  apply get_phone_info_analysed in H0.
  destruct (analysed_with_geocode W _ s t _ info0 H0)
    as (o & e164 & intl & natl & cat & loc & car & d1 & d2 & d3
        & P1 & P2 & P3 & P4 & P5 & P6 & P7 & P8 & H1 & H2 & _ & _).
  assert (o = obj) as -> by congruence.
  assert (loc = location) as -> by congruence.
  unfold get_phone_info, try_except, analyse, bind, call, with_local.
  rewrite P1, P2. cbn [negb]. rewrite P3, P4, P5, P6, P7, P8, H1, H2.
  rewrite geolocation_enrichment_eq, Hloc, get_coordinates_eq, Hgeo, Hcaught.
  by rewrite dispatch_error_handlers, Hnpe.
Qed.

(** The usual number while the geocoding service refuses the request. *)
Lemma geocoder_error_aborts_analysis_witness :
  get_phone_info
    (Demo.world ["America/Los_Angeles"] (Demo.known_country Demo.united_states)
       Cases.quota_exceeded)
    "+14155552671" []
  = ([] ++ [Sleep 1],
     Ret (PyStr (unexpected_message
                   (mk_exn OtherException "Non-successful status code 429")))).
Proof.
  apply (geocoder_error_aborts_analysis
           (Demo.world ["America/Los_Angeles"] (Demo.known_country Demo.united_states)
              Cases.quota_exceeded)
           "+14155552671" [] [Sleep 1]
           (Dict.without geolocation_keys Demo.usual_record)
           "14155552671" "San Francisco, CA");
    vm_compute; reflexivity.
Defined.

(** X10.  An exception of pytz other than [UnknownTimeZoneError] is not
    contained by the time-zone step: where the analysis would answer a record
    for a number without time zones, it answers the unexpected-error string
    made of the exception's text, and nothing is geocoded. *)
Theorem timezone_error_aborts_analysis (W : World) (s : string) (t t0 : trace)
    (info0 : dict) (obj : phone W) (first : string) (rest : list string) (e : exn) :
  get_phone_info (with_time_zones W (fun _ => Ret [])) s t
  = (t0, Ret (PyDict info0)) ->
  parse W s = Ret obj ->
  time_zones_for_number W obj = Ret (first :: rest) ->
  pytz_timezone W first = Raise e ->
  is_instance e UnknownTimeZoneError = false ->
  is_instance e NumberParseException = false ->
  get_phone_info W s t = (t, Ret (PyStr (unexpected_message e))).
Proof.
  intros H0 Hparse Hzones Hpytz Hutz Hnpe.
  apply get_phone_info_analysed in H0.
  destruct H0 as [o e164 intl natl cat loc car d1 d2 d3 P1 P2 P3 P4 P5 P6 P7 P8
                    _ _ _ _].
  change (parse W s = Ret o) in P1.
  assert (o = obj) as -> by congruence.
  change (is_valid_number W obj = Ret true) in P2.
  change (format_number W obj E164 = Ret e164) in P3.
  change (description_for_number W obj "en" = Ret loc) in P4.
  change (format_number W obj INTERNATIONAL = Ret intl) in P5.
  change (format_number W obj NATIONAL = Ret natl) in P6.
  change (number_type W obj = Ret cat) in P7.
  change (name_for_number W obj "en" = Ret car) in P8.
  unfold get_phone_info, try_except, analyse, bind, call, with_local.
  rewrite P1, P2. cbn [negb]. rewrite P3, P4, P5, P6, P7, P8.
  rewrite timezone_enrichment_eq, Hzones, Hpytz. cbv zeta.
  unfold caught_by. cbn [existsb]. rewrite Hutz. cbn [orb].
  by rewrite dispatch_error_handlers, Hnpe.
Qed.

(** The usual number while pytz cannot read its zone files. *)
Lemma timezone_error_aborts_analysis_witness :
  get_phone_info (with_pytz_timezone Demo.usual Cases.unreadable_zone)
    "+14155552671" []
  = ([], Ret (PyStr (unexpected_message
                       (mk_exn OtherException "[Errno 13] Permission denied")))).
Proof.
  apply (timezone_error_aborts_analysis
           (with_pytz_timezone Demo.usual Cases.unreadable_zone)
           "+14155552671" [] [Sleep 1]
           (Dict.without timezone_keys Demo.usual_record)
           "14155552671" "America/Los_Angeles" []);
    vm_compute; reflexivity.
Defined.

(** ** The country entries *)

(** What the country step contributed to a record. *)
Lemma analysed_country (W : World) (s : string) (t t' : trace) (info : dict) :
  analysed W s t t' info ->
  exists obj info1 info2,
    parse W s = Ret obj
    /\ country_enrichment W obj (info1, t) = ((info2, t), Ret tt)
    /\ (forall k, k ∈ country_keys -> Dict.lookup info1 k = None)
    /\ (forall k, k ∈ country_keys -> Dict.lookup info k = Dict.lookup info2 k).
Proof.
  intros [obj e164 intl natl cat loc car d1 d2 d3 P1 _ _ _ _ _ _ _ H1 H2 H3 ->].
  exists obj, d1, d2. split; [done|]. split; [done|].
  pose proof (timezone_enrichment_writes W _ _ _ _ H1) as U1.
  pose proof (geolocation_enrichment_writes W _ _ _ _ H3) as U3.
  cbn [fst] in U1, U3.
  assert (forall k, k ∈ country_keys ->
                    (k ∉ timezone_keys) /\ (k ∉ geolocation_keys)
                    /\ (k ∉ basic_keys) /\ "WhatsApp Link" <> k) as Hk.
  { intros k. unfold country_keys. rewrite !elem_of_cons, elem_of_nil.
    intros [->|[->|[->|[->|[->|[->|[]]]]]]]; repeat split; literal_key. }
  split.
  - intros k Hin. destruct (Hk k Hin) as (K1 & _ & K3 & _).
    rewrite (updated_lookup _ _ _ _ U1) by done.
    by apply basic_information_lookup.
  - intros k Hin. destruct (Hk k Hin) as (_ & K2 & _ & K4).
    rewrite lookup_set_ne by done. by apply (updated_lookup _ _ _ _ U3).
Qed.

Lemma join_strings (sep : string) (names : list string) :
  Value.join sep (PyList (map PyStr names)) = Ret (Str.join sep names).
Proof.
  unfold Value.join.
  assert (forall i, Value.join_items i (map PyStr names) = Ret names) as ->; [|done].
  induction names as [|n names IH]; intros i; [done|].
  cbn [map Value.join_items]. by rewrite IH.
Qed.

Lemma join_raises_TypeError (sep : string) (v : pyval) (e : exn) :
  Value.join sep v = Raise e -> exn_cls e = TypeError.
Proof.
  assert (forall items i l, Value.join_items i items = Raise l ->
                            exn_cls l = TypeError) as Hitems.
  { induction items as [|x items IH]; intros i l; [done|].
    cbn [Value.join_items].
    destruct x; try (by intros [= <-]).
    destruct (Value.join_items (S i) items) eqn:E; [done|].
    intros [= <-]. by eapply IH. }
  destruct v; cbn [Value.join]; try (by intros [= <-]); try done.
  destruct (Value.join_items 0 items) eqn:E; [done|].
  intros [= <-]. by eapply Hitems.
Qed.

(** X11.  When the country facts of the region are found and hold at least
    one currency, a record has the five country entries and no fallback
    entry: the name with the region code in brackets, the capital and the
    region as the facts hold them ([None] for a missing key), the first
    currency, and the borders joined by a comma and a space -- or "None" when
    the facts have no borders. *)
Theorem country_entries (W : World) (s : string) (t t' : trace) (info : dict)
    (obj : phone W) (code : string) (entries : dict) (currency : pyval) :
  get_phone_info W s t = (t', Ret (PyDict info)) ->
  parse W s = Ret obj ->
  region_code_for_number W obj = Ret (Some code) ->
  Str.truthy code = true ->
  country_info W code = Ret (PyDict entries) ->
  Value.getitem0 (Dict.get entries "currencies") = Ret currency ->
  Dict.lookup info "Country"
  = Some (PyStr (py_str W (Dict.get entries "name") +:+ " (" +:+ code +:+ ")"))
  /\ Dict.lookup info "Capital City" = Some (Dict.get entries "capital")
  /\ Dict.lookup info "Currency" = Some (PyStr (py_str W currency))
  /\ Dict.lookup info "Continent / Region" = Some (Dict.get entries "region")
  /\ (Value.truthy (Dict.get entries "borders") = false ->
      Dict.lookup info "Bordering Countries" = Some (PyStr "None"))
  /\ (forall names,
        Dict.get entries "borders" = PyList (map PyStr names) ->
        names <> [] ->
        Dict.lookup info "Bordering Countries" = Some (PyStr (Str.join ", " names)))
  /\ Dict.lookup info "Country Info" = None.
Proof.
  intros H Hparse Hcode Htruthy Hfacts Hcurrency.
  apply get_phone_info_analysed in H.
  destruct (analysed_country W s t t' info H)
    as (o & d1 & d2 & P1 & Hstep & Hnone & Hsame).
  assert (o = obj) as -> by congruence.
  rewrite !Hsame by literal_key.
  unfold country_enrichment, try_except, country_lookup, bind, call, setitem,
    update_local in Hstep.
  rewrite Hcode, Htruthy, Hfacts in Hstep. cbn [Value.get fst snd] in Hstep.
  rewrite Hcurrency in Hstep.
  destruct (Value.truthy (Dict.get entries "borders")) eqn:Hb.
  - destruct (Value.join ", " (Dict.get entries "borders")) as [joined|e] eqn:Hj.
    + injection Hstep as <-. rewrite !lookup_set. cbn [String.eqb Ascii.eqb Bool.eqb].
      rewrite (Hnone "Country Info") by literal_key.
      repeat (split; [done|]). split; [|done].
      intros names Hnames _. rewrite Hnames, join_strings in Hj. by injection Hj as <-.
    + apply join_raises_TypeError in Hj. cbn in Hstep.
      unfold is_instance in Hstep. rewrite Hj in Hstep. discriminate.
  - injection Hstep as <-. rewrite !lookup_set. cbn [String.eqb Ascii.eqb Bool.eqb].
    rewrite (Hnone "Country Info") by literal_key.
    repeat (split; [done|]). split; [|done].
    intros [|n names] Hnames Hne; [done|]. by rewrite Hnames in Hb.
Qed.

(** The country entries of the usual record. *)
Lemma country_entries_witness :
  Dict.lookup Demo.usual_record "Country" = Some (PyStr "United States (US)")
  /\ Dict.lookup Demo.usual_record "Capital City" = Some (PyStr "Washington D.C.")
  /\ Dict.lookup Demo.usual_record "Currency" = Some (PyStr "USD")
  /\ Dict.lookup Demo.usual_record "Continent / Region" = Some (PyStr "Americas")
  /\ Dict.lookup Demo.usual_record "Bordering Countries" = Some (PyStr "CAN, MEX")
  /\ Dict.lookup Demo.usual_record "Country Info" = None.
Proof.
  destruct (country_entries Demo.usual "+14155552671" [] [Sleep 1] Demo.usual_record
              "14155552671" "US"
              [("name", PyStr "United States");
               ("capital", PyStr "Washington D.C.");
               ("currencies", PyList [PyStr "USD"; PyStr "USN"; PyStr "USS"]);
               ("region", PyStr "Americas");
               ("borders", PyList [PyStr "CAN"; PyStr "MEX"])]
              (PyStr "USD")
              ltac:(vm_compute; reflexivity) eq_refl eq_refl eq_refl eq_refl eq_refl)
    as (H1 & H2 & H3 & H4 & _ & H6 & H7).
  repeat (split; [assumption|]). split; [|assumption].
  exact (H6 ["CAN"; "MEX"] eq_refl ltac:(discriminate)).
Defined.

(** X12.  When the library knows no region for the number, or answers the
    empty string, a record has no country entry at all, not even the
    fallback. *)
Theorem no_region_no_country_entries (W : World) (s : string) (t t' : trace)
    (info : dict) (obj : phone W) (region : option string) :
  get_phone_info W s t = (t', Ret (PyDict info)) ->
  parse W s = Ret obj ->
  region_code_for_number W obj = Ret region ->
  (region = None \/ region = Some EmptyString) ->
  Forall (fun k => Dict.contains info k = false) country_keys.
Proof.
  intros H Hparse Hregion Hnone.
  apply get_phone_info_analysed in H.
  destruct (analysed_country W s t t' info H)
    as (o & d1 & d2 & P1 & Hstep & Hfresh & Hsame).
  assert (o = obj) as -> by congruence.
  assert (d2 = d1) as ->.
  { unfold country_enrichment, bind, call in Hstep. rewrite Hregion in Hstep.
    destruct Hnone as [-> | ->]; by injection Hstep. }
  apply Forall_forall. intros k Hk. unfold Dict.contains.
  by rewrite Hsame, Hfresh.
Qed.

(** The usual number when the library knows no region for it. *)
Lemma no_region_no_country_entries_witness :
  Forall (fun k => Dict.contains (Dict.without country_keys Demo.usual_record) k = false)
    country_keys.
Proof.
  apply (no_region_no_country_entries
           (with_region_code Demo.usual (fun _ => Ret None))
           "+14155552671" [] [Sleep 1]
           (Dict.without country_keys Demo.usual_record) "14155552671" None);
    [vm_compute; reflexivity | reflexivity | reflexivity | by left].
Defined.

(** X13.  When the country facts of the region cannot be found -- the
    lookup raises a [KeyError] -- the analysis goes on: where it answers a
    record with other country facts, it answers a record here too, whose only
    country entry is the fallback "Country Info" and whose other entries are
    the same. *)
Theorem unknown_country_leaves_fallback_only (W : World) facts (s : string)
    (t t' : trace) (info' : dict) (obj : phone W) (code : string) (e : exn) :
  get_phone_info (with_country_info W facts) s t = (t', Ret (PyDict info')) ->
  parse W s = Ret obj ->
  region_code_for_number W obj = Ret (Some code) ->
  Str.truthy code = true ->
  country_info W code = Raise e ->
  caught_by [KeyError; IndexError] e = true ->
  exists info,
    get_phone_info W s t = (t', Ret (PyDict info))
    /\ Dict.lookup info "Country Info" = Some (PyStr "Could not retrieve.")
    /\ Forall (fun k => Dict.contains info k = false)
         ["Country"; "Capital City"; "Currency"; "Continent / Region";
          "Bordering Countries"]
    /\ Dict.without country_keys info = Dict.without country_keys info'.
Proof.
  intros H' Hparse Hcode Htruthy Hfacts Hcaught.
  assert (forall d, country_lookup W code (d, t) = ((d, t), Raise e)) as Hlookup.
  { intros d. unfold country_lookup, bind, call. by rewrite Hfacts. }
  destruct (contained_country_failure W facts s t t' info' obj code H' Hparse Hcode
              Htruthy) as (info & Hrun & Hfallback & Hsame).
  { intros d. exists d, e. by rewrite Hlookup. }
  exists info. split; [done|]. split; [done|]. split; [|done].
  pose proof Hrun as A. apply get_phone_info_analysed in A.
  destruct (analysed_country W s t t' info A)
    as (o & d1 & d2 & P1 & Hstep & Hfresh & Hlook).
  assert (o = obj) as -> by congruence.
  rewrite (country_failure_fallback W obj code d1 d1 t t e Hcode Htruthy
             (Hlookup d1) Hcaught) in Hstep.
  injection Hstep as <-.
  apply Forall_forall. intros k Hk. unfold Dict.contains.
  assert (k ∈ country_keys /\ "Country Info" <> k) as [Hin Hne].
  { revert Hk. rewrite !elem_of_cons, elem_of_nil.
    intros [->|[->|[->|[->|[->|[]]]]]]; split; literal_key. }
  by rewrite Hlook, lookup_set_ne, Hfresh.
Qed.

(** The usual number when the country service does not know "US". *)
Lemma unknown_country_leaves_fallback_only_witness :
  exists info,
    get_phone_info
      (Demo.world ["America/Los_Angeles"] Demo.unknown_country Demo.found)
      "+14155552671" [] = ([Sleep 1], Ret (PyDict info))
    /\ Dict.lookup info "Country Info" = Some (PyStr "Could not retrieve.")
    /\ Forall (fun k => Dict.contains info k = false)
         ["Country"; "Capital City"; "Currency"; "Continent / Region";
          "Bordering Countries"]
    /\ Dict.without country_keys info = Dict.without country_keys Demo.usual_record.
Proof.
  apply (unknown_country_leaves_fallback_only
           (Demo.world ["America/Los_Angeles"] Demo.unknown_country Demo.found)
           (Demo.known_country Demo.united_states)
           "+14155552671" [] [Sleep 1] Demo.usual_record "14155552671" "US"
           (mk_exn KeyError "'US'"));
    vm_compute; reflexivity.
Defined.

(** X14.  When the country facts hold an empty list of currencies, the
    failure is contained but the country entries are not written as one
    unit: the record keeps "Country" and "Capital City", written before the
    failure, beside the fallback "Country Info", and lacks "Currency",
    "Continent / Region" and "Bordering Countries". *)
Theorem empty_currency_list_leaves_partial_entries (W : World) facts (s : string)
    (t t' : trace) (info' : dict) (obj : phone W) (code : string) (entries : dict) :
  get_phone_info (with_country_info W facts) s t = (t', Ret (PyDict info')) ->
  parse W s = Ret obj ->
  region_code_for_number W obj = Ret (Some code) ->
  Str.truthy code = true ->
  country_info W code = Ret (PyDict entries) ->
  Dict.get entries "currencies" = PyList [] ->
  exists info,
    get_phone_info W s t = (t', Ret (PyDict info))
    /\ Dict.lookup info "Country"
       = Some (PyStr (py_str W (Dict.get entries "name") +:+ " (" +:+ code +:+ ")"))
    /\ Dict.lookup info "Capital City" = Some (Dict.get entries "capital")
    /\ Dict.lookup info "Country Info" = Some (PyStr "Could not retrieve.")
    /\ Forall (fun k => Dict.contains info k = false)
         ["Currency"; "Continent / Region"; "Bordering Countries"]
    /\ Dict.without country_keys info = Dict.without country_keys info'.
Proof.
  intros H' Hparse Hcode Htruthy Hfacts Hempty.
  assert (forall d,
            country_lookup W code (d, t)
            = ((Dict.set
                  (Dict.set d "Country"
                     (PyStr (py_str W (Dict.get entries "name")
                             +:+ " (" +:+ code +:+ ")")))
                  "Capital City" (Dict.get entries "capital"), t),
               Raise (mk_exn IndexError "list index out of range"))) as Hlookup.
  { intros d. unfold country_lookup, bind, call, setitem, update_local.
    rewrite Hfacts. cbn [Value.get fst snd]. by rewrite Hempty. }
  destruct (contained_country_failure W facts s t t' info' obj code H' Hparse Hcode
              Htruthy) as (info & Hrun & Hfallback & Hsame).
  { intros d. eexists _, _. by rewrite Hlookup. }
  exists info. split; [done|].
  pose proof Hrun as A. apply get_phone_info_analysed in A.
  destruct (analysed_country W s t t' info A)
    as (o & d1 & d2 & P1 & Hstep & Hfresh & Hlook).
  assert (o = obj) as -> by congruence.
  rewrite (country_failure_fallback W obj code d1 _ t t _ Hcode Htruthy
             (Hlookup d1) eq_refl) in Hstep.
  injection Hstep as <-.
  rewrite !Hlook by literal_key. rewrite !lookup_set.
  cbn [String.eqb Ascii.eqb Bool.eqb].
  repeat (split; [done|]). split; [|done].
  apply Forall_forall. intros k Hk. unfold Dict.contains.
  assert (k ∈ country_keys /\ "Country Info" <> k /\ "Capital City" <> k
          /\ "Country" <> k) as (Hin & N1 & N2 & N3).
  { revert Hk. rewrite !elem_of_cons, elem_of_nil.
    intros [->|[->|[->|[]]]]; repeat split; literal_key. }
  by rewrite Hlook, !lookup_set_ne, Hfresh.
Qed.

(** The usual number when the facts for "US" hold no currency. *)
Lemma empty_currency_list_leaves_partial_entries_witness :
  exists info,
    get_phone_info
      (Demo.world ["America/Los_Angeles"]
         (Demo.known_country Demo.united_states_empty_currencies) Demo.found)
      "+14155552671" [] = ([Sleep 1], Ret (PyDict info))
    /\ Dict.lookup info "Country" = Some (PyStr "United States (US)")
    /\ Dict.lookup info "Capital City" = Some (PyStr "Washington D.C.")
    /\ Dict.lookup info "Country Info" = Some (PyStr "Could not retrieve.")
    /\ Forall (fun k => Dict.contains info k = false)
         ["Currency"; "Continent / Region"; "Bordering Countries"]
    /\ Dict.without country_keys info = Dict.without country_keys Demo.usual_record.
Proof.
  apply (empty_currency_list_leaves_partial_entries
           (Demo.world ["America/Los_Angeles"]
              (Demo.known_country Demo.united_states_empty_currencies) Demo.found)
           (Demo.known_country Demo.united_states)
           "+14155552671" [] [Sleep 1] Demo.usual_record "14155552671" "US"
           [("name", PyStr "United States");
            ("capital", PyStr "Washington D.C.");
            ("currencies", PyList []);
            ("region", PyStr "Americas");
            ("borders", PyList [PyStr "CAN"; PyStr "MEX"])]);
    vm_compute; reflexivity.
Defined.

(** ** The presentation and the script *)

Section Presentation.

Context (W : World).

Lemma prompts_app t1 t2 : prompts (t1 ++ t2) = prompts t1 ++ prompts t2.
Proof. unfold prompts. by rewrite omap_app. Qed.

(** Rendering prints nothing; it raises the exception of the first text
    rich cannot read. *)
Lemma render_all_outcome texts t :
  (renders W texts = true /\ render_all W texts t = (t, Ret tt))
  \/ (renders W texts = false
      /\ exists text e,
           text ∈ texts /\ render_markup W text = Raise e
           /\ render_all W texts t = (t, Raise e)).
Proof.
  unfold renders. induction texts as [|text texts IH]; [by left|].
  cbn [render_all forallb]. unfold bind, call.
  destruct (render_markup W text) as [[]|e] eqn:Htext; cbn [answers andb].
  - destruct IH as [[Hall ->] | (Hall & text' & e & Hin & Hraise & ->)];
      rewrite Hall; [by left|].
    right. split; [done|]. exists text', e.
    split; [by right|done].
  - right. split; [done|]. exists text, e.
    split; [by left|done].
Qed.

Lemma table_texts_rows info :
  map fst (map (fun kv : string * pyval => (kv.1, py_str W kv.2)) info)
    ++ map snd (map (fun kv : string * pyval => (kv.1, py_str W kv.2)) info)
  = table_texts W info.
Proof. unfold table_texts. by rewrite !map_map. Qed.

(** The table is printed when rich reads its cells; the artifacts follow. *)
Lemma display_results_record info t :
  renders W (table_texts W info) = true ->
  display_results W (PyDict info) t
  = (create_location_map W info ;; create_qr_code W info ;; emit disclaimer)
      (t ++ [results_table W info; outputs_rule]).
Proof.
  intros Hrender.
  destruct (render_all_outcome (table_texts W info) t)
    as [[_ Hrun] | [Hno _]]; [|congruence].
  unfold display_results. cbv zeta. rewrite table_texts_rows.
  unfold bind at 1. rewrite Hrun.
  unfold bind, emit, modify, results_table, outputs_rule.
  cbn [fst snd]. by rewrite <- app_assoc.
Qed.

(** Otherwise nothing is printed and nothing is generated. *)
Lemma display_results_unrendered info t :
  renders W (table_texts W info) = false ->
  exists text e,
    text ∈ table_texts W info /\ render_markup W text = Raise e
    /\ display_results W (PyDict info) t = (t, Raise e).
Proof.
  intros Hrender.
  destruct (render_all_outcome (table_texts W info) t)
    as [[Hyes _] | (_ & text & e & Hin & Hraise & Hrun)]; [congruence|].
  exists text, e. split; [done|]. split; [done|].
  unfold display_results. cbv zeta. rewrite table_texts_rows.
  unfold bind at 1. by rewrite Hrun.
Qed.

(** Every way the QR generator can end: it returns early on a value that
    is not truthy, saves the contact file, or raises what saving raised. *)
Lemma create_qr_code_outcome info t :
  exists out r,
    create_qr_code W info t = (t ++ Enter create_qr_code_fn :: out, r)
    /\ generators_invoked out = []
    /\ prompts out = []
    /\ sublist (files_written out) [contact_filename W info]
    /\ (Value.truthy (Dict.get info "E.164 Format") = true ->
        save_image W (contact_filename W info) = Ret tt ->
        r = Ret tt /\ files_written out = [contact_filename W info])
    /\ (Value.truthy (Dict.get info "E.164 Format") = false ->
        r = Ret tt /\ out = []).
Proof.
  destruct (Value.truthy (Dict.get info "E.164 Format")) eqn:He.
  - destruct (save_image W (contact_filename W info)) as [[]|e] eqn:Hsave.
    + destruct (create_qr_code_saves W info t He Hsave) as (img & ->).
      eexists _, _. split; [done|]. repeat (split; [done|]). done.
    + rewrite (create_qr_code_fails W info t e He Hsave).
      exists [], (Raise e). split; [done|]. repeat (split; [done|]).
      split; [apply sublist_nil_l|]. split; [|done]. by intros _ [=].
  - rewrite (create_qr_code_skips W info t He).
    exists [], (Ret tt). split; [done|]. repeat (split; [done|]).
    split; [apply sublist_nil_l|]. split; [done|]. by intros _.
Qed.

(** The map generator with readable coordinates. *)
Lemma create_location_map_outcome info t :
  coordinates_readable W info = true ->
  exists out,
    create_location_map W info t
    = (t ++ Enter create_location_map_fn :: out, Ret tt)
    /\ generators_invoked out = []
    /\ prompts out = []
    /\ files_written out
       = if Dict.contains info "Latitude" && Dict.contains info "Longitude"
         then [map_filename W info] else [].
Proof.
  unfold coordinates_readable, Dict.contains. intros Hread.
  destruct (Dict.lookup info "Latitude") as [latitude|] eqn:Hlat;
    [destruct (Dict.lookup info "Longitude") as [longitude|] eqn:Hlon|].
  - destruct (float_of W latitude) as [lat|] eqn:Hflat; [|done].
    destruct (float_of W longitude) as [lon|] eqn:Hflon; [|done].
    destruct (create_location_map_saves W info t latitude longitude lat lon
                Hlat Hlon Hflat Hflon) as (m & -> & _).
    by eexists.
  - rewrite create_location_map_skips
      by (right; unfold Dict.contains; by rewrite Hlon).
    by exists [].
  - rewrite create_location_map_skips
      by (left; unfold Dict.contains; by rewrite Hlat).
    by exists [].
Qed.

(** The map generator with a coordinate [float] cannot read. *)
Lemma create_location_map_unreadable info t :
  coordinates_readable W info = false ->
  exists latitude longitude e,
    Dict.lookup info "Latitude" = Some latitude
    /\ Dict.lookup info "Longitude" = Some longitude
    /\ (float_of W latitude = Raise e
        \/ (answers (float_of W latitude) = true
            /\ float_of W longitude = Raise e))
    /\ create_location_map W info t
       = (t ++ [Enter create_location_map_fn], Raise e).
Proof.
  unfold coordinates_readable. intros Hread.
  destruct (Dict.lookup info "Latitude") as [latitude|] eqn:Hlat; [|done].
  destruct (Dict.lookup info "Longitude") as [longitude|] eqn:Hlon; [|done].
  exists latitude, longitude.
  unfold create_location_map, bind, emit, modify, call, Dict.contains,
    Dict.getitem.
  cbn [fst snd]. rewrite Hlat, Hlon. cbn [negb orb].
  destruct (float_of W latitude) as [lat|e] eqn:Hflat.
  - destruct (float_of W longitude) as [lon|e] eqn:Hflon; [done|].
    exists e. repeat split; auto.
  - exists e. repeat split; auto.
Qed.

(** Every way [display_results] can end. *)
Lemma display_results_outcome v t :
  exists out r,
    display_results W v t = (t ++ out, r)
    /\ prompts out = []
    /\ match v with
       | PyDict info =>
           sublist (files_written out) [map_filename W info; contact_filename W info]
       | _ => files_written out = []
       end.
Proof.
  destruct v as [| | | |message|items|info];
    try (exists [], (Ret tt); by rewrite app_nil_r).
  - rewrite display_results_message.
    destruct (render_markup W message); [eexists [_], _; by split|].
    eexists [], _. by rewrite app_nil_r.
  - destruct (renders W (table_texts W info)) eqn:Hrender; cycle 1.
    { destruct (display_results_unrendered info t Hrender)
        as (text & e & _ & _ & ->).
      exists [], (Raise e). rewrite app_nil_r. split; [done|]. split; [done|].
      apply sublist_nil_l. }
    rewrite (display_results_record info t Hrender).
    destruct (coordinates_readable W info) eqn:Hread.
    + destruct (create_location_map_outcome info
                  (t ++ [results_table W info; outputs_rule]) Hread)
        as (o1 & H1 & _ & P1 & F1).
      destruct (create_qr_code_outcome info
                  ((t ++ [results_table W info; outputs_rule])
                     ++ Enter create_location_map_fn :: o1))
        as (o2 & r2 & H2 & _ & P2 & F2 & _).
      exists ([results_table W info; outputs_rule]
                ++ (Enter create_location_map_fn :: o1)
                ++ (Enter create_qr_code_fn :: o2)
                ++ (match r2 with Ret _ => [disclaimer] | Raise _ => [] end)),
        (match r2 with Ret _ => Ret tt | Raise e => Raise e end).
      split; [|split].
      * unfold bind at 1. rewrite H1. unfold bind. rewrite H2.
        unfold emit, modify. destruct r2; by rewrite <- ?app_assoc, ?app_nil_r.
      * rewrite !prompts_app.
        change (prompts (Enter create_location_map_fn :: o1)) with (prompts o1).
        change (prompts (Enter create_qr_code_fn :: o2)) with (prompts o2).
        rewrite P1, P2. by destruct r2.
      * assert (files_written
                  ([results_table W info; outputs_rule]
                     ++ (Enter create_location_map_fn :: o1)
                     ++ (Enter create_qr_code_fn :: o2)
                     ++ match r2 with Ret _ => [disclaimer] | Raise _ => [] end)
                = files_written o1 ++ files_written o2) as ->.
        { rewrite !files_written_app. destruct r2; cbn; by rewrite app_nil_r. }
        rewrite F1.
        destruct (_ && _); cbn [app]; [by apply sublist_skip|by apply sublist_cons].
    + destruct (create_location_map_unreadable info
                  (t ++ [results_table W info; outputs_rule]) Hread)
        as (la & lo & e & _ & _ & _ & H1).
      exists [results_table W info; outputs_rule; Enter create_location_map_fn],
        (Raise e).
      split; [|split; [done|cbn; literal_sublist]].
      unfold bind at 1. rewrite H1. by rewrite <- app_assoc.
Qed.

(** The analysis prints at most the geocoding warning. *)
Lemma get_phone_info_outcome s t :
  exists out v,
    get_phone_info W s t = (t ++ out, Ret v)
    /\ prompts out = [] /\ files_written out = []
    /\ generators_invoked out = [].
Proof.
  unfold get_phone_info, try_except.
  destruct (analyse W s t) as [t' [v|e]] eqn:Ha.
  - apply analyse_trace in Ha.
    destruct Ha as [-> | [-> | ->]];
      [exists [], v; by rewrite app_nil_r
      |exists [Sleep 1], v; by split
      |exists [Sleep 1; geocoding_warning], v; by split].
  - apply analyse_trace in Ha. rewrite dispatch_error_handlers.
    destruct Ha as [-> | [-> | ->]];
      [exists []; eexists; by rewrite app_nil_r
      |exists [Sleep 1]; eexists; by split
      |exists [Sleep 1; geocoding_warning]; eexists; by split].
Qed.

(** The number the script analyses. *)
Lemma main_eq argv typed t :
  main W argv typed t
  = let given := default EmptyString argv in
    let t1 := t ++ script_header W
                ++ (if Str.truthy given then [] else [number_prompt]) in
    let number := if Str.truthy given then given else typed in
    if Str.truthy number
    then (result <- get_phone_info W number ;; display_results W result) t1
    else (t1 ++ [no_number_notice], Ret tt).
Proof.
  unfold main, bind, emit, modify, ret, script_header. cbn [fst snd].
  destruct (Str.truthy (default EmptyString argv)) eqn:Hg; cbv zeta.
  - rewrite Hg. cbn [negb]. by rewrite <- !app_assoc, app_nil_r.
  - destruct (Str.truthy typed) eqn:Ht; cbn [negb]; by rewrite <- !app_assoc.
Qed.

End Presentation.



(** X16.  When rich can read the cells of a record that has both
    coordinates and [float] cannot read one of them, the presentation raises
    that exception from the map generator: after the table and the rule
    nothing is printed, no file is written, the QR generator is not entered
    and the disclaimer is not shown. *)
Theorem unreadable_coordinate_aborts_display (W : World) (info : dict) (t : trace) :
  renders W (table_texts W info) = true ->
  coordinates_readable W info = false ->
  exists latitude longitude e,
    Dict.lookup info "Latitude" = Some latitude
    /\ Dict.lookup info "Longitude" = Some longitude
    /\ (float_of W latitude = Raise e
        \/ (answers (float_of W latitude) = true
            /\ float_of W longitude = Raise e))
    /\ display_results W (PyDict info) t
       = (t ++ [results_table W info; outputs_rule; Enter create_location_map_fn],
          Raise e)
    /\ files_written (display_results W (PyDict info) t).1 = files_written t
    /\ generators_invoked (display_results W (PyDict info) t).1
       = generators_invoked t ++ [create_location_map_fn].
Proof.
  intros Hrender Hread.
  destruct (create_location_map_unreadable W info
              (t ++ [results_table W info; outputs_rule]) Hread)
    as (latitude & longitude & e & Hlat & Hlon & He & H1).
  exists latitude, longitude, e.
  assert (display_results W (PyDict info) t
          = (t ++ [results_table W info; outputs_rule;
                   Enter create_location_map_fn], Raise e)) as Hrun.
  { rewrite (display_results_record W info t Hrender). unfold bind at 1.
    rewrite H1. by rewrite <- app_assoc. }
  repeat (split; [done|]). rewrite Hrun. cbn [fst]. split.
  - rewrite files_written_app. cbn. by rewrite app_nil_r.
  - by rewrite generators_invoked_app.
Qed.

(** A record whose latitude is the word "north". *)
Lemma unreadable_coordinate_aborts_display_witness :
  exists latitude longitude e,
    Dict.lookup Cases.bad_latitude "Latitude" = Some latitude
    /\ Dict.lookup Cases.bad_latitude "Longitude" = Some longitude
    /\ (float_of Demo.usual latitude = Raise e
        \/ (answers (float_of Demo.usual latitude) = true
            /\ float_of Demo.usual longitude = Raise e))
    /\ display_results Demo.usual (PyDict Cases.bad_latitude) []
       = ([] ++ [results_table Demo.usual Cases.bad_latitude; outputs_rule;
                 Enter create_location_map_fn],
          Raise e)
    /\ files_written (display_results Demo.usual (PyDict Cases.bad_latitude) []).1
       = files_written []
    /\ generators_invoked (display_results Demo.usual (PyDict Cases.bad_latitude) []).1
       = generators_invoked [] ++ [create_location_map_fn].
Proof.
  apply (unreadable_coordinate_aborts_display Demo.usual Cases.bad_latitude []);
    vm_compute; reflexivity.
Defined.



(** X18.  The artifact generators read five entries of the record and
    nothing else: two records that agree on "Latitude", "Longitude",
    "Area Code Location", "International Format" and "E.164 Format" give the
    same files with the same content and the same messages. *)
Theorem artifacts_depend_on_five_entries (W : World) (info info' : dict)
    (t : trace) :
  Forall (fun k => Dict.lookup info k = Dict.lookup info' k) artifact_keys ->
  create_location_map W info t = create_location_map W info' t
  /\ create_qr_code W info t = create_qr_code W info' t.
Proof.
  unfold artifact_keys. rewrite !Forall_cons.
  intros (Hlat & Hlon & Harea & Hint & He & _).
  unfold create_location_map, create_qr_code, Dict.contains, Dict.getitem,
    Dict.get.
  by rewrite Hlat, Hlon, Harea, Hint, He.
Qed.

(** The usual record and the same record without its country entries. *)
Lemma artifacts_depend_on_five_entries_witness :
  create_location_map Demo.usual Demo.usual_record []
  = create_location_map Demo.usual (Dict.without country_keys Demo.usual_record) []
  /\ create_qr_code Demo.usual Demo.usual_record []
     = create_qr_code Demo.usual (Dict.without country_keys Demo.usual_record) [].
Proof.
  apply (artifacts_depend_on_five_entries Demo.usual Demo.usual_record
           (Dict.without country_keys Demo.usual_record) []).
  repeat constructor.
Defined.

(** X19.  Started without a number -- no argument or an empty one, and
    nothing typed at the prompt -- the script clears the screen, shows its
    title, asks once, prints that no number was provided and stops: no
    analysis, no waiting, no artifact, no file. *)
Theorem no_number_no_analysis (W : World) (argv : option string) (t : trace) :
  Str.truthy (default EmptyString argv) = false ->
  main W argv EmptyString t
  = (t ++ script_header W ++ [number_prompt; no_number_notice], Ret tt)
  /\ files_written (main W argv EmptyString t).1 = files_written t
  /\ generators_invoked (main W argv EmptyString t).1 = generators_invoked t.
Proof.
  intros Hg.
  assert (main W argv EmptyString t
          = (t ++ script_header W ++ [number_prompt; no_number_notice], Ret tt))
    as Hrun.
  { rewrite main_eq. cbv zeta. rewrite Hg. cbn [Str.truthy].
    by rewrite <- !app_assoc. }
  split; [done|]. rewrite Hrun. cbn [fst].
  rewrite files_written_app, generators_invoked_app. cbn.
  by rewrite !app_nil_r.
Qed.

(** An empty argument. *)
Lemma no_number_no_analysis_witness :
  main Demo.usual (Some EmptyString) EmptyString []
  = ([] ++ script_header Demo.usual ++ [number_prompt; no_number_notice], Ret tt)
  /\ files_written (main Demo.usual (Some EmptyString) EmptyString []).1
     = files_written []
  /\ generators_invoked (main Demo.usual (Some EmptyString) EmptyString []).1
     = generators_invoked [].
Proof.
  apply (no_number_no_analysis Demo.usual (Some EmptyString) []). reflexivity.
Defined.

(** X20.  A number given on the command line takes precedence: the script
    does not ask, and what would be typed makes no difference. *)
Theorem argument_takes_precedence (W : World) (s typed typed' : string)
    (t : trace) :
  Str.truthy s = true ->
  main W (Some s) typed t = main W (Some s) typed' t
  /\ prompts (main W (Some s) typed t).1 = prompts t.
Proof.
  intros Hs. rewrite !main_eq. cbv zeta.
  change (default EmptyString (Some s)) with s. rewrite Hs. cbv iota.
  rewrite Hs. split; [done|].
  rewrite app_nil_r. unfold bind.
  destruct (get_phone_info_outcome W s (t ++ script_header W))
    as (o1 & v & -> & P1 & _).
  destruct (display_results_outcome W v ((t ++ script_header W) ++ o1))
    as (o2 & r & -> & P2 & _).
  cbn [fst]. rewrite !prompts_app, P1, P2. cbn. by rewrite !app_nil_r.
Qed.

(** The usual number as the argument. *)
Lemma argument_takes_precedence_witness :
  main Demo.usual (Some "+14155552671") "+442079460958" []
  = main Demo.usual (Some "+14155552671") EmptyString []
  /\ prompts (main Demo.usual (Some "+14155552671") "+442079460958" []).1
     = prompts [].
Proof.
  apply (argument_takes_precedence Demo.usual "+14155552671" "+442079460958"
           EmptyString []).
  reflexivity.
Defined.

(** X21.  Without a number on the command line -- no argument or an empty
    one -- the script asks exactly once, and an empty argument is the same
    as none. *)
Theorem missing_argument_prompts_once (W : World) (argv : option string)
    (typed : string) (t : trace) :
  Str.truthy (default EmptyString argv) = false ->
  main W argv typed t = main W None typed t
  /\ prompts (main W argv typed t).1
     = prompts t
       ++ ["[bold yellow]➡️ Enter a phone number (e.g., +14155552671): [/bold yellow]"].
Proof.
  intros Hg. rewrite !main_eq. cbv zeta. rewrite Hg.
  change (Str.truthy (default EmptyString None)) with false. cbv iota.
  split; [done|].
  destruct (Str.truthy typed).
  - unfold bind.
    destruct (get_phone_info_outcome W typed
                (t ++ script_header W ++ [number_prompt]))
      as (o1 & v & -> & P1 & _).
    destruct (display_results_outcome W v
                ((t ++ script_header W ++ [number_prompt]) ++ o1))
      as (o2 & r & -> & P2 & _).
    cbn [fst]. rewrite !prompts_app, P1, P2. cbn. by rewrite !app_nil_r.
  - cbn [fst]. rewrite !prompts_app. cbn. by rewrite !app_nil_r.
Qed.

(** An empty argument, the usual number typed. *)
Lemma missing_argument_prompts_once_witness :
  main Demo.usual (Some EmptyString) "+14155552671" []
  = main Demo.usual None "+14155552671" []
  /\ prompts (main Demo.usual (Some EmptyString) "+14155552671" []).1
     = prompts []
       ++ ["[bold yellow]➡️ Enter a phone number (e.g., +14155552671): [/bold yellow]"].
Proof.
  apply (missing_argument_prompts_once Demo.usual (Some EmptyString)
           "+14155552671" []).
  reflexivity.
Defined.

(** X22.  Whatever the libraries answer and however it ends, a run of the
    script writes no file, or files among the map and the contact card of
    the analysed number, named after the library's E.164 form of it -- the
    map first, each at most once, and nothing else. *)
Theorem script_writes_at_most_two_files (W : World) (argv : option string)
    (typed : string) (t : trace) :
  exists out,
    (main W argv typed t).1 = t ++ out
    /\ (files_written out = []
        \/ exists obj e164,
             parse W (number_to_analyze argv typed) = Ret obj
             /\ is_valid_number W obj = Ret true
             /\ format_number W obj E164 = Ret e164
             /\ sublist (files_written out)
                  ["map_" +:+ e164 +:+ ".html"; "contact_" +:+ e164 +:+ ".png"]).
Proof.
  rewrite main_eq. cbv zeta. fold (number_to_analyze argv typed).
  set (header := script_header W
                   ++ (if Str.truthy (default EmptyString argv)
                       then [] else [number_prompt])).
  assert (files_written header = []) as Hheader.
  { unfold header. rewrite files_written_app.
    by destruct (Str.truthy (default EmptyString argv)). }
  destruct (Str.truthy (number_to_analyze argv typed)).
  - unfold bind.
    destruct (get_phone_info_outcome W (number_to_analyze argv typed) (t ++ header))
      as (o1 & v & Hrun & _ & F1 & _).
    rewrite Hrun.
    destruct (display_results_outcome W v ((t ++ header) ++ o1))
      as (o2 & r & -> & _ & F2).
    exists (header ++ o1 ++ o2). cbn [fst]. split; [by rewrite <- !app_assoc|].
    rewrite !files_written_app, Hheader, F1. cbn [app].
    destruct v as [| | | |message|items|info]; auto.
    right. apply get_phone_info_analysed in Hrun.
    destruct (analysed_basic_entry W (number_to_analyze argv typed) (t ++ header)
                ((t ++ header) ++ o1) info "E.164 Format" ltac:(literal_key) Hrun)
      as (obj & e164 & i & n & c & l & ca & Hparse & He & _ & _ & _ & _ & _ & Hk).
    destruct Hrun as [obj' ? ? ? ? ? ? ? ? ? Hparse' Hvalid].
    assert (obj' = obj) as -> by congruence.
    exists obj, e164. repeat (split; [done|]).
    revert F2. unfold map_filename, contact_filename, Dict.get. by rewrite Hk.
  - exists (header ++ [no_number_notice]). cbn [fst].
    split; [by rewrite <- !app_assoc|].
    left. by rewrite files_written_app, Hheader.
Qed.
